(** * Caixa Simples: role-gated cash-flow ledger

    A shallow embedding of the authorization and data-access core of the
    repository:

    - [src/contexts/AuthContext.tsx] (application-layer role predicates),
    - the SQL migration (role functions, row-level-security policies, the
      [handle_new_user] trigger, table constraints),
    - [src/hooks/useTransactions.ts] (client-side CRUD, filter and summary),
    - [src/pages/Users.tsx] (role management from the client),
    - the [db] edge function (server actions [signup], [getTransactions],
      [updateTransaction], [deleteTransaction], [updateUserRole], and
      [login], [getUser], [insertTransaction]),
    - [src/components/TransactionForm.tsx] (the entry form's schema and
      submission), [src/components/TransactionFilters.tsx] and
      [src/pages/Index.tsx] (the page's filters and summary),
    - the session state of [src/contexts/AuthContext.tsx] over the edge
      function.

    Tables are lists of rows in insertion order.  Values the database draws
    from its environment ([gen_random_uuid()], [now()], [crypt(...)]) are
    passed in as arguments.

    Amounts are JavaScript numbers on the client, that is IEEE 754 binary64
    values, modelled by Rocq's primitive floats; in the table they are
    [numeric(12,2)] values, modelled by their whole number of hundredths.

    A JavaScript string is a sequence of UTF-16 code units.  The embedding
    carries the strings whose code units are all below 256 (the Latin-1
    range, which holds the Portuguese alphabet): a Rocq [string] holds one
    character per code unit, so ['Á'] is the one character of code 193. *)

From Stdlib Require Import ZArith List String Ascii Bool Lia.
From Stdlib Require Import Permutation Sorted Orders Mergesort Floats.
Import ListNotations.

Set Implicit Arguments.

(** ** Shared data *)

(** [uuid] columns; only equality is ever used on them. *)
Definition uuid := nat.

(** [timestamp with time zone] columns and JavaScript [Date] values, as
    milliseconds since the epoch. *)
Definition timestamp := Z.

(** Outcome of a database statement: its result, or the error the database
    raises. *)
Inductive DbError : Type :=
| rls_violation          (* new row violates row-level security policy *)
| unique_violation       (* duplicate key value violates unique constraint *)
| invalid_uuid           (* invalid input syntax for type uuid *)
| syntax_error           (* malformed statement text *)
| not_null_violation     (* null value in a column that is NOT NULL *)
| numeric_field_overflow (* a value out of the range of numeric(12,2) *)
| already_registered.    (* edge function: 'User already registered' *)

Inductive result (A : Type) : Type :=
| Ok (a : A)
| Err (e : DbError).
Arguments Ok {A} a.
Arguments Err {A} e.

(** [SELECT EXISTS (SELECT 1 FROM ... WHERE ...)] over the selected rows. *)
Definition sql_exists {A : Type} (rows : list A) : bool :=
  match rows with
  | [] => false
  | _ :: _ => true
  end.

(** ** Roles: [app_role], the application predicates and the SQL functions *)

Module Roles.

(** [CREATE TYPE public.app_role AS ENUM (...)] and the TypeScript union
    [AppRole]. *)
Inductive AppRole : Type :=
| admin | view_only | edit | insert_expenses | insert_income.

Definition AppRole_eqb (a b : AppRole) : bool :=
  match a, b with
  | admin, admin | view_only, view_only | edit, edit
  | insert_expenses, insert_expenses | insert_income, insert_income => true
  | _, _ => false
  end.

(** A row of [public.user_roles]. *)
Record user_role : Type := mk_user_role {
  ur_id : uuid;
  ur_user_id : uuid;
  ur_role : AppRole;
  ur_created_at : timestamp
}.

(** *** Application layer (AuthContext.tsx) *)

(** [roles.includes(r)] on the [AppRole[]] state. *)
Definition includes (roles : list AppRole) (r : AppRole) : bool :=
  existsb (fun x => AppRole_eqb x r) roles.

Definition isAdmin (roles : list AppRole) : bool := includes roles admin.
Definition canView (roles : list AppRole) : bool :=
  Nat.ltb 0 (List.length roles).
Definition canEdit (roles : list AppRole) : bool :=
  isAdmin roles || includes roles edit.
Definition canInsertExpense (roles : list AppRole) : bool :=
  isAdmin roles || includes roles edit || includes roles insert_expenses.
Definition canInsertIncome (roles : list AppRole) : bool :=
  isAdmin roles || includes roles edit || includes roles insert_income.
Definition canDelete (roles : list AppRole) : bool :=
  isAdmin roles || includes roles edit.

(** [fetchUserData]: [select('*').eq('user_id', userId)] on [user_roles],
    then [data.map(r => r.role)]. *)
Definition fetch_roles (user_roles : list user_role) (userId : uuid)
  : list AppRole :=
  map ur_role (filter (fun r => Nat.eqb (ur_user_id r) userId) user_roles).

(** *** Database layer (SQL functions) *)

(** [role IN (...)]. *)
Definition role_in (r : AppRole) (rs : list AppRole) : bool :=
  existsb (AppRole_eqb r) rs.

(** The common shape of the [can_*] functions:
    [SELECT EXISTS (SELECT 1 FROM user_roles
                    WHERE user_id = _user_id AND role IN (...))]. *)
Definition exists_role_in (user_roles : list user_role) (_user_id : uuid)
    (rs : list AppRole) : bool :=
  sql_exists
    (filter (fun r => Nat.eqb (ur_user_id r) _user_id && role_in (ur_role r) rs)
            user_roles).

Definition can_delete (user_roles : list user_role) (_user_id : uuid) : bool :=
  exists_role_in user_roles _user_id [admin; edit].
Definition can_edit (user_roles : list user_role) (_user_id : uuid) : bool :=
  exists_role_in user_roles _user_id [admin; edit].
Definition can_insert_expense (user_roles : list user_role) (_user_id : uuid)
  : bool :=
  exists_role_in user_roles _user_id [admin; edit; insert_expenses].
Definition can_insert_income (user_roles : list user_role) (_user_id : uuid)
  : bool :=
  exists_role_in user_roles _user_id [admin; edit; insert_income].
Definition can_view (user_roles : list user_role) (_user_id : uuid) : bool :=
  exists_role_in user_roles _user_id
    [admin; view_only; edit; insert_expenses; insert_income].

(** [has_role]: [... WHERE user_id = _user_id AND role = _role]. *)
Definition has_role (user_roles : list user_role) (_user_id : uuid)
    (_role : AppRole) : bool :=
  sql_exists
    (filter (fun r => Nat.eqb (ur_user_id r) _user_id
                      && AppRole_eqb (ur_role r) _role)
            user_roles).

End Roles.

(** ** The ledger's data (types/transaction.ts and the [transactions] table) *)

Module Ledger.

Inductive TransactionType : Type := income | expense.

Definition TransactionType_eqb (a b : TransactionType) : bool :=
  match a, b with
  | income, income | expense, expense => true
  | _, _ => false
  end.

Inductive PaymentMethod : Type :=
| dinheiro | pix | cartao_credito | cartao_debito
| boleto | transferencia | cheque | outro.

(** A SQL [date]: whole days since the epoch. *)
Definition sql_date := Z.

Definition ms_per_day : Z := 86400000.

(** [new Date(t.date)] on a ['YYYY-MM-DD'] string: midnight UTC of that day. *)
Definition Date_of_sql (d : sql_date) : timestamp := (d * ms_per_day)%Z.

(** [date.toISOString().split('T')[0]]: the UTC calendar day of an instant. *)
Definition toISODate (d : timestamp) : sql_date := (d / ms_per_day)%Z.

(** A JavaScript [number]. *)
Definition number := float.

(** *** Amounts between the client and the column
        [amount numeric(12,2) NOT NULL] *)

(** A [numeric(12,2)] value, as its whole number of hundredths; the column
    holds the values below 10^10 in magnitude. *)
Definition numeric_12_2 := Z.

(** A whole number from 0 to 2^53, as a number. *)
Definition number_of_Z (n : Z) : number :=
  PrimFloat.of_uint63 (Uint63Axioms.of_Z n).

(** The integer nearest to [scale * m * 2^e] (a half goes upward). *)
Definition scaled (scale : Z) (m : positive) (e : Z) : Z :=
  if (0 <=? e)%Z then (scale * Z.pos m * 2 ^ e)%Z
  else ((2 * scale * Z.pos m + 2 ^ (- e)) / 2 ^ (1 - e))%Z.

(** The hundredths the database stores for a positive number [x = m * 2^e]
    below 10^10.  The request carries [x] as JSON, that is as the shortest
    decimal that reads back as [x]; the database rounds that decimal to two
    places, halves away from zero.  Below 10^10 the decimal has at most
    three places exactly when it is [n / 1000] for the integer [n] nearest
    to [1000 * x], and that is so exactly when [n / 1000] reads back as [x];
    a longer decimal lies on the same side of every half hundredth as [x]
    itself. *)
Definition hundredths (x : number) (m : positive) (e : Z) : Z :=
  let n := scaled 1000 m e in
  if PrimFloat.eqb (PrimFloat.div (number_of_Z n) 1000) (PrimFloat.abs x)
  then ((n + 5) / 10)%Z
  else scaled 100 m e.

(** A number sent as the value of [amount], read into the type of the
    column: [JSON.stringify] writes NaN and the infinities as [null]
    ([None]); a value that rounds to 10^10 or more in magnitude overflows;
    any other value is rounded to two places. *)
Definition read_numeric_12_2 (x : number) : result (option numeric_12_2) :=
  match Prim2SF x with
  | S754_nan | S754_infinity _ => Ok None
  | S754_zero _ => Ok (Some 0%Z)
  | S754_finite negative m e =>
      if PrimFloat.leb 10000000000 (PrimFloat.abs x)
      then Err numeric_field_overflow
      else
        let c := hundredths x m e in
        if (1000000000000 <=? c)%Z then Err numeric_field_overflow
        else Ok (Some (if negative then (- c)%Z else c))
  end.

(** The constraint [NOT NULL], checked when the row is stored. *)
Definition not_null {A : Type} (v : option A) : result A :=
  match v with
  | Some a => Ok a
  | None => Err not_null_violation
  end.

(** A number sent as the value of [amount], as the column takes it. *)
Definition to_numeric_12_2 (x : number) : result numeric_12_2 :=
  match read_numeric_12_2 x with
  | Ok v => not_null v
  | Err e => Err e
  end.

(** [Number(t.amount)] on a stored amount: the number nearest to it. *)
Definition Number_of_numeric (c : numeric_12_2) : number :=
  if (c <? 0)%Z then PrimFloat.opp (PrimFloat.div (number_of_Z (- c)) 100)
  else PrimFloat.div (number_of_Z c) 100.

(** A row of [public.transactions]. *)
Module Row.
Record DbTransaction : Type := mk {
  id : uuid;
  user_id : uuid;
  date : sql_date;
  type : TransactionType;
  client_supplier : string;
  amount : numeric_12_2;
  description : option string;
  payment_method : PaymentMethod;
  created_at : timestamp;
  updated_at : timestamp
}.
End Row.
Definition DbTransaction : Type := Row.DbTransaction.

(** [interface Transaction], the client's view. *)
Module Tx.
Record Transaction : Type := mk {
  id : uuid;
  user_id : uuid;
  date : timestamp;
  type : TransactionType;
  clientSupplier : string;
  amount : number;
  description : string;
  paymentMethod : PaymentMethod;
  createdAt : timestamp
}.
End Tx.
Definition Transaction : Type := Tx.Transaction.

(** [mapDbToTransaction]; [t.description || ''] turns [null] (and the empty
    string) into the empty string. *)
Definition mapDbToTransaction (t : DbTransaction) : Transaction :=
  {| Tx.id := Row.id t;
     Tx.user_id := Row.user_id t;
     Tx.date := Date_of_sql (Row.date t);
     Tx.type := Row.type t;
     Tx.clientSupplier := Row.client_supplier t;
     Tx.amount := Number_of_numeric (Row.amount t);
     Tx.description := match Row.description t with
                       | Some s => s
                       | None => EmptyString
                       end;
     Tx.paymentMethod := Row.payment_method t;
     Tx.createdAt := Row.created_at t |}.

(** The values sent for an [INSERT INTO transactions (...)]; [id],
    [created_at] and [updated_at] take their defaults. *)
Record InsertValues : Type := mk_insert {
  i_user_id : uuid;
  i_date : sql_date;
  i_type : TransactionType;
  i_client_supplier : string;
  i_amount : number;
  i_description : option string;
  i_payment_method : PaymentMethod
}.

(** The row the statement builds, with the amount as the column took it. *)
Definition new_row (gen_random_uuid : uuid) (now : timestamp)
    (v : InsertValues) (amount : numeric_12_2) : DbTransaction :=
  {| Row.id := gen_random_uuid;
     Row.user_id := i_user_id v;
     Row.date := i_date v;
     Row.type := i_type v;
     Row.client_supplier := i_client_supplier v;
     Row.amount := amount;
     Row.description := i_description v;
     Row.payment_method := i_payment_method v;
     Row.created_at := now;
     Row.updated_at := now |}.

(** The values sent for an [UPDATE transactions SET ...]; [None] is a column
    left out of the statement ([undefined] in the JavaScript object). *)
Record Updates : Type := mk_updates {
  u_date : option sql_date;
  u_type : option TransactionType;
  u_client_supplier : option string;
  u_amount : option number;
  u_description : option string;
  u_payment_method : option PaymentMethod
}.

Definition or_else {A : Type} (o : option A) (old : A) : A :=
  match o with
  | Some v => v
  | None => old
  end.

(** The amount an update assigns, as the column takes it. *)
Definition assigned_amount (u : Updates) : result (option numeric_12_2) :=
  match u_amount u with
  | None => Ok None
  | Some a =>
      match to_numeric_12_2 a with
      | Ok c => Ok (Some c)
      | Err e => Err e
      end
  end.

(** [SET col = value, ...] on one row, with the amount as the column took
    it, then [updated_at = now()] (the [update_updated_at_column] trigger,
    or the explicit assignment of the edge function). *)
Definition set_columns (u : Updates) (amount : option numeric_12_2)
    (now : timestamp) (t : DbTransaction) : DbTransaction :=
  {| Row.id := Row.id t;
     Row.user_id := Row.user_id t;
     Row.date := or_else (u_date u) (Row.date t);
     Row.type := or_else (u_type u) (Row.type t);
     Row.client_supplier := or_else (u_client_supplier u) (Row.client_supplier t);
     Row.amount := or_else amount (Row.amount t);
     Row.description := match u_description u with
                        | Some s => Some s
                        | None => Row.description t
                        end;
     Row.payment_method := or_else (u_payment_method u) (Row.payment_method t);
     Row.created_at := Row.created_at t;
     Row.updated_at := now |}.

(** No column is assigned. *)
Definition no_columns (u : Updates) : bool :=
  match u_date u, u_type u, u_client_supplier u,
        u_amount u, u_description u, u_payment_method u with
  | None, None, None, None, None, None => true
  | _, _, _, _, _, _ => false
  end.

(** The statement reaches the row. *)
Definition reached (may_touch : bool) (target : uuid) (t : DbTransaction)
  : bool :=
  may_touch && Nat.eqb (Row.id t) target.

(** [UPDATE ... WHERE id = $id] restricted to the rows the statement may
    touch.  The amount is converted when it is assigned to a row: a
    statement that reaches no row raises no error, one that reaches a row
    with an amount the column refuses raises the error and changes
    nothing. *)
Definition assign_where_id (may_touch : bool) (u : Updates)
    (amount : option numeric_12_2) (now : timestamp) (target : uuid)
    (rows : list DbTransaction) : list DbTransaction :=
  map (fun t => if reached may_touch target t
                then set_columns u amount now t else t) rows.

Definition update_where_id (may_touch : bool) (u : Updates) (now : timestamp)
    (target : uuid) (rows : list DbTransaction) : result (list DbTransaction) :=
  if existsb (reached may_touch target) rows then
    match assigned_amount u with
    | Ok amount => Ok (assign_where_id may_touch u amount now target rows)
    | Err e => Err e
    end
  else Ok rows.

(** [DELETE ... WHERE id = $id] restricted likewise. *)
Definition delete_where_id (may_touch : bool) (target : uuid)
    (rows : list DbTransaction) : list DbTransaction :=
  filter (fun t => negb (may_touch && Nat.eqb (Row.id t) target)) rows.

(** [ORDER BY date DESC]: [leb a b] when [a] may come before [b]. *)
Module DateDesc <: Orders.TotalLeBool.
Definition t := DbTransaction.
Definition leb (a b : t) : bool := (Row.date b <=? Row.date a)%Z.
Lemma date_desc_total : forall a b, leb a b = true \/ leb b a = true.
Proof.
  intros a b. unfold leb.
  destruct (Z.leb_spec (Row.date b) (Row.date a)) as [H|H]; [now left|].
  right. apply Z.leb_le. lia.
Qed.
Definition leb_total := date_desc_total.
End DateDesc.

(** [ORDER BY date DESC, created_at DESC]. *)
Module DateCreatedDesc <: Orders.TotalLeBool.
Definition t := DbTransaction.
Definition leb (a b : t) : bool :=
  (Row.date b <? Row.date a)%Z
  || ((Row.date b =? Row.date a)%Z
      && (Row.created_at b <=? Row.created_at a)%Z).
Lemma date_created_desc_total : forall a b, leb a b = true \/ leb b a = true.
Proof.
  intros a b. unfold leb.
  destruct (Z.ltb_spec (Row.date b) (Row.date a)) as [H|H]; [now left|].
  destruct (Z.ltb_spec (Row.date a) (Row.date b)) as [H'|H']; [now right|].
  assert (E : Row.date a = Row.date b) by lia.
  rewrite E, Z.eqb_refl. simpl.
  destruct (Z.leb_spec (Row.created_at b) (Row.created_at a)) as [K|K];
    [now left|].
  right. apply Z.leb_le. lia.
Qed.
Definition leb_total := date_created_desc_total.
End DateCreatedDesc.

(** One order the database may produce for each sort key. *)
Module SortDateDesc := Mergesort.Sort DateDesc.
Module SortDateCreatedDesc := Mergesort.Sort DateCreatedDesc.

(** What a [SELECT ... ORDER BY] may return for a given set of rows and sort
    key: the same rows, in some order that respects the key.  Rows that tie
    on the key come in an order the database does not promise. *)
Definition ordered_result (leb : DbTransaction -> DbTransaction -> bool)
    (rows data : list DbTransaction) : Prop :=
  Permutation rows data /\ StronglySorted (fun a b => leb a b = true) data.

End Ledger.

(** ** The Supabase backend: tables, row-level security, the signup trigger *)

Module Supabase.
Import Roles Ledger.

(** A row of [public.profiles]. *)
Record profile : Type := mk_profile {
  p_id : uuid;
  p_email : string;
  p_full_name : option string;
  p_created_at : timestamp;
  p_updated_at : timestamp
}.

Record Database : Type := mk_db {
  profiles : list profile;
  user_roles : list user_role;
  transactions : list DbTransaction
}.

Definition with_transactions (db : Database) (rows : list DbTransaction)
  : Database :=
  {| profiles := profiles db; user_roles := user_roles db; transactions := rows |}.

Definition with_user_roles (db : Database) (rows : list user_role) : Database :=
  {| profiles := profiles db; user_roles := rows; transactions := transactions db |}.

(** A policy expression in [auth.uid()]; the policies on [transactions] are
    [TO authenticated], so a request without a session passes none. *)
Definition as_user (auth_uid : option uuid) (p : uuid -> bool) : bool :=
  match auth_uid with
  | Some u => p u
  | None => false
  end.

(** "Authenticated users can view transactions":
    [FOR SELECT USING (can_view(auth.uid()))]. *)
Definition policy_select (db : Database) (auth_uid : option uuid) : bool :=
  as_user auth_uid (can_view (user_roles db)).

(** "Users with edit or insert_income can insert income":
    [FOR INSERT WITH CHECK ((type = 'income' AND can_insert_income(auth.uid()))
                         OR (type = 'expense' AND can_insert_expense(auth.uid())))]. *)
Definition policy_insert (db : Database) (auth_uid : option uuid)
    (type : TransactionType) : bool :=
  as_user auth_uid (fun u =>
    (TransactionType_eqb type income && can_insert_income (user_roles db) u)
    || (TransactionType_eqb type expense && can_insert_expense (user_roles db) u)).

(** "Users with edit permission can delete transactions". *)
Definition policy_delete (db : Database) (auth_uid : option uuid) : bool :=
  as_user auth_uid (can_delete (user_roles db)).

(** "Users with edit permission can update transactions". *)
Definition policy_update (db : Database) (auth_uid : option uuid) : bool :=
  as_user auth_uid (can_edit (user_roles db)).

(** "Admins can manage all roles": [USING (has_role(auth.uid(), 'admin'))]. *)
Definition policy_manage_roles (db : Database) (auth_uid : option uuid) : bool :=
  as_user auth_uid (fun u => has_role (user_roles db) u admin).

(** [INSERT INTO transactions ... RETURNING *]: the values are first read
    into the column types, where an amount out of range raises its error;
    the row built from them must then pass the policy's check, and then the
    table's constraints.  On an error nothing is stored. *)
Definition insert_transaction (db : Database) (auth_uid : option uuid)
    (gen_random_uuid : uuid) (now : timestamp) (v : InsertValues)
  : result (Database * DbTransaction) :=
  match read_numeric_12_2 (i_amount v) with
  | Err e => Err e
  | Ok read =>
      if policy_insert db auth_uid (i_type v) then
        match not_null read with
        | Err e => Err e
        | Ok amount =>
            let row := new_row gen_random_uuid now v amount in
            Ok (with_transactions db (transactions db ++ [row]), row)
        end
      else Err rls_violation
  end.

(** [UPDATE transactions SET ... WHERE id = $id]: rows the policy hides are
    not touched, and that is not an error.  An update object without columns
    produces no statement. *)
Definition update_transaction (db : Database) (auth_uid : option uuid)
    (now : timestamp) (id : uuid) (u : Updates) : result Database :=
  if no_columns u then Ok db
  else
    match update_where_id (policy_update db auth_uid) u now id
            (transactions db) with
    | Ok rows => Ok (with_transactions db rows)
    | Err e => Err e
    end.

(** [DELETE FROM transactions WHERE id = $id], likewise. *)
Definition delete_transaction (db : Database) (auth_uid : option uuid)
    (id : uuid) : Database :=
  with_transactions db
    (delete_where_id (policy_delete db auth_uid) id (transactions db)).

(** The rows a [SELECT] on [transactions] sees. *)
Definition visible_transactions (db : Database) (auth_uid : option uuid)
  : list DbTransaction :=
  if policy_select db auth_uid then transactions db else [].

(** [select('*').order('date', { ascending: false })]. *)
Definition select_order_date_desc (db : Database) (auth_uid : option uuid)
    (data : list DbTransaction) : Prop :=
  ordered_result DateDesc.leb (visible_transactions db auth_uid) data.

(** The unique constraint [user_roles_user_id_role_key]. *)
Fixpoint unique_user_id_role (rows : list user_role) : bool :=
  match rows with
  | [] => true
  | r :: rest =>
      negb (existsb (fun r' => Nat.eqb (ur_user_id r') (ur_user_id r)
                               && AppRole_eqb (ur_role r') (ur_role r)) rest)
      && unique_user_id_role rest
  end.

Definition set_role (newRole : AppRole) (r : user_role) : user_role :=
  {| ur_id := ur_id r; ur_user_id := ur_user_id r;
     ur_role := newRole; ur_created_at := ur_created_at r |}.

(** [UPDATE user_roles SET role = $role WHERE id = $id]. *)
Definition update_role_where_id (db : Database) (auth_uid : option uuid)
    (id : uuid) (newRole : AppRole) : result Database :=
  if policy_manage_roles db auth_uid then
    let rows := map (fun r => if Nat.eqb (ur_id r) id then set_role newRole r
                              else r) (user_roles db) in
    if unique_user_id_role rows then Ok (with_user_roles db rows)
    else Err unique_violation
  else Ok db.

(** The row of [auth.users] a signup inserts, as the trigger reads it. *)
Record auth_user : Type := mk_auth_user {
  au_id : uuid;
  au_email : string;
  au_full_name : option string   (* raw_user_meta_data ->> 'full_name' *)
}.

(** The trigger function [handle_new_user()]. *)
Definition handle_new_user (db : Database) (NEW : auth_user)
    (gen_random_uuid : uuid) (now : timestamp) : Database :=
  let profiles' :=
    profiles db ++ [mk_profile (au_id NEW) (au_email NEW) (au_full_name NEW) now now] in
  let role :=
    if Nat.eqb (List.length (user_roles db)) 0 then admin else view_only in
  {| profiles := profiles';
     user_roles := user_roles db ++ [mk_user_role gen_random_uuid (au_id NEW) role now];
     transactions := transactions db |}.

Definition empty : Database :=
  {| profiles := []; user_roles := []; transactions := [] |}.

End Supabase.

(** ** The client: [useTransactions] and the users page *)

Module Hook.
Import Roles Ledger Supabase.

(** [Omit<Transaction, 'id' | 'createdAt' | 'user_id'>]. *)
Record NewTransaction : Type := mk_new {
  n_date : timestamp;
  n_type : TransactionType;
  n_clientSupplier : string;
  n_amount : number;
  n_description : string;
  n_paymentMethod : PaymentMethod
}.

(** [Partial<Omit<Transaction, ...>>]; [None] is [undefined]. *)
Record PartialTransaction : Type := mk_partial {
  p_date : option timestamp;
  p_type : option TransactionType;
  p_clientSupplier : option string;
  p_amount : option number;
  p_description : option string;
  p_paymentMethod : option PaymentMethod
}.

(** JavaScript truthiness of the value kinds tested by [if (x)]: a string is
    truthy unless empty; a [Date] object and the non-empty literals of
    [TransactionType] and [PaymentMethod] always are. *)
Definition truthy_string (s : string) : bool :=
  match s with
  | EmptyString => false
  | String _ _ => true
  end.
Definition truthy_Date (_ : timestamp) : bool := true.
Definition truthy_TransactionType (_ : TransactionType) : bool := true.
Definition truthy_PaymentMethod (_ : PaymentMethod) : bool := true.

(** [if (v) updates.col = f(v)]. *)
Definition if_truthy {A B : Type} (truthy : A -> bool) (f : A -> B)
    (v : option A) : option B :=
  match v with
  | Some x => if truthy x then Some (f x) else None
  | None => None
  end.

(** [if (v !== undefined) updates.col = v]. *)
Definition if_defined {A : Type} (v : option A) : option A := v.

(** The [updates] object built by [updateTransaction]. *)
Definition build_updates (transaction : PartialTransaction) : Updates :=
  {| u_date := if_truthy truthy_Date toISODate (p_date transaction);
     u_type := if_truthy truthy_TransactionType (fun x => x) (p_type transaction);
     u_client_supplier :=
       if_truthy truthy_string (fun x => x) (p_clientSupplier transaction);
     u_amount := if_defined (p_amount transaction);
     u_description := if_defined (p_description transaction);
     u_payment_method :=
       if_truthy truthy_PaymentMethod (fun x => x) (p_paymentMethod transaction) |}.

(** [fetchTransactions]: without a user nothing happens; otherwise the
    [transactions] state becomes the mapped result of the query. *)
Definition fetchTransactions (user : option uuid) (db : Database)
    (state state' : list Transaction) : Prop :=
  match user with
  | None => state' = state
  | Some _ =>
      exists data, select_order_date_desc db user data
                   /\ state' = map mapDbToTransaction data
  end.

(** [addTransaction]: the database after the call, the [transactions] state
    after it, and the value returned ([None] for [undefined]). *)
Definition addTransaction (user : option uuid) (gen_random_uuid : uuid)
    (now : timestamp) (transaction : NewTransaction)
    (db : Database) (state : list Transaction)
  : Database * list Transaction * option bool :=
  match user with
  | None => (db, state, None)
  | Some user_id =>
      match insert_transaction db user gen_random_uuid now
              {| i_user_id := user_id;
                 i_date := toISODate (n_date transaction);
                 i_type := n_type transaction;
                 i_client_supplier := n_clientSupplier transaction;
                 i_amount := n_amount transaction;
                 i_description := Some (n_description transaction);
                 i_payment_method := n_paymentMethod transaction |} with
      | Err _ => (db, state, Some false)
      | Ok (db', data) => (db', mapDbToTransaction data :: state, Some true)
      end
  end.

(** [updateTransaction]: the database after the call and the value returned:
    [false] when the statement raised an error, [true] otherwise (after
    [fetchTransactions]). *)
Definition updateTransaction (user : option uuid) (now : timestamp) (id : uuid)
    (transaction : PartialTransaction) (db : Database) : Database * bool :=
  match update_transaction db user now id (build_updates transaction) with
  | Err _ => (db, false)
  | Ok db' => (db', true)
  end.

(** [deleteTransaction]: database, [transactions] state, returned value. *)
Definition deleteTransaction (user : option uuid) (id : uuid)
    (db : Database) (state : list Transaction)
  : Database * list Transaction * bool :=
  (delete_transaction db user id,
   filter (fun t => negb (Nat.eqb (Tx.id t) id)) state,
   true).

(** *** Filtering *)

(** The lower case of one code unit below 256: the capital letters are
    ['A'] to ['Z'] (65 to 90) and ['À'] to ['Þ'] (192 to 222) without the
    sign ['×'] (215); each has its small letter 32 further on.  Every other
    code unit of the range is its own lower case. *)
Definition is_capital (n : nat) : bool :=
  (Nat.leb 65 n && Nat.leb n 90)
  || (Nat.leb 192 n && Nat.leb n 222 && negb (Nat.eqb n 215)).

Definition lower_unit (c : ascii) : ascii :=
  let n := nat_of_ascii c in
  if is_capital n then ascii_of_nat (n + 32) else c.

(** [String.prototype.toLowerCase]: on these strings it maps every code
    unit by itself. *)
Fixpoint toLowerCase (s : string) : string :=
  match s with
  | EmptyString => EmptyString
  | String c s' => String (lower_unit c) (toLowerCase s')
  end.

(** [s.includes(sub)]. *)
Fixpoint str_includes (s sub : string) : bool :=
  String.prefix sub s
  || match s with
     | EmptyString => false
     | String _ s' => str_includes s' sub
     end.

(** The [type] filter: a transaction type or ['all']. *)
Inductive TypeFilter : Type :=
| all
| only (type : TransactionType).

Record Filters : Type := mk_filters {
  startDate : option timestamp;
  endDate : option timestamp;
  f_type : option TypeFilter;
  search : option string
}.

(** The callback of [transactions.filter] in [getFilteredTransactions]. *)
Definition keeps (filters : Filters) (t : Transaction) : bool :=
  if match startDate filters with
     | Some start => (Tx.date t <? start)%Z
     | None => false
     end
  then false
  else if match endDate filters with
          | Some stop => (Tx.date t >? stop)%Z
          | None => false
          end
  then false
  else if match f_type filters with
          | Some (only type) => negb (TransactionType_eqb (Tx.type t) type)
          | Some all | None => false
          end
  then false
  else match search filters with
       | Some s =>
           if truthy_string s then
             let searchLower := toLowerCase s in
             str_includes (toLowerCase (Tx.clientSupplier t)) searchLower
             || str_includes (toLowerCase (Tx.description t)) searchLower
           else true
       | None => true
       end.

Definition getFilteredTransactions (transactions : list Transaction)
    (filters : Filters) : list Transaction :=
  filter (keeps filters) transactions.

(** *** Summary *)

Module Sum.
Record Summary : Type := mk { income : number; expense : number; balance : number }.
End Sum.
Definition Summary : Type := Sum.Summary.

(** [xs.filter(t => t.type === type).reduce((sum, t) => sum + t.amount, 0)]
    over an addition [add] starting from [zero]. *)
Definition total_of {num : Type} (zero : num) (add : num -> num -> num)
    (amount : Transaction -> num) (type : TransactionType)
    (xs : list Transaction) : num :=
  fold_left (fun sum t => add sum (amount t))
            (filter (fun t => TransactionType_eqb (Tx.type t) type) xs)
            zero.

(** [getSummary], in JavaScript's binary64 arithmetic. *)
Definition getSummary (filteredTransactions : list Transaction) : Summary :=
  let income :=
    total_of 0%float PrimFloat.add Tx.amount Ledger.income filteredTransactions in
  let expense :=
    total_of 0%float PrimFloat.add Tx.amount Ledger.expense filteredTransactions in
  {| Sum.income := income;
     Sum.expense := expense;
     Sum.balance := PrimFloat.sub income expense |}.

End Hook.

Module UsersPage.
Import Roles Supabase.

(** [handleRoleChange(userId, roleId, newRole)]: the effect on the database.
    [roleId] is the id of the role row the page found for the user, or the
    empty string ([None]) when it found none, which is not a uuid.  On an
    error the page shows it and stops. *)
Definition handleRoleChange (auth_uid : option uuid) (roleId : option uuid)
    (newRole : AppRole) (db : Database) : result Database :=
  match roleId with
  | None => Err invalid_uuid
  | Some id => update_role_where_id db auth_uid id newRole
  end.

End UsersPage.

(** ** The [db] edge function: server actions over its own tables *)

Module Edge.
Import Roles Ledger.

(** A row of [users]. *)
Record user : Type := mk_user {
  u_id : uuid;
  u_email : string;
  u_password_hash : string;
  u_full_name : option string;
  u_created_at : timestamp
}.

Record Database : Type := mk_db {
  users : list user;
  user_roles : list user_role;
  transactions : list DbTransaction
}.

Definition empty : Database :=
  {| users := []; user_roles := []; transactions := [] |}.

(** What the database supplies during one [signup]: the new user's id, the
    salted hash [crypt(password, gen_salt('bf'))], the role row's id, and the
    time. *)
Record SignupEnv : Type := mk_env {
  new_user_id : uuid;
  password_hash : string;
  new_role_id : uuid;
  now : timestamp
}.

(** The JavaScript values compared in [signup]. *)
Inductive JsValue : Type :=
| JsNumber (n : Z)     (* a number literal *)
| JsBigInt (n : Z).    (* a BigInt *)

(** [a === b]: values of different types are never strictly equal. *)
Definition strict_equals (a b : JsValue) : bool :=
  match a, b with
  | JsNumber x, JsNumber y => (x =? y)%Z
  | JsBigInt x, JsBigInt y => (x =? y)%Z
  | _, _ => false
  end.

(** The [count] column of the counting query: a [bigint], which the
    driver hands over as a BigInt (the cast [as { count: number }] is erased
    at run time). *)
Definition count_rows {A : Type} (rows : list A) : JsValue :=
  JsBigInt (Z.of_nat (List.length rows)).

(** [case 'signup']. *)
Definition signup (db : Database) (email : string) (fullName : option string)
    (env : SignupEnv) : result (Database * user) :=
  let existing := filter (fun u => String.eqb (u_email u) email) (users db) in
  if Nat.ltb 0 (List.length existing) then Err already_registered
  else
    let user := mk_user (new_user_id env) email (password_hash env) fullName
                        (now env) in
    let users' := users db ++ [user] in
    let count := count_rows users' in
    let role := if strict_equals count (JsNumber 1) then admin else view_only in
    Ok ({| users := users';
           user_roles := user_roles db
                         ++ [mk_user_role (new_role_id env) (u_id user) role (now env)];
           transactions := transactions db |},
        user).

(** [case 'getTransactions']:
    [SELECT * FROM transactions WHERE user_id = $userId
     ORDER BY date DESC, created_at DESC]. *)
Definition getTransactions (db : Database) (userId : uuid)
    (result : list DbTransaction) : Prop :=
  ordered_result DateCreatedDesc.leb
    (filter (fun t => Nat.eqb (Row.user_id t) userId) (transactions db))
    result.

(** [case 'updateTransaction']: with no field defined the statement text is
    [SET , updated_at = NOW()], which the database rejects; otherwise the
    first returned row, if any, is the result.  The request body is JSON, so
    an amount that was NaN or infinite arrives as [null] and is assigned as
    such. *)
Definition updateTransaction (db : Database) (id : uuid) (data : Updates)
    (now : timestamp) : result (Database * option DbTransaction) :=
  if no_columns data then Err syntax_error
  else
    match update_where_id true data now id (transactions db) with
    | Ok rows =>
        Ok ({| users := users db; user_roles := user_roles db;
               transactions := rows |},
            hd_error (filter (fun t => Nat.eqb (Row.id t) id) rows))
    | Err e => Err e
    end.

(** [case 'deleteTransaction']: the result is [{ success: true }]. *)
Definition deleteTransaction (db : Database) (id : uuid) : Database * bool :=
  ({| users := users db; user_roles := user_roles db;
      transactions := delete_where_id true id (transactions db) |},
   true).

(** [case 'updateUserRole']: [DELETE FROM user_roles WHERE user_id = $userId],
    then [INSERT INTO user_roles (user_id, role) VALUES ($userId, $role)]. *)
Definition updateUserRole (db : Database) (userId : uuid) (role : AppRole)
    (gen_random_uuid : uuid) (now : timestamp) : Database * bool :=
  let kept := filter (fun r => negb (Nat.eqb (ur_user_id r) userId)) (user_roles db) in
  ({| users := users db;
      user_roles := kept ++ [mk_user_role gen_random_uuid userId role now];
      transactions := transactions db |},
   true).

End Edge.

(** ** The entry form (components/TransactionForm.tsx) *)

Module Form.
Import Ledger Hook.

(** [const defaultType = canInsertExpense ? 'expense' : 'income']. *)
Definition defaultType (canInsertExpense : bool) : TransactionType :=
  if canInsertExpense then expense else income.

Definition canSelectBoth (canInsertExpense canInsertIncome : bool) : bool :=
  canInsertExpense && canInsertIncome.

(** The [type] field after the user pressed the two type buttons in the
    given order: the buttons exist only when both directions are allowed;
    otherwise the field keeps its default. *)
Definition selectedType (canInsertExpense canInsertIncome : bool)
    (pressed : list TransactionType) : TransactionType :=
  if canSelectBoth canInsertExpense canInsertIncome
  then last pressed (defaultType canInsertExpense)
  else defaultType canInsertExpense.

(** The field values handed to the resolver: a date and a payment method
    may be missing; an empty amount field reads as NaN. *)
Record FormValues : Type := mk_values {
  v_date : option timestamp;
  v_type : TransactionType;
  v_clientSupplier : string;
  v_amount : number;
  v_description : string;
  v_paymentMethod : option PaymentMethod
}.

(** [z.string().min(lo).max(hi)]: the bounds are on [length], the number
    of code units. *)
Definition string_between (lo hi : nat) (s : string) : bool :=
  Nat.leb lo (String.length s) && Nat.leb (String.length s) hi.

(** [z.number().positive()]: NaN is not a number for the schema, and is
    not greater than 0 either; positive infinity passes. *)
Definition positive (x : number) : bool := PrimFloat.ltb 0 x.

(** White space and line terminators removed by [trim], among the code
    units below 256: tab to carriage return, the space and the no-break
    space. *)
Definition is_space (c : ascii) : bool :=
  let n := nat_of_ascii c in
  (Nat.leb 9 n && Nat.leb n 13) || Nat.eqb n 32 || Nat.eqb n 160.

Fixpoint trimStart (s : string) : string :=
  match s with
  | EmptyString => EmptyString
  | String c s' => if is_space c then trimStart s' else s
  end.

Fixpoint trimEnd (s : string) : string :=
  match s with
  | EmptyString => EmptyString
  | String c s' =>
      match trimEnd s' with
      | EmptyString => if is_space c then EmptyString else String c EmptyString
      | rest => String c rest
      end
  end.

Definition trim (s : string) : string := trimEnd (trimStart s).

(** [handleSubmit(handleFormSubmit)]: the values are parsed by [formSchema];
    when they pass, [handleFormSubmit] hands the transaction to [onSubmit]
    with the two texts trimmed; when they do not, nothing is submitted. *)
Definition submitted (v : FormValues) : option NewTransaction :=
  match v_date v, v_paymentMethod v with
  | Some date, Some paymentMethod =>
      if string_between 1 100 (v_clientSupplier v)
         && positive (v_amount v)
         && string_between 1 500 (v_description v)
      then Some {| n_date := date;
                   n_type := v_type v;
                   n_clientSupplier := trim (v_clientSupplier v);
                   n_amount := v_amount v;
                   n_description := trim (v_description v);
                   n_paymentMethod := paymentMethod |}
      else None
  | _, _ => None
  end.

End Form.

(** ** The page (pages/Index.tsx) and its filter panel
       (components/TransactionFilters.tsx) *)

Module Page.
Import Ledger Hook.

(** [const canAddTransaction = canInsertExpense || canInsertIncome]: the
    form is rendered only then. *)
Definition canAddTransaction (canInsertExpense canInsertIncome : bool) : bool :=
  canInsertExpense || canInsertIncome.

(** [interface Filters] of the page and the panel: [type] and [search] are
    always present. *)
Record Filters : Type := mk_filters {
  startDate : option timestamp;
  endDate : option timestamp;
  type : TypeFilter;
  search : string
}.

(** The page's initial [filters] state. *)
Definition initialFilters : Filters :=
  {| startDate := None; endDate := None; type := all; search := EmptyString |}.

(** The object [clearFilters] passes to [onFiltersChange]. *)
Definition clearFilters : Filters :=
  {| startDate := None; endDate := None; type := all; search := EmptyString |}.

(** [filters.startDate || filters.endDate || filters.type !== 'all'
     || filters.search], as a condition. *)
Definition hasActiveFilters (filters : Filters) : bool :=
  match startDate filters with Some _ => true | None =>
  match endDate filters with Some _ => true | None =>
  match type filters with
  | only _ => true
  | all => truthy_string (search filters)
  end end end.

(** The page's filters as the argument of [getFilteredTransactions]. *)
Definition as_hook_filters (filters : Filters) : Hook.Filters :=
  {| Hook.startDate := startDate filters;
     Hook.endDate := endDate filters;
     Hook.f_type := Some (type filters);
     Hook.search := Some (search filters) |}.

(** [filteredTransactions] and [summary] of the page. *)
Definition filteredTransactions (transactions : list Transaction)
    (filters : Filters) : list Transaction :=
  getFilteredTransactions transactions (as_hook_filters filters).

Definition summary (transactions : list Transaction) (filters : Filters)
  : Summary :=
  getSummary (filteredTransactions transactions filters).

End Page.

(** ** Row-level security on [profiles] and [user_roles], and the rest of
       the users page (pages/Users.tsx) *)

Module Rls.
Import Roles Supabase.

(** The command a policy is [FOR]; a policy without [FOR] is for all. *)
Inductive Command : Type := SELECT | INSERT | UPDATE | DELETE | ALL.

Definition applies_to (policy_for command : Command) : bool :=
  match policy_for, command with
  | ALL, _ => true
  | SELECT, SELECT | INSERT, INSERT | UPDATE, UPDATE | DELETE, DELETE => true
  | _, _ => false
  end.

(** A policy: its command and its [USING] expression over the database,
    [auth.uid()] and the row. *)
Record Policy (row : Type) : Type := mk_policy {
  policy_for : Command;
  policy_using : Database -> option uuid -> row -> bool
}.
Arguments mk_policy {row} _ _.
Arguments policy_for {row} _.
Arguments policy_using {row} _ _ _ _.

(** With row security enabled, a command reaches a row when some policy for
    that command accepts the row; with no such policy it reaches none. *)
Definition permits {row : Type} (policies : list (Policy row))
    (command : Command) (db : Database) (auth_uid : option uuid) (r : row)
  : bool :=
  existsb (fun p => applies_to (policy_for p) command
                   && policy_using p db auth_uid r)
          policies.

(** [auth.uid() = id]; with no session [auth.uid()] is null and the
    comparison is not true. *)
Definition uid_is (auth_uid : option uuid) (id : uuid) : bool :=
  as_user auth_uid (fun u => Nat.eqb u id).

Definition is_admin (db : Database) (auth_uid : option uuid) : bool :=
  as_user auth_uid (fun u => has_role (user_roles db) u admin).

(** "Admins can view all profiles", "Users can update own profile",
    "Users can view own profile". *)
Definition profiles_policies : list (Policy profile) :=
  [ mk_policy SELECT (fun db auth_uid _ => is_admin db auth_uid);
    mk_policy UPDATE (fun _ auth_uid p => uid_is auth_uid (p_id p));
    mk_policy SELECT (fun _ auth_uid p => uid_is auth_uid (p_id p)) ].

(** "Admins can manage all roles", "Users can view own roles". *)
Definition user_roles_policies : list (Policy user_role) :=
  [ mk_policy ALL (fun db auth_uid _ => is_admin db auth_uid);
    mk_policy SELECT (fun _ auth_uid r => uid_is auth_uid (ur_user_id r)) ].

(** [from(table).select('*')]: the rows the caller may see, in an order the
    database does not promise. *)
Definition select_all {row : Type} (policies : list (Policy row))
    (db : Database) (auth_uid : option uuid) (rows data : list row) : Prop :=
  Permutation (filter (permits policies SELECT db auth_uid) rows) data.

(** [from('profiles').delete().eq('id', userId)]. *)
Definition delete_profile (db : Database) (auth_uid : option uuid)
    (userId : uuid) : Database :=
  {| profiles :=
       filter (fun p => negb (permits profiles_policies DELETE db auth_uid p
                              && Nat.eqb (p_id p) userId))
              (profiles db);
     user_roles := user_roles db;
     transactions := transactions db |}.

End Rls.

Module UsersList.
Import Roles Supabase Rls.

(** [interface UserWithRole]; [role_id] is [None] for the empty string. *)
Record UserWithRole : Type := mk_entry {
  id : uuid;
  email : string;
  full_name : option string;
  role : AppRole;
  role_id : option uuid
}.

(** The callback of [profiles.map] in [fetchUsers]:
    [roles.find(r => r.user_id === p.id)], then the fallbacks
    [|| 'view_only'] and [|| '']. *)
Definition with_role (roles : list user_role) (p : profile) : UserWithRole :=
  let userRole := find (fun r => Nat.eqb (ur_user_id r) (p_id p)) roles in
  {| id := p_id p;
     email := p_email p;
     full_name := p_full_name p;
     role := match userRole with Some r => ur_role r | None => view_only end;
     role_id := match userRole with Some r => Some (ur_id r) | None => None end |}.

(** [fetchUsers]: the [users] state it sets, for some result of each of the
    two queries (the page runs it only when [isAdmin] holds). *)
Definition fetchUsers (auth_uid : option uuid) (db : Database)
    (users : list UserWithRole) : Prop :=
  exists profiles_data roles_data,
    select_all profiles_policies db auth_uid (profiles db) profiles_data
    /\ select_all user_roles_policies db auth_uid (user_roles db) roles_data
    /\ users = map (with_role roles_data) profiles_data.

(** [handleDeleteUser]: the database and the [users] state after the call;
    the statement raises no error. *)
Definition handleDeleteUser (auth_uid : option uuid) (userId : uuid)
    (db : Database) (users : list UserWithRole)
  : Database * list UserWithRole :=
  (delete_profile db auth_uid userId,
   filter (fun u => negb (Nat.eqb (id u) userId)) users).

(** The [users] state after a successful [handleRoleChange]. *)
Definition with_new_role (userId : uuid) (newRole : AppRole)
    (users : list UserWithRole) : list UserWithRole :=
  map (fun u => if Nat.eqb (id u) userId
                then {| id := id u; email := email u; full_name := full_name u;
                        role := newRole; role_id := role_id u |}
                else u) users.

End UsersList.

(** ** The edge function's remaining actions and the session state
       (contexts/AuthContext.tsx over [dbCall]) *)

Module Session.
Import Roles Ledger Edge.

(** The row [login] and [getUser] return: a user with the roles aggregated
    from the join with [user_roles]. *)
Record DbUser : Type := mk_db_user {
  id : uuid;
  email : string;
  full_name : option string;
  created_at : timestamp;
  roles : list AppRole
}.

(** [SELECT u.id, ..., COALESCE(json_agg(...) FILTER (...), '[]') as roles
     FROM users u LEFT JOIN user_roles ur ON u.id = ur.user_id ...
     GROUP BY u.id]: one row per selected user, its roles taken in table
    order. *)
Definition with_roles (db : Database) (u : user) : DbUser :=
  {| id := u_id u;
     email := u_email u;
     full_name := u_full_name u;
     created_at := u_created_at u;
     roles := fetch_roles (user_roles db) (u_id u) |}.

Section WithCrypt.

(** pgcrypto's [crypt(password, salt)]. *)
Variable crypt : string -> string -> string.

(** [case 'login']: the first selected row, or the 401 answer
    'Invalid login credentials' ([None]).  Emails are unique among users
    that signed up one after another, so at most one row is selected. *)
Definition login (db : Database) (email password : string) : option DbUser :=
  match filter (fun u => String.eqb (u_email u) email
                         && String.eqb (u_password_hash u)
                                       (crypt password (u_password_hash u)))
               (users db) with
  | [] => None
  | u :: _ => Some (with_roles db u)
  end.

End WithCrypt.

(** [case 'getUser']: [res.rows[0] || null]. *)
Definition getUser (db : Database) (userId : uuid) : option DbUser :=
  match filter (fun u => Nat.eqb (u_id u) userId) (users db) with
  | [] => None
  | u :: _ => Some (with_roles db u)
  end.

(** [case 'insertTransaction']: [INSERT ... RETURNING *]; an amount the
    column refuses raises its error and nothing is stored. *)
Definition insertTransaction (db : Database) (data : InsertValues)
    (gen_random_uuid : uuid) (now : timestamp)
  : result (Database * DbTransaction) :=
  match to_numeric_12_2 (i_amount data) with
  | Err e => Err e
  | Ok amount =>
      let row := new_row gen_random_uuid now data amount in
      Ok ({| users := users db; user_roles := user_roles db;
             transactions := transactions db ++ [row] |},
          row)
  end.

(** [interface User] and [UserProfile] of the context. *)
Record User : Type := mk_user_state {
  user_id : uuid;
  user_email : string;
  user_full_name : option string
}.

Record UserProfile : Type := mk_profile_state {
  profile_id : uuid;
  profile_email : string;
  profile_full_name : option string;
  profile_created_at : timestamp
}.

(** The provider's state, with the one [localStorage] entry it keeps
    (['cash_flow_user']). *)
Record AuthState : Type := mk_auth {
  user : option User;
  profile : option UserProfile;
  state_roles : list AppRole;
  loading : bool;
  localStorage : option uuid
}.

(** The state of a freshly mounted provider over a given [localStorage]. *)
Definition mounted (stored : option uuid) : AuthState :=
  {| user := None; profile := None; state_roles := []; loading := true;
     localStorage := stored |}.

(** [setUserData]. *)
Definition setUserData (userData : option DbUser) (st : AuthState) : AuthState :=
  match userData with
  | Some d =>
      {| user := Some (mk_user_state (id d) (email d) (full_name d));
         profile := Some (mk_profile_state (id d) (email d) (full_name d)
                                           (created_at d));
         state_roles := roles d;
         loading := loading st;
         localStorage := Some (id d) |}
  | None =>
      {| user := None; profile := None; state_roles := [];
         loading := loading st; localStorage := None |}
  end.

(** [checkSession], the effect run on mount. *)
Definition checkSession (db : Database) (st : AuthState) : AuthState :=
  let st' :=
    match localStorage st with
    | Some storedUserId =>
        match getUser db storedUserId with
        | Some data => setUserData (Some data) st
        | None =>
            {| user := user st; profile := profile st;
               state_roles := state_roles st; loading := loading st;
               localStorage := None |}
        end
    | None => st
    end in
  {| user := user st'; profile := profile st'; state_roles := state_roles st';
     loading := false; localStorage := localStorage st' |}.

(** [signIn]: the state after the call and whether it returned an error. *)
Definition signIn (crypt : string -> string -> string) (db : Database)
    (email password : string) (st : AuthState) : AuthState * bool :=
  match login crypt db email password with
  | None => (st, true)
  | Some data => (setUserData (Some data) st, false)
  end.

(** [signOut]. *)
Definition signOut (st : AuthState) : AuthState := setUserData None st.

End Session.

(** * Properties *)

Import Roles.

(** ** Roles: the two layers agree *)

Lemma sql_exists_filter (A : Type) (p : A -> bool) (rows : list A) :
  sql_exists (filter p rows) = existsb p rows.
Proof.
  induction rows as [|x rows IH]; simpl; [reflexivity|].
  destruct (p x); simpl; [reflexivity | exact IH].
Qed.

Lemma AppRole_eqb_eq (a b : AppRole) : AppRole_eqb a b = true <-> a = b.
Proof. destruct a, b; simpl; split; intro H; congruence. Qed.

Lemma includes_In (roles : list AppRole) (r : AppRole) :
  includes roles r = true <-> In r roles.
Proof.
  unfold includes. rewrite existsb_exists. split.
  - intros [x [Hin Heq]]. apply AppRole_eqb_eq in Heq. now subst.
  - intro Hin. exists r. split; [exact Hin | now apply AppRole_eqb_eq].
Qed.

Lemma canView_nonempty (roles : list AppRole) :
  canView roles = true <-> roles <> [].
Proof.
  unfold canView. destruct roles; simpl; split; intro H;
    try discriminate; try reflexivity; now contradiction H.
Qed.

(** An [EXISTS] over a user's rows is an [existsb] over the fetched roles. *)
Lemma exists_over_fetched (p : AppRole -> bool) (user_roles : list user_role)
    (u : uuid) :
  sql_exists
    (filter (fun r => Nat.eqb (ur_user_id r) u && p (ur_role r)) user_roles)
  = existsb p (fetch_roles user_roles u).
Proof.
  unfold fetch_roles. rewrite sql_exists_filter.
  induction user_roles as [|r rows IH]; simpl; [reflexivity|].
  destruct (Nat.eqb (ur_user_id r) u); simpl; now rewrite IH.
Qed.

Lemma has_role_includes (user_roles : list user_role) (u : uuid) (r : AppRole) :
  has_role user_roles u r = includes (fetch_roles user_roles u) r.
Proof.
  unfold has_role, includes.
  apply (exists_over_fetched (fun x => AppRole_eqb x r)).
Qed.

Lemma exists_role_in_fetched (user_roles : list user_role) (u : uuid)
    (rs : list AppRole) :
  exists_role_in user_roles u rs
  = existsb (fun x => role_in x rs) (fetch_roles user_roles u).
Proof.
  unfold exists_role_in. apply (exists_over_fetched (fun x => role_in x rs)).
Qed.

(** [role IN (a, b, ...)] over a list of roles splits into [includes]. *)
Lemma existsb_role_in_cons (roles : list AppRole) (a : AppRole)
    (rs : list AppRole) :
  existsb (fun x => role_in x (a :: rs)) roles
  = includes roles a || existsb (fun x => role_in x rs) roles.
Proof.
  unfold includes. induction roles as [|x roles IH]; [reflexivity|].
  cbn [existsb]. rewrite IH.
  change (role_in x (a :: rs)) with (AppRole_eqb x a || role_in x rs).
  destruct (AppRole_eqb x a); simpl; [reflexivity|].
  destruct (role_in x rs); simpl; [|reflexivity].
  now rewrite !orb_true_r.
Qed.

Lemma existsb_role_in_nil (roles : list AppRole) :
  existsb (fun x => role_in x []) roles = false.
Proof. induction roles; simpl; auto. Qed.

Lemma can_edit_canEdit (user_roles : list user_role) (u : uuid) :
  can_edit user_roles u = canEdit (fetch_roles user_roles u).
Proof.
  unfold can_edit, canEdit, isAdmin. rewrite exists_role_in_fetched.
  rewrite !existsb_role_in_cons, existsb_role_in_nil.
  now rewrite orb_false_r.
Qed.

Lemma can_delete_canDelete (user_roles : list user_role) (u : uuid) :
  can_delete user_roles u = canDelete (fetch_roles user_roles u).
Proof. apply can_edit_canEdit. Qed.

Lemma can_insert_expense_canInsertExpense (user_roles : list user_role)
    (u : uuid) :
  can_insert_expense user_roles u = canInsertExpense (fetch_roles user_roles u).
Proof.
  unfold can_insert_expense, canInsertExpense, isAdmin.
  rewrite exists_role_in_fetched.
  rewrite !existsb_role_in_cons, existsb_role_in_nil.
  now rewrite orb_false_r, orb_assoc.
Qed.

Lemma can_insert_income_canInsertIncome (user_roles : list user_role)
    (u : uuid) :
  can_insert_income user_roles u = canInsertIncome (fetch_roles user_roles u).
Proof.
  unfold can_insert_income, canInsertIncome, isAdmin.
  rewrite exists_role_in_fetched.
  rewrite !existsb_role_in_cons, existsb_role_in_nil.
  now rewrite orb_false_r, orb_assoc.
Qed.

Lemma can_view_canView (user_roles : list user_role) (u : uuid) :
  can_view user_roles u = canView (fetch_roles user_roles u).
Proof.
  unfold can_view, canView. rewrite exists_role_in_fetched.
  destruct (fetch_roles user_roles u) as [|r rs]; simpl; [reflexivity|].
  now destruct r.
Qed.


(** Every role list is the role list of some user in some table: one row per
    entry. *)
Definition rows_of_roles (u : uuid) (R : list AppRole) : list user_role :=
  map (fun r => mk_user_role 0 u r 0%Z) R.

Lemma fetch_rows_of_roles (u : uuid) (R : list AppRole) :
  fetch_roles (rows_of_roles u R) u = R.
Proof.
  unfold fetch_roles, rows_of_roles.
  induction R as [|r R IH]; simpl; [reflexivity|].
  rewrite Nat.eqb_refl. simpl. now rewrite IH.
Qed.

(** C1. For every role set, the application-layer predicates of
    AuthContext.tsx and the SQL functions of the migration return the same
    boolean, and each is the condition of the specification's table:
    [canView] iff the set is non-empty, [canEdit] and [canDelete] iff it holds
    [admin] or [edit], [canInsertExpense] iff [admin], [edit] or
    [insert_expenses], [canInsertIncome] iff [admin], [edit] or
    [insert_income], [isAdmin] iff [admin].  The role set of a user is what
    [fetchUserData] reads from [user_roles]; every role list arises so. *)
Theorem role_layers_agree :
  (forall R : list AppRole,
      (canView R = true <-> R <> []) /\
      (canEdit R = true <-> In admin R \/ In edit R) /\
      (canDelete R = true <-> In admin R \/ In edit R) /\
      (canInsertExpense R = true <->
         In admin R \/ In edit R \/ In insert_expenses R) /\
      (canInsertIncome R = true <->
         In admin R \/ In edit R \/ In insert_income R) /\
      (isAdmin R = true <-> In admin R)) /\
  (forall (user_roles : list user_role) (u : uuid),
      can_view user_roles u = canView (fetch_roles user_roles u) /\
      can_edit user_roles u = canEdit (fetch_roles user_roles u) /\
      can_insert_expense user_roles u
        = canInsertExpense (fetch_roles user_roles u) /\
      can_insert_income user_roles u
        = canInsertIncome (fetch_roles user_roles u) /\
      can_delete user_roles u = canDelete (fetch_roles user_roles u) /\
      has_role user_roles u admin = isAdmin (fetch_roles user_roles u)) /\
  (forall (R : list AppRole) (u : uuid),
      exists user_roles, fetch_roles user_roles u = R).
Proof.
  split; [|split].
  - intro R.
    unfold canEdit, canDelete, canInsertExpense, canInsertIncome, isAdmin.
    rewrite !orb_true_iff, !includes_In.
    repeat split; try tauto; apply canView_nonempty.
  - intros user_roles u. repeat split.
    + apply can_view_canView.
    + apply can_edit_canEdit.
    + apply can_insert_expense_canInsertExpense.
    + apply can_insert_income_canInsertIncome.
    + apply can_delete_canDelete.
    + apply has_role_includes.
  - intros R u. exists (rows_of_roles u R). apply fetch_rows_of_roles.
Qed.

(** ** Inserting a transaction needs the right for its direction *)

Import Ledger.

(** The insert policy, read through the application-layer predicates. *)
Lemma policy_insert_by_direction (db : Supabase.Database) (u : uuid)
    (type : TransactionType) :
  Supabase.policy_insert db (Some u) type
  = match type with
    | income => canInsertIncome (fetch_roles (Supabase.user_roles db) u)
    | expense => canInsertExpense (fetch_roles (Supabase.user_roles db) u)
    end.
Proof.
  unfold Supabase.policy_insert, Supabase.as_user.
  rewrite can_insert_income_canInsertIncome, can_insert_expense_canInsertExpense.
  destruct type; simpl.
  - now rewrite orb_false_r.
  - reflexivity.
Qed.

(** What a successful insert has done. *)
Lemma insert_transaction_done (db db' : Supabase.Database)
    (auth_uid : option uuid) (gen_random_uuid : uuid) (now : timestamp)
    (v : InsertValues) (row : DbTransaction) :
  Supabase.insert_transaction db auth_uid gen_random_uuid now v
    = Ok (db', row) ->
  exists amount,
    to_numeric_12_2 (i_amount v) = Ok amount
    /\ Supabase.policy_insert db auth_uid (i_type v) = true
    /\ row = new_row gen_random_uuid now v amount
    /\ db' = Supabase.with_transactions db (Supabase.transactions db ++ [row]).
Proof.
  unfold Supabase.insert_transaction, to_numeric_12_2.
  destruct (read_numeric_12_2 (i_amount v)) as [read|e]; [|discriminate].
  destruct (Supabase.policy_insert db auth_uid (i_type v)); [|discriminate].
  destruct (not_null read) as [amount|e]; [|discriminate].
  intro H. injection H as <- <-. now exists amount.
Qed.

(** The values [addTransaction] sends for a new transaction. *)
Definition sent_values (user_id : uuid) (t : Hook.NewTransaction) : InsertValues :=
  {| i_user_id := user_id;
     i_date := toISODate (Hook.n_date t);
     i_type := Hook.n_type t;
     i_client_supplier := Hook.n_clientSupplier t;
     i_amount := Hook.n_amount t;
     i_description := Some (Hook.n_description t);
     i_payment_method := Hook.n_paymentMethod t |}.

(** C2. A user whose role set is exactly [insert_income] cannot insert an
    expense: [addTransaction] returns [false], and neither the store nor the
    client's list changes; for a candidate whose amount the column takes,
    the error is the insert policy's (the authorization failure).  In
    general [addTransaction] succeeds only when the user holds the insert
    right for the candidate's type ([canInsertIncome] for income,
    [canInsertExpense] for expense) and the column takes the amount; without
    the right it fails and changes nothing; with the right and an amount the
    column takes it succeeds and stores the row, the amount rounded to two
    decimals. *)
Theorem insert_needs_right_for_type (user : uuid) (gen_random_uuid : uuid)
    (now : timestamp) (t : Hook.NewTransaction) (db : Supabase.Database)
    (state : list Transaction) :
  let R := fetch_roles (Supabase.user_roles db) user in
  let allowed := match Hook.n_type t with
                 | income => canInsertIncome R
                 | expense => canInsertExpense R
                 end in
  (R = [insert_income] -> Hook.n_type t = expense ->
     (forall amount, to_numeric_12_2 (Hook.n_amount t) = Ok amount ->
        Supabase.insert_transaction db (Some user) gen_random_uuid now
          (sent_values user t) = Err rls_violation)
     /\ (exists e,
           Supabase.insert_transaction db (Some user) gen_random_uuid now
             (sent_values user t) = Err e)
     /\ Hook.addTransaction (Some user) gen_random_uuid now t db state
        = (db, state, Some false)) /\
  (forall db' state',
     Hook.addTransaction (Some user) gen_random_uuid now t db state
       = (db', state', Some true) ->
     allowed = true
     /\ exists amount, to_numeric_12_2 (Hook.n_amount t) = Ok amount) /\
  (allowed = false ->
     Hook.addTransaction (Some user) gen_random_uuid now t db state
       = (db, state, Some false)) /\
  (forall amount,
     allowed = true -> to_numeric_12_2 (Hook.n_amount t) = Ok amount ->
     let row := new_row gen_random_uuid now (sent_values user t) amount in
     Hook.addTransaction (Some user) gen_random_uuid now t db state
       = (Supabase.with_transactions db (Supabase.transactions db ++ [row]),
          mapDbToTransaction row :: state, Some true)).
Proof.
  intros R allowed.
  assert (Hpol : Supabase.policy_insert db (Some user) (Hook.n_type t) = allowed)
    by apply policy_insert_by_direction.
  assert (Hins : Supabase.insert_transaction db (Some user) gen_random_uuid now
                   (sent_values user t)
                 = match read_numeric_12_2 (Hook.n_amount t) with
                   | Err e => Err e
                   | Ok read =>
                       if allowed
                       then match not_null read with
                            | Err e => Err e
                            | Ok amount =>
                                let row := new_row gen_random_uuid now
                                             (sent_values user t) amount in
                                Ok (Supabase.with_transactions db
                                      (Supabase.transactions db ++ [row]), row)
                            end
                       else Err rls_violation
                   end).
  { unfold Supabase.insert_transaction. simpl i_type. simpl i_amount.
    now rewrite Hpol. }
  assert (Hadd : Hook.addTransaction (Some user) gen_random_uuid now t db state
                 = match Supabase.insert_transaction db (Some user)
                           gen_random_uuid now (sent_values user t) with
                   | Err _ => (db, state, Some false)
                   | Ok (db', data) =>
                       (db', mapDbToTransaction data :: state, Some true)
                   end) by reflexivity.
  assert (Hfalse : allowed = false ->
            (forall amount, to_numeric_12_2 (Hook.n_amount t) = Ok amount ->
               Supabase.insert_transaction db (Some user) gen_random_uuid now
                 (sent_values user t) = Err rls_violation)
            /\ (exists e,
                  Supabase.insert_transaction db (Some user) gen_random_uuid
                    now (sent_values user t) = Err e)
            /\ Hook.addTransaction (Some user) gen_random_uuid now t db state
               = (db, state, Some false)).
  { intro Ha. rewrite Hadd, Hins, Ha. unfold to_numeric_12_2.
    destruct (read_numeric_12_2 (Hook.n_amount t)) as [read|e].
    - split; [reflexivity|]. split; [now exists rls_violation | reflexivity].
    - split; [discriminate|]. split; [now exists e | reflexivity]. }
  split; [|split; [|split]].
  - intros HR Ht. apply Hfalse. subst allowed. rewrite Ht. subst R.
    now rewrite HR.
  - intros db' state'. rewrite Hadd, Hins. unfold to_numeric_12_2.
    destruct (read_numeric_12_2 (Hook.n_amount t)) as [read|e];
      [|discriminate].
    destruct allowed; [|discriminate].
    destruct (not_null read) as [amount|e]; [|discriminate].
    intros _. split; [reflexivity | now exists amount].
  - intro Ha. now apply Hfalse.
  - intros amount Ha Hamount. rewrite Hadd, Hins, Ha.
    unfold to_numeric_12_2 in Hamount.
    destruct (read_numeric_12_2 (Hook.n_amount t)) as [read|e];
      [|discriminate].
    now rewrite Hamount.
Qed.

(** A store where user 1 holds only [insert_income], and an expense of 50. *)
Definition income_only_db : Supabase.Database :=
  {| Supabase.profiles := [];
     Supabase.user_roles := [mk_user_role 10 1 insert_income 0%Z];
     Supabase.transactions := [] |}.

Definition expense_of_50 : Hook.NewTransaction :=
  {| Hook.n_date := 0%Z;
     Hook.n_type := expense;
     Hook.n_clientSupplier := "Acme"%string;
     Hook.n_amount := 50%float;
     Hook.n_description := "paper"%string;
     Hook.n_paymentMethod := pix |}.

Lemma insert_needs_right_for_type_witness :
  (forall amount, to_numeric_12_2 (Hook.n_amount expense_of_50) = Ok amount ->
     Supabase.insert_transaction income_only_db (Some 1) 11 0%Z
       (sent_values 1 expense_of_50) = Err rls_violation)
  /\ (exists e,
        Supabase.insert_transaction income_only_db (Some 1) 11 0%Z
          (sent_values 1 expense_of_50) = Err e)
  /\ Hook.addTransaction (Some 1) 11 0%Z expense_of_50 income_only_db []
     = (income_only_db, [], Some false).
Proof.
  exact (proj1 (insert_needs_right_for_type 1 11 0%Z expense_of_50
                  income_only_db [])
               eq_refl eq_refl).
Defined.

(** The same user may enter an income; an amount of 10.005 is stored as
    10.01, and an amount of 10^10 is refused by the column whoever sends
    it. *)
Example income_is_stored_rounded :
  let t := {| Hook.n_date := 0%Z; Hook.n_type := income;
              Hook.n_clientSupplier := "Acme"%string;
              Hook.n_amount := (10005 / 1000)%float;
              Hook.n_description := "paper"%string;
              Hook.n_paymentMethod := pix |} in
  to_numeric_12_2 (Hook.n_amount t) = Ok 1001%Z
  /\ (exists db' shown,
        Hook.addTransaction (Some 1) 11 0%Z t income_only_db []
          = (db', [shown], Some true)
        /\ map Row.amount (Supabase.transactions db') = [1001%Z]
        /\ Tx.amount shown = (1001 / 100)%float)
  /\ to_numeric_12_2 10000000000%float = Err numeric_field_overflow
  /\ to_numeric_12_2 PrimFloat.infinity = Err not_null_violation.
Proof.
  vm_compute. repeat split. eexists. eexists. repeat split.
Qed.

(** ** Bootstrap: the first registered user is the administrator *)

(** The roles the bootstrap rule hands out to [n] registrations, in order. *)
Definition bootstrap_roles (n : nat) : list AppRole :=
  match n with
  | 0 => []
  | S k => admin :: repeat view_only k
  end.

(** A registration through Supabase: the new [auth.users] row, and the id
    and time the trigger's inserts draw. *)
Definition Registration : Type := Supabase.auth_user * uuid * timestamp.

Definition register (db : Supabase.Database) (r : Registration)
  : Supabase.Database :=
  let '(NEW, gen_random_uuid, now) := r in
  Supabase.handle_new_user db NEW gen_random_uuid now.

(** A signup request to the edge function. *)
Definition SignupRequest : Type := string * option string * Edge.SignupEnv.

Definition request_signup (db : Edge.Database) (r : SignupRequest)
  : Edge.Database :=
  let '(email, fullName, env) := r in
  match Edge.signup db email fullName env with
  | Ok (db', _) => db'
  | Err _ => db
  end.

Definition admins (rows : list user_role) : list user_role :=
  filter (fun r => AppRole_eqb (ur_role r) admin) rows.

Lemma bootstrap_roles_next (n : nat) :
  bootstrap_roles (S n)
  = bootstrap_roles n ++ [if Nat.eqb n 0 then admin else view_only].
Proof.
  destruct n as [|k]; simpl; [reflexivity|].
  f_equal. apply repeat_cons.
Qed.

Lemma bootstrap_roles_one_admin (n : nat) :
  List.length (filter (fun r => AppRole_eqb r admin) (bootstrap_roles n)) <= 1.
Proof.
  destruct n as [|k]; simpl; [lia|].
  assert (E : filter (fun r => AppRole_eqb r admin) (repeat view_only k) = []).
  { induction k; simpl; auto. }
  rewrite E. simpl. lia.
Qed.

Lemma admins_length (rows : list user_role) :
  List.length (admins rows)
  = List.length (filter (fun r => AppRole_eqb r admin) (map ur_role rows)).
Proof.
  unfold admins. induction rows as [|r rows IH]; simpl; [reflexivity|].
  destruct (AppRole_eqb (ur_role r) admin); simpl; now rewrite IH.
Qed.

(** Registrations through the trigger keep the role table in bootstrap
    shape, one row per registration. *)
Lemma register_all_shape (rs : list Registration) (db : Supabase.Database) :
  map ur_role (Supabase.user_roles db)
    = bootstrap_roles (List.length (Supabase.user_roles db)) ->
  let db' := fold_left register rs db in
  map ur_role (Supabase.user_roles db')
    = bootstrap_roles (List.length (Supabase.user_roles db) + List.length rs)
  /\ map ur_user_id (Supabase.user_roles db')
     = map ur_user_id (Supabase.user_roles db)
       ++ map (fun r => Supabase.au_id (fst (fst r))) rs.
Proof.
  revert db. induction rs as [|[[NEW g] now] rs IH]; intros db Hdb; simpl.
  - rewrite Nat.add_0_r, app_nil_r. now split.
  - specialize (IH (Supabase.handle_new_user db NEW g now)).
    simpl in IH. rewrite !map_app, length_app in IH. simpl in IH.
    rewrite Nat.add_1_r in IH. rewrite <- Nat.add_succ_comm.
    rewrite <- app_assoc in IH. simpl in IH. apply IH.
    rewrite Hdb. symmetry. apply bootstrap_roles_next.
Qed.

(** X24.  The bootstrap rule, as the [handle_new_user] trigger carries it
    out.  Starting from an empty directory, after any sequence of registrations
    the first registered user holds [admin] and every later one
    [view_only]; every registration adds exactly one role row, for the user
    it registers; so at most one administrator comes from the rule. *)
Theorem trigger_bootstrap_first_admin :
  (forall rs : list Registration,
      let db := fold_left register rs Supabase.empty in
      map ur_role (Supabase.user_roles db) = bootstrap_roles (List.length rs)
      /\ map ur_user_id (Supabase.user_roles db)
         = map (fun r => Supabase.au_id (fst (fst r))) rs
      /\ List.length (admins (Supabase.user_roles db)) <= 1) /\
  (forall (db : Supabase.Database) (r : Registration),
      List.length (Supabase.user_roles (register db r))
      = S (List.length (Supabase.user_roles db))).
Proof.
  split.
  - intros rs db.
    destruct (register_all_shape rs Supabase.empty eq_refl) as [Hr Hu].
    simpl in Hr, Hu. fold db in Hr, Hu. repeat split; try assumption.
    rewrite admins_length, Hr. apply bootstrap_roles_one_admin.
  - intros db [[NEW g] now]. simpl. rewrite length_app. simpl. lia.
Qed.

Example trigger_run :
  let NEW n := Supabase.mk_auth_user n "u@x"%string None in
  let db := fold_left register
              [(NEW 1, 101, 1%Z); (NEW 2, 102, 2%Z); (NEW 3, 103, 3%Z)]
              Supabase.empty in
  map (fun r => (ur_user_id r, ur_role r)) (Supabase.user_roles db)
  = [(1, admin); (2, view_only); (3, view_only)].
Proof. reflexivity. Qed.

(** In the edge function the count is a BigInt and the literal [1] a
    number: the comparison [count === 1] never holds. *)
Lemma count_is_never_the_number_1 (A : Type) (rows : list A) :
  Edge.strict_equals (Edge.count_rows rows) (Edge.JsNumber 1) = false.
Proof. reflexivity. Qed.

(** What a signup through the edge function does. *)
Lemma signup_spec (db db' : Edge.Database) (email : string)
    (fullName : option string) (env : Edge.SignupEnv) (u : Edge.user) :
  Edge.signup db email fullName env = Ok (db', u) <->
  (forall u', In u' (Edge.users db) -> Edge.u_email u' <> email)
  /\ u = Edge.mk_user (Edge.new_user_id env) email (Edge.password_hash env)
           fullName (Edge.now env)
  /\ db' = {| Edge.users := Edge.users db ++ [u];
              Edge.user_roles :=
                Edge.user_roles db
                ++ [mk_user_role (Edge.new_role_id env) (Edge.u_id u)
                      view_only (Edge.now env)];
              Edge.transactions := Edge.transactions db |}.
Proof.
  unfold Edge.signup.
  assert (Hex : forall l : list Edge.user,
             Nat.ltb 0 (List.length
               (filter (fun u0 => String.eqb (Edge.u_email u0) email) l))
             = false
             <-> (forall u', In u' l -> Edge.u_email u' <> email)).
  { induction l as [|x l IH]; simpl.
    - split; [intros _ u' []|reflexivity].
    - destruct (String.eqb_spec (Edge.u_email x) email) as [E|E]; simpl.
      + split; [discriminate|]. intro H. exfalso. apply (H x); auto.
      + rewrite IH. split.
        * intros H u' [<-|Hin]; auto.
        * intros H u' Hin. apply H. now right. }
  destruct (Nat.ltb 0 _) eqn:Hlt.
  - split; [discriminate|]. intros [Hnone _].
    apply (proj2 (Hex _)) in Hnone. congruence.
  - pose proof (proj1 (Hex _) Hlt) as Hfree.
    rewrite count_is_never_the_number_1. split.
    + intro H. injection H as <- <-. repeat split; exact Hfree.
    + intros [_ [-> ->]]. reflexivity.
Qed.

(** Signups through the edge function keep one role row per user, each
    [view_only]. *)
Definition edge_shape (db : Edge.Database) : Prop :=
  map ur_role (Edge.user_roles db)
    = repeat view_only (List.length (Edge.users db))
  /\ map ur_user_id (Edge.user_roles db) = map Edge.u_id (Edge.users db).

Lemma signup_keeps_shape (db : Edge.Database) (r : SignupRequest) :
  edge_shape db -> edge_shape (request_signup db r).
Proof.
  destruct r as [[email fullName] env]. intros [Hroles Hids].
  unfold request_signup, Edge.signup.
  destruct (Nat.ltb 0 _); [now split|].
  rewrite count_is_never_the_number_1.
  unfold edge_shape. simpl. rewrite !map_app, !length_app. simpl.
  rewrite Hroles, Hids, repeat_app. split; reflexivity.
Qed.

Lemma signup_all_shape (rs : list SignupRequest) (db : Edge.Database) :
  edge_shape db -> edge_shape (fold_left request_signup rs db).
Proof.
  revert db. induction rs as [|r rs IH]; intros db H; simpl; [exact H|].
  apply IH. now apply signup_keeps_shape.
Qed.

Lemma no_admin_among_view_only (rows : list user_role) (n : nat) :
  map ur_role rows = repeat view_only n -> admins rows = [].
Proof.
  revert n. unfold admins.
  induction rows as [|r rows IH]; intros n H; [reflexivity|].
  destruct n as [|k]; [discriminate|]. simpl in H. injection H as Hr Hrows.
  simpl. rewrite Hr. simpl. now apply (IH k).
Qed.

(** C3, on the edge function.  The first [signup] into the empty directory
    stores the user with the role [view_only], not [admin]; so does every
    successful [signup]; and after any sequence of signups from the empty
    directory every role row is [view_only], one per user, and nobody is
    administrator. *)
Theorem edge_first_signup_gets_view_only :
  (forall (email : string) (fullName : option string) (env : Edge.SignupEnv),
      let u := Edge.mk_user (Edge.new_user_id env) email
                 (Edge.password_hash env) fullName (Edge.now env) in
      Edge.signup Edge.empty email fullName env
      = Ok ({| Edge.users := [u];
               Edge.user_roles :=
                 [mk_user_role (Edge.new_role_id env) (Edge.new_user_id env)
                    view_only (Edge.now env)];
               Edge.transactions := [] |},
            u)) /\
  (forall (db db' : Edge.Database) email fullName env (u : Edge.user),
      Edge.signup db email fullName env = Ok (db', u) <->
      (forall u', In u' (Edge.users db) -> Edge.u_email u' <> email)
      /\ u = Edge.mk_user (Edge.new_user_id env) email (Edge.password_hash env)
               fullName (Edge.now env)
      /\ db' = {| Edge.users := Edge.users db ++ [u];
                  Edge.user_roles :=
                    Edge.user_roles db
                    ++ [mk_user_role (Edge.new_role_id env) (Edge.u_id u)
                          view_only (Edge.now env)];
                  Edge.transactions := Edge.transactions db |}) /\
  (forall rs : list SignupRequest,
      let db := fold_left request_signup rs Edge.empty in
      map ur_role (Edge.user_roles db)
        = repeat view_only (List.length (Edge.users db))
      /\ map ur_user_id (Edge.user_roles db) = map Edge.u_id (Edge.users db)
      /\ admins (Edge.user_roles db) = []).
Proof.
  split; [|split].
  - reflexivity.
  - apply signup_spec.
  - intros rs db.
    destruct (signup_all_shape rs (db := Edge.empty)) as [Hr Hu];
      [now split|].
    fold db in Hr, Hu. repeat split; try assumption.
    exact (no_admin_among_view_only _ _ Hr).
Qed.

(** Five signups, the second and fourth for an email already taken: three
    users, none of them administrator. *)
Example signup_run :
  let env n := Edge.mk_env n "hash"%string (100 + n) (Z.of_nat n) in
  let db := fold_left request_signup
              [("ana@x"%string, None, env 1); ("ana@x"%string, None, env 2);
               ("bia@x"%string, None, env 3); ("bia@x"%string, None, env 4);
               ("caio@x"%string, None, env 5)]
              Edge.empty in
  map (fun r => (ur_user_id r, ur_role r)) (Edge.user_roles db)
  = [(1, view_only); (3, view_only); (5, view_only)].
Proof. reflexivity. Qed.

(** ** Changing a user's role *)

Definition of_user (u : uuid) (r : user_role) : bool := Nat.eqb (ur_user_id r) u.
Definition not_of_user (u : uuid) (r : user_role) : bool := negb (of_user u r).

(** The unique constraint, as the absence of two rows with one user and one
    role. *)
Lemma unique_user_id_role_cons (x : user_role) (rows : list user_role) :
  Supabase.unique_user_id_role (x :: rows) = true <->
  (forall y, In y rows ->
             ~ (ur_user_id y = ur_user_id x /\ ur_role y = ur_role x))
  /\ Supabase.unique_user_id_role rows = true.
Proof.
  simpl. rewrite andb_true_iff, negb_true_iff.
  rewrite <- not_true_iff_false, existsb_exists.
  split; intros [H1 H2]; split; try assumption.
  - intros y Hy [E1 E2]. apply H1. exists y. split; [assumption|].
    rewrite E1, E2, Nat.eqb_refl. simpl. now apply AppRole_eqb_eq.
  - intros [y [Hy Hk]]. apply andb_true_iff in Hk. destruct Hk as [K1 K2].
    apply (H1 y Hy). split; [now apply Nat.eqb_eq | now apply AppRole_eqb_eq].
Qed.

Section InPlace.

Variables (u id : uuid) (newRole : AppRole).

(** The row update of [update_role_where_id]. *)
Definition retarget (r : user_role) : user_role :=
  if Nat.eqb (ur_id r) id then Supabase.set_role newRole r else r.

Lemma retarget_user (r : user_role) : ur_user_id (retarget r) = ur_user_id r.
Proof. unfold retarget. now destruct (Nat.eqb (ur_id r) id). Qed.

(** When the row with the given id is the only row of user [u], the update
    cannot create a second row with the same user and role. *)
Lemma retarget_keeps_unique (rows : list user_role) :
  (forall x, In x rows -> (ur_id x = id <-> ur_user_id x = u)) ->
  NoDup (map ur_id rows) ->
  Supabase.unique_user_id_role rows = true ->
  Supabase.unique_user_id_role (map retarget rows) = true.
Proof.
  induction rows as [|x rows IH]; intros Hone Hids Huniq; [reflexivity|].
  change (map retarget (x :: rows)) with (retarget x :: map retarget rows).
  apply unique_user_id_role_cons in Huniq. destruct Huniq as [Hx Hrest].
  inversion Hids as [|? ? Hnotin Hids']; subst.
  apply unique_user_id_role_cons. split.
  - intros y' Hy' [E1 E2]. apply in_map_iff in Hy'.
    destruct Hy' as [y [<- Hy]]. rewrite !retarget_user in E1.
    assert (Hxid := Hone x (or_introl eq_refl)).
    assert (Hyid := Hone y (or_intror Hy)).
    destruct (Nat.eq_dec (ur_id x) id) as [Ex|Ex].
    + apply Hnotin. apply in_map_iff. exists y. split; [|assumption].
      rewrite Ex. apply Hyid. rewrite E1. now apply Hxid.
    + assert (Ey : ur_id y <> id).
      { intro Ey. apply Ex. apply Hxid. rewrite <- E1. now apply Hyid. }
      unfold retarget in E2.
      apply Nat.eqb_neq in Ex, Ey. rewrite Ex, Ey in E2.
      apply (Hx y Hy). now split.
  - apply IH; try assumption. intros z Hz. apply Hone. now right.
Qed.

Lemma of_user_retarget (r : user_role) :
  of_user u (retarget r) = of_user u r.
Proof. unfold of_user. now rewrite retarget_user. Qed.

Lemma retarget_own_rows (rows : list user_role) :
  (forall x, In x rows -> (ur_id x = id <-> ur_user_id x = u)) ->
  filter (of_user u) (map retarget rows)
  = map (Supabase.set_role newRole) (filter (of_user u) rows).
Proof.
  induction rows as [|x rows IH]; intro Hone; [reflexivity|].
  cbn [map filter]. rewrite of_user_retarget.
  rewrite IH by (intros z Hz; apply Hone; now right).
  destruct (of_user u x) eqn:E; [|reflexivity].
  cbn [map]. f_equal. unfold retarget.
  replace (Nat.eqb (ur_id x) id) with true; [reflexivity|].
  symmetry. apply Nat.eqb_eq. apply (Hone x (or_introl eq_refl)).
  now apply Nat.eqb_eq.
Qed.

Lemma retarget_other_rows (rows : list user_role) :
  (forall x, In x rows -> (ur_id x = id <-> ur_user_id x = u)) ->
  filter (not_of_user u) (map retarget rows) = filter (not_of_user u) rows.
Proof.
  induction rows as [|x rows IH]; intro Hone; [reflexivity|].
  cbn [map filter].
  replace (not_of_user u (retarget x)) with (not_of_user u x)
    by (unfold not_of_user; now rewrite of_user_retarget).
  rewrite IH by (intros z Hz; apply Hone; now right).
  destruct (not_of_user u x) eqn:E; [|reflexivity].
  f_equal. unfold retarget.
  replace (Nat.eqb (ur_id x) id) with false; [reflexivity|].
  symmetry. apply Nat.eqb_neq. intro Ex.
  apply (Hone x (or_introl eq_refl)) in Ex.
  apply Nat.eqb_eq in Ex. unfold not_of_user, of_user in E.
  rewrite Ex in E. discriminate.
Qed.

End InPlace.

Lemma NoDup_map_eq (A B : Type) (f : A -> B) (l : list A) (x y : A) :
  NoDup (map f l) -> In x l -> In y l -> f x = f y -> x = y.
Proof.
  induction l as [|a l IH]; intros Hnd Hx Hy E; [contradiction|].
  simpl in Hnd. inversion Hnd as [|? ? Hnotin Hnd']; subst.
  destruct Hx as [<-|Hx], Hy as [<-|Hy]; auto.
  - exfalso. apply Hnotin. rewrite E. now apply in_map.
  - exfalso. apply Hnotin. rewrite <- E. now apply in_map.
Qed.

Lemma filter_of_not_of (u : uuid) (rows : list user_role) :
  filter (of_user u) (filter (not_of_user u) rows) = [].
Proof.
  induction rows as [|x rows IH]; [reflexivity|].
  simpl. unfold not_of_user at 1. destruct (of_user u x) eqn:E; simpl.
  - exact IH.
  - now rewrite E.
Qed.

Lemma filter_not_of_idem (u : uuid) (rows : list user_role) :
  filter (not_of_user u) (filter (not_of_user u) rows)
  = filter (not_of_user u) rows.
Proof.
  induction rows as [|x rows IH]; [reflexivity|].
  simpl. destruct (not_of_user u x) eqn:E; simpl.
  - now rewrite E, IH.
  - exact IH.
Qed.

Lemma fetch_roles_of_user (rows : list user_role) (u : uuid) :
  fetch_roles rows u = map ur_role (filter (of_user u) rows).
Proof. reflexivity. Qed.

(** X25.  The edge function's [updateUserRole] deletes every role row of
    the user and inserts one new row: afterwards the user has exactly that
    one row, whatever they had before, and no other user's rows change.  On
    the users page, for an administrator acting on a user who has exactly
    one role row, [handleRoleChange] leaves the user with exactly that row,
    same id, with the new role, and no other user's rows change. *)
Theorem role_change_one_role :
  (forall (db : Edge.Database) (u : uuid) (role : AppRole)
          (gen_random_uuid : uuid) (now : timestamp),
      let db' := fst (Edge.updateUserRole db u role gen_random_uuid now) in
      filter (of_user u) (Edge.user_roles db')
        = [mk_user_role gen_random_uuid u role now]
      /\ filter (not_of_user u) (Edge.user_roles db')
         = filter (not_of_user u) (Edge.user_roles db)
      /\ fetch_roles (Edge.user_roles db') u = [role]) /\
  (forall (db : Supabase.Database) (actor u : uuid) (row : user_role)
          (role : AppRole),
      Supabase.policy_manage_roles db (Some actor) = true ->
      Supabase.unique_user_id_role (Supabase.user_roles db) = true ->
      NoDup (map ur_id (Supabase.user_roles db)) ->
      filter (of_user u) (Supabase.user_roles db) = [row] ->
      exists db',
        UsersPage.handleRoleChange (Some actor) (Some (ur_id row)) role db
          = Ok db'
        /\ filter (of_user u) (Supabase.user_roles db')
           = [Supabase.set_role role row]
        /\ filter (not_of_user u) (Supabase.user_roles db')
           = filter (not_of_user u) (Supabase.user_roles db)
        /\ fetch_roles (Supabase.user_roles db') u = [role]).
Proof.
  split.
  - intros db u role g now db'. subst db'. simpl.
    change (fun r : user_role => negb (Nat.eqb (ur_user_id r) u))
      with (not_of_user u).
    rewrite fetch_roles_of_user, !filter_app, filter_of_not_of, filter_not_of_idem.
    simpl. unfold not_of_user, of_user. simpl. rewrite Nat.eqb_refl. simpl.
    rewrite app_nil_r. repeat split.
  - intros db actor u row role Hadmin Huniq Hids Hrow.
    assert (Hin : In row (Supabase.user_roles db) /\ of_user u row = true).
    { apply filter_In. rewrite Hrow. now left. }
    destruct Hin as [Hin Hu].
    assert (Hone : forall x, In x (Supabase.user_roles db) ->
                             (ur_id x = ur_id row <-> ur_user_id x = u)).
    { intros x Hx. split; intro E.
      - rewrite (NoDup_map_eq ur_id _ x row Hids Hx Hin E).
        now apply Nat.eqb_eq.
      - assert (Hx' : In x (filter (of_user u) (Supabase.user_roles db))).
        { apply filter_In. split; [assumption | now apply Nat.eqb_eq]. }
        rewrite Hrow in Hx'. destruct Hx' as [<-|[]]. reflexivity. }
    unfold UsersPage.handleRoleChange, Supabase.update_role_where_id.
    rewrite Hadmin.
    change (fun r : user_role =>
              if Nat.eqb (ur_id r) (ur_id row) then Supabase.set_role role r
              else r) with (retarget (ur_id row) role).
    rewrite (retarget_keeps_unique role _ Hone Hids Huniq).
    eexists. split; [reflexivity|]. simpl.
    rewrite fetch_roles_of_user.
    rewrite (retarget_own_rows role _ Hone), (retarget_other_rows role _ Hone).
    rewrite Hrow. simpl. repeat split.
Qed.

(** User 1 with a single role row; user 2 is the administrator. *)
Definition one_role_db : Supabase.Database :=
  {| Supabase.profiles := [];
     Supabase.user_roles :=
       [mk_user_role 10 1 view_only 0%Z; mk_user_role 12 2 admin 0%Z];
     Supabase.transactions := [] |}.

Lemma role_change_one_role_witness :
  exists db',
    UsersPage.handleRoleChange (Some 2) (Some 10) edit one_role_db = Ok db'
    /\ filter (of_user 1) (Supabase.user_roles db')
       = [mk_user_role 10 1 edit 0%Z]
    /\ filter (not_of_user 1) (Supabase.user_roles db')
       = [mk_user_role 12 2 admin 0%Z]
    /\ fetch_roles (Supabase.user_roles db') 1 = [edit].
Proof.
  refine (proj2 role_change_one_role one_role_db 2 1
            (mk_user_role 10 1 view_only 0%Z) edit eq_refl eq_refl _ eq_refl).
  simpl. repeat constructor; simpl; intuition discriminate.
Defined.

(** User 1 with two role rows (the schema only forbids the same role twice);
    user 2 is the administrator. *)
Definition two_role_db : Supabase.Database :=
  {| Supabase.profiles := [];
     Supabase.user_roles :=
       [mk_user_role 10 1 admin 0%Z; mk_user_role 11 1 edit 0%Z;
        mk_user_role 12 2 admin 0%Z];
     Supabase.transactions := [] |}.

(** C4, on the users page.  User 1 holds [admin] and [edit]; the
    administrator sets the role of user 1 to [view_only].
    [handleRoleChange] rewrites the one row it is pointed at and leaves the
    user's other role in place, so the user ends with two roles and still
    may edit; the edge function's [updateUserRole], on the same role rows,
    leaves the user with [view_only] alone. *)
Theorem role_change_in_place_keeps_second_role :
  (exists db',
      UsersPage.handleRoleChange (Some 2) (Some 10) view_only two_role_db
        = Ok db'
      /\ Supabase.user_roles db'
         = [mk_user_role 10 1 view_only 0%Z; mk_user_role 11 1 edit 0%Z;
            mk_user_role 12 2 admin 0%Z]
      /\ fetch_roles (Supabase.user_roles db') 1 = [view_only; edit]
      /\ fetch_roles (Supabase.user_roles db') 1 <> [view_only]
      /\ canEdit (fetch_roles (Supabase.user_roles db') 1) = true) /\
  (let db' := fst (Edge.updateUserRole
                     {| Edge.users := [];
                        Edge.user_roles := Supabase.user_roles two_role_db;
                        Edge.transactions := [] |}
                     1 view_only 13 9%Z) in
   Edge.user_roles db'
     = [mk_user_role 12 2 admin 0%Z; mk_user_role 13 1 view_only 9%Z]
   /\ fetch_roles (Edge.user_roles db') 1 = [view_only]
   /\ canEdit (fetch_roles (Edge.user_roles db') 1) = false).
Proof.
  split.
  - eexists. split; [reflexivity|]. simpl. repeat split. discriminate.
  - repeat split.
Qed.

(** ** Listing transactions *)

Section ListFacts.

Variables (A B : Type).

Lemma Permutation_filter_both (f : A -> bool) (l l' : list A) :
  Permutation l l' -> Permutation (filter f l) (filter f l').
Proof.
  induction 1 as [|x l l' _ IH|x y l|l l' l'' _ IH1 _ IH2]; simpl.
  - constructor.
  - destruct (f x); [now constructor | exact IH].
  - destruct (f x), (f y); try reflexivity. constructor.
  - now transitivity (filter f l').
Qed.

Lemma StronglySorted_filter_sub (R : A -> A -> Prop) (f : A -> bool)
    (l : list A) :
  StronglySorted R l -> StronglySorted R (filter f l).
Proof.
  induction 1 as [|x l _ IH Hall]; simpl; [constructor|].
  destruct (f x); [|exact IH].
  constructor; [exact IH|].
  rewrite Forall_forall in *. intros y Hy. apply Hall.
  now apply filter_In in Hy.
Qed.

Lemma StronglySorted_map_mono (R : A -> A -> Prop) (S : B -> B -> Prop)
    (g : A -> B) (l : list A) :
  (forall a b, R a b -> S (g a) (g b)) ->
  StronglySorted R l -> StronglySorted S (map g l).
Proof.
  intros Hmono. induction 1 as [|x l _ IH Hall]; simpl; constructor.
  - exact IH.
  - rewrite Forall_forall in *. intros y Hy. apply in_map_iff in Hy.
    destruct Hy as [a [<- Ha]]. now apply Hmono, Hall.
Qed.

End ListFacts.

(** Newest date first, on the client's transactions. *)
Definition newest_first (a b : Transaction) : Prop :=
  (Tx.date b <= Tx.date a)%Z.

(** Newest date first, and among equal dates latest creation first. *)
Definition newest_then_latest (a b : DbTransaction) : Prop :=
  (Row.date b < Row.date a)%Z
  \/ (Row.date b = Row.date a /\ (Row.created_at b <= Row.created_at a)%Z).

Lemma DateCreatedDesc_leb_spec (a b : DbTransaction) :
  DateCreatedDesc.leb a b = true <-> newest_then_latest a b.
Proof.
  unfold DateCreatedDesc.leb, newest_then_latest.
  rewrite orb_true_iff, andb_true_iff, Z.ltb_lt, Z.eqb_eq, Z.leb_le.
  reflexivity.
Qed.

Lemma date_desc_transitive :
  Transitive (fun a b : DbTransaction => is_true (DateDesc.leb a b)).
Proof.
  intros a b c. unfold is_true, DateDesc.leb. rewrite !Z.leb_le. lia.
Qed.

Lemma date_created_desc_transitive :
  Transitive (fun a b : DbTransaction => is_true (DateCreatedDesc.leb a b)).
Proof.
  intros a b c. unfold is_true. rewrite !DateCreatedDesc_leb_spec.
  unfold newest_then_latest. lia.
Qed.

(** Every query has a result: sorting the selected rows gives one. *)
Lemma select_order_date_desc_total (db : Supabase.Database)
    (auth_uid : option uuid) :
  Supabase.select_order_date_desc db auth_uid
    (SortDateDesc.sort (Supabase.visible_transactions db auth_uid)).
Proof.
  split.
  - apply SortDateDesc.Permuted_sort.
  - apply (SortDateDesc.StronglySorted_sort _ date_desc_transitive).
Qed.

Lemma getTransactions_total (db : Edge.Database) (userId : uuid) :
  Edge.getTransactions db userId
    (SortDateCreatedDesc.sort
       (filter (fun t => Nat.eqb (Row.user_id t) userId) (Edge.transactions db))).
Proof.
  split.
  - apply SortDateCreatedDesc.Permuted_sort.
  - apply (SortDateCreatedDesc.StronglySorted_sort _
             date_created_desc_transitive).
Qed.

Definition owned_by (userId : uuid) (t : DbTransaction) : bool :=
  Nat.eqb (Row.user_id t) userId.

(** X26.  For a user who may view, the client's
    [fetchTransactions] followed by [getFilteredTransactions] shows exactly
    the stored transactions that pass the filter, whoever owns them, newest
    date first; the order among transactions of one date is whatever the
    database returned.  The edge function's [getTransactions] returns exactly
    the transactions owned by the given user, newest date first and, within
    a date, latest creation first.  Both queries always have a result. *)
Theorem list_shared_newest_first :
  (forall (db : Supabase.Database) (user : uuid)
          (state state' : list Transaction) (filters : Hook.Filters),
      canView (fetch_roles (Supabase.user_roles db) user) = true ->
      Hook.fetchTransactions (Some user) db state state' ->
      let shown := Hook.getFilteredTransactions state' filters in
      Permutation
        (Hook.getFilteredTransactions
           (map mapDbToTransaction (Supabase.transactions db)) filters)
        shown
      /\ StronglySorted newest_first shown) /\
  (forall (db : Supabase.Database) (user : uuid) (state : list Transaction),
      exists state', Hook.fetchTransactions (Some user) db state state') /\
  (forall (db : Edge.Database) (userId : uuid) (result : list DbTransaction),
      Edge.getTransactions db userId result ->
      Permutation (filter (owned_by userId) (Edge.transactions db)) result
      /\ (forall row, In row result <->
                      In row (Edge.transactions db) /\ Row.user_id row = userId)
      /\ StronglySorted newest_then_latest result) /\
  (forall (db : Edge.Database) (userId : uuid),
      exists result, Edge.getTransactions db userId result).
Proof.
  repeat apply conj.
  - intros db user state state' filters Hview [data [[Hperm Hsorted] ->]] shown.
    unfold Supabase.visible_transactions, Supabase.policy_select,
      Supabase.as_user in Hperm.
    rewrite can_view_canView, Hview in Hperm.
    subst shown. unfold Hook.getFilteredTransactions. split.
    + apply Permutation_filter_both, Permutation_map, Hperm.
    + apply StronglySorted_filter_sub.
      apply StronglySorted_map_mono
        with (R := fun a b => DateDesc.leb a b = true); [|exact Hsorted].
      intros a b Hab. unfold DateDesc.leb in Hab. apply Z.leb_le in Hab.
      unfold newest_first, mapDbToTransaction, Date_of_sql, ms_per_day.
      simpl. lia.
  - intros db user state. eexists. eexists. split; [|reflexivity].
    apply select_order_date_desc_total.
  - intros db userId result [Hperm Hsorted].
    split; [exact Hperm|]. split.
    + intro row. split.
      * intro Hin. apply (Permutation_in _ (Permutation_sym Hperm)) in Hin.
        apply filter_In in Hin. destruct Hin as [Hin Hu].
        split; [assumption | now apply Nat.eqb_eq].
      * intros [Hin Hu]. apply (Permutation_in _ Hperm).
        apply filter_In. split; [assumption | now apply Nat.eqb_eq].
    + rewrite <- (map_id result).
      apply StronglySorted_map_mono
        with (R := fun a b => DateCreatedDesc.leb a b = true);
        [|exact Hsorted].
      intros a b. apply DateCreatedDesc_leb_spec.
  - intros db userId. eexists. apply getTransactions_total.
Qed.

(** Two transactions of user 2 on the same day, entered one after the other;
    user 1 holds [view_only]. *)
Definition row_a : DbTransaction :=
  {| Row.id := 100; Row.user_id := 2; Row.date := 5%Z; Row.type := income;
     Row.client_supplier := "Acme"%string; Row.amount := 10000%Z;
     Row.description := None; Row.payment_method := pix;
     Row.created_at := 1%Z; Row.updated_at := 1%Z |}.

Definition row_b : DbTransaction :=
  {| Row.id := 101; Row.user_id := 2; Row.date := 5%Z; Row.type := expense;
     Row.client_supplier := "Bolt"%string; Row.amount := 4000%Z;
     Row.description := None; Row.payment_method := boleto;
     Row.created_at := 2%Z; Row.updated_at := 2%Z |}.

Definition shared_db : Supabase.Database :=
  {| Supabase.profiles := [];
     Supabase.user_roles := [mk_user_role 10 1 view_only 0%Z];
     Supabase.transactions := [row_a; row_b] |}.

Definition shared_edge_db : Edge.Database :=
  {| Edge.users := [];
     Edge.user_roles := [mk_user_role 10 1 view_only 0%Z];
     Edge.transactions := [row_a; row_b] |}.

Definition no_filters : Hook.Filters :=
  {| Hook.startDate := None; Hook.endDate := None;
     Hook.f_type := Some Hook.all; Hook.search := Some EmptyString |}.

Lemma list_shared_newest_first_witness :
  Permutation
    (Hook.getFilteredTransactions
       (map mapDbToTransaction (Supabase.transactions shared_db)) no_filters)
    (Hook.getFilteredTransactions
       (map mapDbToTransaction [row_a; row_b]) no_filters)
  /\ StronglySorted newest_first
       (Hook.getFilteredTransactions
          (map mapDbToTransaction [row_a; row_b]) no_filters).
Proof.
  refine (proj1 list_shared_newest_first shared_db 1 []
            (map mapDbToTransaction [row_a; row_b]) no_filters eq_refl _).
  exists [row_a; row_b]. split; [|reflexivity]. split.
  - apply Permutation_refl.
  - repeat constructor.
Defined.

(** C5, on both paths.  User 2 entered two transactions on the same day;
    user 1 may view.  On the client path the query orders by date only: the
    older transaction first is an admissible result, which is not "latest
    creation first".  On the edge function path only the caller's own
    transactions come back: user 1 gets none of user 2's. *)
Theorem list_ties_and_owner_counterexample :
  (canView (fetch_roles (Supabase.user_roles shared_db) 1) = true
   /\ Hook.fetchTransactions (Some 1) shared_db []
        (map mapDbToTransaction [row_a; row_b])
   /\ Row.date row_a = Row.date row_b
   /\ (Row.created_at row_a < Row.created_at row_b)%Z
   /\ ~ StronglySorted newest_then_latest [row_a; row_b]) /\
  (canView (fetch_roles (Edge.user_roles shared_edge_db) 1) = true
   /\ In row_a (Edge.transactions shared_edge_db)
   /\ forall result, Edge.getTransactions shared_edge_db 1 result -> result = []).
Proof.
  split.
  - split; [reflexivity|]. split.
    + exists [row_a; row_b]. split; [|reflexivity]. split.
      * apply Permutation_refl.
      * repeat constructor.
    + split; [reflexivity|]. split; [reflexivity|].
      intro Hs. inversion Hs as [|? ? _ Hall]; subst.
      inversion Hall as [|? ? Hab _]; subst.
      unfold newest_then_latest in Hab. simpl in Hab. lia.
  - split; [reflexivity|]. split; [now left|].
    intros result [Hperm _]. simpl in Hperm.
    now apply Permutation_nil.
Qed.

(** ** Deleting a transaction *)

Definition stored_ids (rows : list DbTransaction) : list uuid := map Row.id rows.

Lemma delete_where_id_absent (may_touch : bool) (id : uuid)
    (rows : list DbTransaction) :
  ~ In id (stored_ids rows) -> delete_where_id may_touch id rows = rows.
Proof.
  unfold delete_where_id, stored_ids.
  induction rows as [|t rows IH]; intro Habsent; [reflexivity|].
  simpl in *. destruct (Nat.eqb_spec (Row.id t) id) as [E|E].
  - exfalso. apply Habsent. now left.
  - rewrite andb_false_r. simpl. rewrite IH by tauto. reflexivity.
Qed.

Lemma filter_twice (A : Type) (f : A -> bool) (l : list A) :
  filter f (filter f l) = filter f l.
Proof.
  induction l as [|x l IH]; [reflexivity|].
  simpl. destruct (f x) eqn:E; simpl; [now rewrite E, IH | exact IH].
Qed.

Lemma delete_where_id_again (may_touch : bool) (id : uuid)
    (rows : list DbTransaction) :
  delete_where_id may_touch id (delete_where_id may_touch id rows)
  = delete_where_id may_touch id rows.
Proof. apply filter_twice. Qed.

Lemma with_transactions_same (db : Supabase.Database) :
  Supabase.with_transactions db (Supabase.transactions db) = db.
Proof. now destruct db. Qed.

(** C6 (as the code has it).  Deleting an id that identifies no stored
    transaction leaves the store unchanged and reports success, on the client
    path ([true]) and in the edge function ([{ success: true }]); deleting
    the same id a second time does the same.  No "not found" outcome
    exists. *)
Theorem delete_unknown_id_succeeds :
  (forall (db : Supabase.Database) (user : option uuid) (id : uuid)
          (state : list Transaction),
      ~ In id (stored_ids (Supabase.transactions db)) ->
      Hook.deleteTransaction user id db state
      = (db, filter (fun t => negb (Nat.eqb (Tx.id t) id)) state, true)) /\
  (forall (db : Edge.Database) (id : uuid),
      ~ In id (stored_ids (Edge.transactions db)) ->
      Edge.deleteTransaction db id = (db, true)) /\
  (forall (db : Supabase.Database) (user : option uuid) (id : uuid)
          (state : list Transaction),
      let '(db1, state1, _) := Hook.deleteTransaction user id db state in
      Hook.deleteTransaction user id db1 state1 = (db1, state1, true)) /\
  (forall (db : Edge.Database) (id : uuid),
      let db1 := fst (Edge.deleteTransaction db id) in
      Edge.deleteTransaction db1 id = (db1, true)).
Proof.
  repeat apply conj.
  - intros db user id state Habsent. unfold Hook.deleteTransaction,
      Supabase.delete_transaction.
    rewrite delete_where_id_absent by assumption.
    now rewrite with_transactions_same.
  - intros db id Habsent. unfold Edge.deleteTransaction.
    rewrite delete_where_id_absent by assumption. now destruct db.
  - intros db user id state. unfold Hook.deleteTransaction.
    unfold Supabase.delete_transaction, Supabase.with_transactions,
      Supabase.policy_delete. simpl.
    now rewrite delete_where_id_again, filter_twice.
  - intros db id db1. subst db1. unfold Edge.deleteTransaction. simpl.
    now rewrite delete_where_id_again.
Qed.

Lemma delete_unknown_id_succeeds_witness :
  Hook.deleteTransaction (Some 1) 999 shared_db []
  = (shared_db, filter (fun t => negb (Nat.eqb (Tx.id t) 999)) [], true).
Proof.
  refine (proj1 delete_unknown_id_succeeds shared_db (Some 1) 999 [] _).
  simpl. intros [H|[H|[]]]; discriminate H.
Defined.

(** C6, as stated, fails: on an empty store, where no id exists, both delete
    paths answer success. *)
Lemma delete_unknown_id_counterexample :
  Hook.deleteTransaction (Some 1) 999 Supabase.empty []
    = (Supabase.empty, [], true)
  /\ Edge.deleteTransaction Edge.empty 999 = (Edge.empty, true).
Proof. split; reflexivity. Qed.

(** ** Updating a transaction *)

Lemma set_columns_id (u : Updates) (amount : option numeric_12_2)
    (now : timestamp) (t : DbTransaction) :
  Row.id (set_columns u amount now t) = Row.id t.
Proof. reflexivity. Qed.

Lemma no_columns_with_amount (u : Updates) (a : number) :
  u_amount u = Some a -> no_columns u = false.
Proof.
  intro H. unfold no_columns. rewrite H.
  now destruct (u_date u), (u_type u), (u_client_supplier u).
Qed.

(** Whether an [UPDATE ... WHERE id = $id] reaches a row. *)
Lemma existsb_reached (may_touch : bool) (id : uuid)
    (rows : list DbTransaction) :
  existsb (reached may_touch id) rows
  = may_touch && existsb (fun t => Nat.eqb (Row.id t) id) rows.
Proof.
  induction rows as [|t rows IH]; simpl; [now rewrite andb_false_r|].
  rewrite IH. unfold reached. now destruct may_touch.
Qed.

Lemma some_row_has_id (id : uuid) (rows : list DbTransaction)
    (r : DbTransaction) :
  In r rows -> Row.id r = id ->
  existsb (fun t => Nat.eqb (Row.id t) id) rows = true.
Proof.
  intros Hin Hid. apply existsb_exists. exists r.
  split; [assumption | now apply Nat.eqb_eq].
Qed.

Lemma no_row_has_id (id : uuid) (rows : list DbTransaction) :
  ~ In id (stored_ids rows) ->
  existsb (fun t => Nat.eqb (Row.id t) id) rows = false.
Proof.
  intro Habsent. apply not_true_iff_false. intro E.
  apply existsb_exists in E. destruct E as [r [Hr E]].
  apply Nat.eqb_eq in E. apply Habsent. unfold stored_ids.
  rewrite <- E. now apply in_map.
Qed.

Lemma assign_where_id_unreached (may_touch : bool) (u : Updates)
    (amount : option numeric_12_2) (now : timestamp) (id : uuid)
    (rows : list DbTransaction) :
  existsb (reached may_touch id) rows = false ->
  assign_where_id may_touch u amount now id rows = rows.
Proof.
  unfold assign_where_id.
  induction rows as [|t rows IH]; simpl; intro H; [reflexivity|].
  apply orb_false_iff in H. destruct H as [H1 H2].
  now rewrite H1, IH.
Qed.

Lemma update_where_id_unreached (may_touch : bool) (u : Updates)
    (now : timestamp) (id : uuid) (rows : list DbTransaction) :
  existsb (reached may_touch id) rows = false ->
  update_where_id may_touch u now id rows = Ok rows.
Proof. unfold update_where_id. now intros ->. Qed.

(** With an amount the column takes (or none), the statement assigns. *)
Lemma update_where_id_accepted (may_touch : bool) (u : Updates)
    (now : timestamp) (id : uuid) (rows : list DbTransaction)
    (amount : option numeric_12_2) :
  assigned_amount u = Ok amount ->
  update_where_id may_touch u now id rows
  = Ok (assign_where_id may_touch u amount now id rows).
Proof.
  intro Ha. unfold update_where_id. rewrite Ha.
  destruct (existsb _ rows) eqn:E; [reflexivity|].
  now rewrite assign_where_id_unreached.
Qed.

(** With an amount the column refuses, a statement that reaches a row
    fails. *)
Lemma update_where_id_refused (may_touch : bool) (u : Updates)
    (now : timestamp) (id : uuid) (rows : list DbTransaction) (e : DbError) :
  assigned_amount u = Err e ->
  existsb (reached may_touch id) rows = true ->
  update_where_id may_touch u now id rows = Err e.
Proof. intros Ha Hr. unfold update_where_id. now rewrite Hr, Ha. Qed.

Lemma assigned_amount_spec (u : Updates) (amount : option numeric_12_2) :
  assigned_amount u = Ok amount <->
  match u_amount u with
  | None => amount = None
  | Some a => exists c, to_numeric_12_2 a = Ok c /\ amount = Some c
  end.
Proof.
  unfold assigned_amount. destruct (u_amount u) as [a|].
  - destruct (to_numeric_12_2 a) as [c|e]; split.
    + intros [= <-]. now exists c.
    + intros [c' [[= <-] ->]]. reflexivity.
    + discriminate.
    + intros [c' [H _]]. discriminate.
  - split; [intros [= <-]; reflexivity | now intros ->].
Qed.

Lemma assigned_amount_of (u : Updates) (a : number) (c : numeric_12_2) :
  u_amount u = Some a -> to_numeric_12_2 a = Ok c ->
  assigned_amount u = Ok (Some c).
Proof. intros Hu Hc. unfold assigned_amount. now rewrite Hu, Hc. Qed.

Lemma assigned_amount_refused (u : Updates) (a : number) (e : DbError) :
  u_amount u = Some a -> to_numeric_12_2 a = Err e ->
  assigned_amount u = Err e.
Proof. intros Hu He. unfold assigned_amount. now rewrite Hu, He. Qed.

(** The rows after the assignment that carry the id are the updated images
    of the rows that carried it. *)
Lemma assign_where_id_hit (u : Updates) (amount : option numeric_12_2)
    (now : timestamp) (id : uuid) (rows : list DbTransaction)
    (r' : DbTransaction) :
  In r' (assign_where_id true u amount now id rows) -> Row.id r' = id ->
  exists r, In r rows /\ Row.id r = id /\ r' = set_columns u amount now r.
Proof.
  unfold assign_where_id. intros Hin Hid. apply in_map_iff in Hin.
  destruct Hin as [r [Hr Hin]]. exists r. unfold reached in Hr. simpl in Hr.
  destruct (Nat.eqb_spec (Row.id r) id) as [E|E].
  - now repeat split.
  - subst r'. contradiction.
Qed.

Lemma assign_where_id_image (u : Updates) (amount : option numeric_12_2)
    (now : timestamp) (id : uuid) (rows : list DbTransaction)
    (r : DbTransaction) :
  In r rows -> Row.id r = id ->
  In (set_columns u amount now r) (assign_where_id true u amount now id rows).
Proof.
  intros Hin Hid. unfold assign_where_id. apply in_map_iff. exists r.
  split; [|assumption]. unfold reached. simpl. now rewrite Hid, Nat.eqb_refl.
Qed.

Lemma assign_where_id_amount (u : Updates) (c : numeric_12_2)
    (now : timestamp) (id : uuid) (rows : list DbTransaction) :
  forall r', In r' (assign_where_id true u (Some c) now id rows) ->
             Row.id r' = id -> Row.amount r' = c.
Proof.
  intros r' Hin Hid.
  destruct (@assign_where_id_hit _ _ _ _ _ _ Hin Hid) as [r [_ [_ ->]]].
  reflexivity.
Qed.

Lemma assign_where_id_by_id (u : Updates) (amount : option numeric_12_2)
    (now : timestamp) (id : uuid) (rows : list DbTransaction) :
  assign_where_id true u amount now id rows
  = map (fun r => if Nat.eqb (Row.id r) id
                  then set_columns u amount now r else r) rows.
Proof. reflexivity. Qed.

Lemma hd_error_filter_hit (A : Type) (f : A -> bool) (l : list A) (x : A) :
  In x l -> f x = true ->
  exists y, hd_error (filter f l) = Some y /\ In y l /\ f y = true.
Proof.
  intros Hin Hf.
  assert (Hx : In x (filter f l)) by (apply filter_In; now split).
  destruct (filter f l) as [|y ys] eqn:E; [contradiction|].
  exists y. split; [reflexivity|].
  apply filter_In. rewrite E. now left.
Qed.

Lemma policy_update_canEdit (db : Supabase.Database) (user : uuid) :
  Supabase.policy_update db (Some user)
  = canEdit (fetch_roles (Supabase.user_roles db) user).
Proof. apply can_edit_canEdit. Qed.

(** The outcomes of the two update paths on an id that some row carries. *)
Lemma edge_update_accepted (db : Edge.Database) (id : uuid) (data : Updates)
    (now : timestamp) (amount : option numeric_12_2) :
  no_columns data = false ->
  assigned_amount data = Ok amount ->
  Edge.updateTransaction db id data now
  = let rows := assign_where_id true data amount now id
                  (Edge.transactions db) in
    Ok ({| Edge.users := Edge.users db; Edge.user_roles := Edge.user_roles db;
           Edge.transactions := rows |},
        hd_error (filter (fun t => Nat.eqb (Row.id t) id) rows)).
Proof.
  intros Hcols Ha. unfold Edge.updateTransaction.
  now rewrite Hcols, (@update_where_id_accepted _ _ _ _ _ _ Ha).
Qed.

Lemma client_update_accepted (db : Supabase.Database) (user : uuid)
    (now : timestamp) (id : uuid) (t : Hook.PartialTransaction)
    (amount : option numeric_12_2) :
  canEdit (fetch_roles (Supabase.user_roles db) user) = true ->
  no_columns (Hook.build_updates t) = false ->
  assigned_amount (Hook.build_updates t) = Ok amount ->
  Hook.updateTransaction (Some user) now id t db
  = (Supabase.with_transactions db
       (assign_where_id true (Hook.build_updates t) amount now id
          (Supabase.transactions db)),
     true).
Proof.
  intros Hedit Hcols Ha. unfold Hook.updateTransaction,
    Supabase.update_transaction.
  now rewrite Hcols, policy_update_canEdit, Hedit,
    (@update_where_id_accepted _ _ _ _ _ _ Ha).
Qed.

Lemma client_update_refused (db : Supabase.Database) (user : uuid)
    (now : timestamp) (id : uuid) (t : Hook.PartialTransaction)
    (e : DbError) :
  canEdit (fetch_roles (Supabase.user_roles db) user) = true ->
  In id (stored_ids (Supabase.transactions db)) ->
  assigned_amount (Hook.build_updates t) = Err e ->
  Hook.updateTransaction (Some user) now id t db = (db, false).
Proof.
  intros Hedit Hin He. unfold Hook.updateTransaction,
    Supabase.update_transaction.
  assert (Hcols : no_columns (Hook.build_updates t) = false).
  { unfold assigned_amount in He.
    destruct (u_amount (Hook.build_updates t)) as [a|] eqn:Ea;
      [|discriminate].
    exact (@no_columns_with_amount _ _ Ea). }
  rewrite Hcols, policy_update_canEdit, Hedit.
  rewrite (@update_where_id_refused _ _ _ _ _ _ He); [reflexivity|].
  rewrite existsb_reached. cbn [andb].
  unfold stored_ids in Hin. apply in_map_iff in Hin.
  destruct Hin as [r [Hid Hr]]. exact (@some_row_has_id _ _ _ Hr Hid).
Qed.

(** The sign of a stored amount follows the sign of the number sent. *)
Lemma scaled_nonneg (scale : Z) (m : positive) (e : Z) :
  (0 <= scale)%Z -> (0 <= scaled scale m e)%Z.
Proof.
  intro Hs. unfold scaled. destruct (0 <=? e)%Z eqn:He.
  - apply Z.leb_le in He.
    apply Z.mul_nonneg_nonneg; [|now apply Z.pow_nonneg].
    apply Z.mul_nonneg_nonneg; lia.
  - apply Z.leb_gt in He. apply Z.div_pos.
    + assert (0 <= 2 ^ (- e))%Z by now apply Z.pow_nonneg. nia.
    + apply Z.pow_pos_nonneg; lia.
Qed.

Lemma hundredths_nonneg (x : number) (m : positive) (e : Z) :
  (0 <= hundredths x m e)%Z.
Proof.
  unfold hundredths.
  destruct (PrimFloat.eqb _ _).
  - apply Z.div_pos; [|lia].
    assert (0 <= scaled 1000 m e)%Z by (apply scaled_nonneg; lia). lia.
  - apply scaled_nonneg. lia.
Qed.

Lemma nonpositive_is_stored_nonpositive (a : number) (c : numeric_12_2) :
  PrimFloat.leb a 0 = true -> to_numeric_12_2 a = Ok c -> (c <= 0)%Z.
Proof.
  rewrite FloatAxioms.leb_spec. unfold to_numeric_12_2, read_numeric_12_2.
  intros Hsign Hc.
  destruct (Prim2SF a) as [s|s| |s m e]; try discriminate Hc.
  - injection Hc as <-. lia.
  - destruct (PrimFloat.leb _ _); [discriminate Hc|].
    destruct (_ <=? _)%Z; [discriminate Hc|].
    destruct s.
    + injection Hc as <-. pose proof (hundredths_nonneg a m e). lia.
    + exfalso. vm_compute in Hsign. discriminate Hsign.
Qed.

Lemma positive_is_stored_nonnegative (a : number) (c : numeric_12_2) :
  PrimFloat.ltb 0 a = true -> to_numeric_12_2 a = Ok c -> (0 <= c)%Z.
Proof.
  rewrite FloatAxioms.ltb_spec. unfold to_numeric_12_2, read_numeric_12_2.
  intros Hsign Hc.
  destruct (Prim2SF a) as [s|s| |s m e]; try discriminate Hc.
  - injection Hc as <-. lia.
  - destruct (PrimFloat.leb _ _); [discriminate Hc|].
    destruct (_ <=? _)%Z; [discriminate Hc|].
    destruct s.
    + exfalso. vm_compute in Hsign. discriminate Hsign.
    + injection Hc as <-. apply hundredths_nonneg.
Qed.

(** C7 (as the code has it).  For an existing transaction id, an update
    whose amount is zero or negative (for example -5) is treated like any
    other amount: when the column takes it, the edge function's
    [updateTransaction] returns the updated row, the client's
    [updateTransaction] (for a user who may edit) returns [true], and
    afterwards every stored transaction with that id carries the amount
    rounded to two decimals, which is zero or negative.  An amount the
    column refuses (NaN or infinite, or 10^10 or more in magnitude) makes
    the update fail, whatever its sign, and the store is unchanged.
    Neither the update paths nor the table check the sign of the amount. *)
Theorem update_stores_nonpositive_amount :
  (forall (db : Edge.Database) (id : uuid) (data : Updates) (now : timestamp)
          (a : number) (c : numeric_12_2) (row : DbTransaction),
      In row (Edge.transactions db) -> Row.id row = id ->
      u_amount data = Some a -> PrimFloat.leb a 0 = true ->
      to_numeric_12_2 a = Ok c ->
      (c <= 0)%Z
      /\ exists db' r,
           Edge.updateTransaction db id data now = Ok (db', Some r)
           /\ Row.id r = id /\ Row.amount r = c
           /\ In (set_columns data (Some c) now row) (Edge.transactions db')
           /\ (forall r', In r' (Edge.transactions db') -> Row.id r' = id ->
                          Row.amount r' = c)) /\
  (forall (db : Supabase.Database) (user : uuid) (now : timestamp) (id : uuid)
          (t : Hook.PartialTransaction) (a : number) (c : numeric_12_2)
          (row : DbTransaction),
      canEdit (fetch_roles (Supabase.user_roles db) user) = true ->
      In row (Supabase.transactions db) -> Row.id row = id ->
      Hook.p_amount t = Some a -> PrimFloat.leb a 0 = true ->
      to_numeric_12_2 a = Ok c ->
      (c <= 0)%Z
      /\ exists db',
           Hook.updateTransaction (Some user) now id t db = (db', true)
           /\ In (set_columns (Hook.build_updates t) (Some c) now row)
                 (Supabase.transactions db')
           /\ (forall r', In r' (Supabase.transactions db') -> Row.id r' = id ->
                          Row.amount r' = c)) /\
  (forall (db : Edge.Database) (id : uuid) (data : Updates) (now : timestamp)
          (a : number) (e : DbError) (row : DbTransaction),
      In row (Edge.transactions db) -> Row.id row = id ->
      u_amount data = Some a -> to_numeric_12_2 a = Err e ->
      Edge.updateTransaction db id data now = Err e) /\
  (forall (db : Supabase.Database) (user : uuid) (now : timestamp) (id : uuid)
          (t : Hook.PartialTransaction) (a : number) (e : DbError)
          (row : DbTransaction),
      canEdit (fetch_roles (Supabase.user_roles db) user) = true ->
      In row (Supabase.transactions db) -> Row.id row = id ->
      Hook.p_amount t = Some a -> to_numeric_12_2 a = Err e ->
      Hook.updateTransaction (Some user) now id t db = (db, false)).
Proof.
  split; [|split; [|split]].
  - intros db id data now a c row Hin Hid Ha Hneg Hc.
    split; [exact (@nonpositive_is_stored_nonpositive _ _ Hneg Hc)|].
    rewrite (@edge_update_accepted db id data now (Some c)
               (@no_columns_with_amount _ _ Ha)
               (@assigned_amount_of _ _ _ Ha Hc)).
    destruct (@hd_error_filter_hit _ (fun t => Nat.eqb (Row.id t) id)
                (assign_where_id true data (Some c) now id
                   (Edge.transactions db))
                (set_columns data (Some c) now row)) as [r [Hhd [Hr Hrid]]].
    { now apply assign_where_id_image. }
    { rewrite set_columns_id, Hid. apply Nat.eqb_refl. }
    apply Nat.eqb_eq in Hrid.
    eexists. exists r. cbv zeta. rewrite Hhd. split; [reflexivity|].
    split; [assumption|]. cbn [Edge.transactions]. split.
    + exact (@assign_where_id_amount data c now id _ r Hr Hrid).
    + split; [now apply assign_where_id_image|].
      exact (@assign_where_id_amount data c now id _).
  - intros db user now id t a c row Hedit Hin Hid Ha Hneg Hc.
    split; [exact (@nonpositive_is_stored_nonpositive _ _ Hneg Hc)|].
    assert (Hb : u_amount (Hook.build_updates t) = Some a) by exact Ha.
    rewrite (@client_update_accepted db user now id t (Some c) Hedit
               (@no_columns_with_amount _ _ Hb)
               (@assigned_amount_of _ _ _ Hb Hc)).
    eexists. split; [reflexivity|]. cbn [Supabase.transactions
      Supabase.with_transactions]. split.
    + now apply assign_where_id_image.
    + exact (@assign_where_id_amount _ c now id _).
  - intros db id data now a e row Hin Hid Ha He.
    unfold Edge.updateTransaction.
    rewrite (@no_columns_with_amount _ _ Ha).
    rewrite (@update_where_id_refused true data now id _ e
               (@assigned_amount_refused _ _ _ Ha He)); [reflexivity|].
    rewrite existsb_reached. exact (@some_row_has_id _ _ _ Hin Hid).
  - intros db user now id t a e row Hedit Hin Hid Ha He.
    apply client_update_refused with (e := e); [assumption| |].
    + unfold stored_ids. rewrite <- Hid. now apply in_map.
    + exact (@assigned_amount_refused (Hook.build_updates t) a e Ha He).
Qed.

(** An update that supplies only an amount. *)
Definition amount_only (a : number) : Updates :=
  {| u_date := None; u_type := None; u_client_supplier := None;
     u_amount := Some a; u_description := None; u_payment_method := None |}.

Definition change_amount (a : number) : Hook.PartialTransaction :=
  {| Hook.p_date := None; Hook.p_type := None; Hook.p_clientSupplier := None;
     Hook.p_amount := Some a; Hook.p_description := None;
     Hook.p_paymentMethod := None |}.

(** User 3 holds [edit]; the ledger has the two transactions above. *)
Definition editor_db : Supabase.Database :=
  {| Supabase.profiles := [];
     Supabase.user_roles := [mk_user_role 13 3 edit 0%Z];
     Supabase.transactions := [row_a; row_b] |}.

(** [row_a] after its amount was set to -5 at time 9. *)
Definition row_a_minus_5 : DbTransaction :=
  {| Row.id := 100; Row.user_id := 2; Row.date := 5%Z; Row.type := income;
     Row.client_supplier := "Acme"%string; Row.amount := (-500)%Z;
     Row.description := None; Row.payment_method := pix;
     Row.created_at := 1%Z; Row.updated_at := 9%Z |}.

Lemma update_stores_nonpositive_amount_witness :
  (-500 <= 0)%Z
  /\ exists db' r,
       Edge.updateTransaction shared_edge_db 100 (amount_only (-5)%float) 9%Z
         = Ok (db', Some r)
       /\ Row.id r = 100 /\ Row.amount r = (-500)%Z
       /\ In (set_columns (amount_only (-5)%float) (Some (-500)%Z) 9%Z row_a)
             (Edge.transactions db')
       /\ (forall r', In r' (Edge.transactions db') -> Row.id r' = 100 ->
                      Row.amount r' = (-500)%Z).
Proof.
  refine (proj1 update_stores_nonpositive_amount shared_edge_db 100
            (amount_only (-5)%float) 9%Z (-5)%float (-500)%Z row_a
            (or_introl eq_refl) eq_refl eq_refl _ _);
    vm_compute; reflexivity.
Defined.

(** C7, as stated, fails: an update of an existing transaction to the amount
    -5 goes through on both paths and the store then holds -5.00, which the
    client reads back as -5. *)
Lemma update_negative_amount_counterexample :
  Edge.updateTransaction shared_edge_db 100 (amount_only (-5)%float) 9%Z
    = Ok ({| Edge.users := [];
             Edge.user_roles := [mk_user_role 10 1 view_only 0%Z];
             Edge.transactions := [row_a_minus_5; row_b] |},
          Some row_a_minus_5)
  /\ Hook.updateTransaction (Some 3) 9%Z 100 (change_amount (-5)%float) editor_db
     = ({| Supabase.profiles := [];
           Supabase.user_roles := [mk_user_role 13 3 edit 0%Z];
           Supabase.transactions := [row_a_minus_5; row_b] |},
        true)
  /\ Tx.amount (mapDbToTransaction row_a_minus_5) = (-5)%float
  /\ PrimFloat.leb (Tx.amount (mapDbToTransaction row_a_minus_5)) 0 = true.
Proof. vm_compute. repeat split. Qed.

(** An amount beyond the column's range is refused, negative or not, and
    the row keeps its amount. *)
Example update_out_of_range_is_refused :
  Edge.updateTransaction shared_edge_db 100
    (amount_only (-100000000000)%float) 9%Z
    = Err numeric_field_overflow
  /\ Hook.updateTransaction (Some 3) 9%Z 100
       (change_amount (-100000000000)%float) editor_db
     = (editor_db, false)
  /\ Hook.updateTransaction (Some 3) 9%Z 100
       (change_amount PrimFloat.neg_infinity) editor_db
     = (editor_db, false)
  /\ exists db',
       Hook.updateTransaction (Some 3) 9%Z 100
         (change_amount (-1 / 1000)%float) editor_db = (db', true)
       /\ map Row.amount (Supabase.transactions db') = [0%Z; 4000%Z].
Proof. vm_compute. repeat split. eexists. split; reflexivity. Qed.

(** ** The client's partial update: what is applied, what is kept *)

(** Nothing of the partial transaction is sent: every field is missing, or
    is an empty [clientSupplier]. *)
Definition sends_nothing (t : Hook.PartialTransaction) : Prop :=
  Hook.p_date t = None /\ Hook.p_type t = None
  /\ (Hook.p_clientSupplier t = None
      \/ Hook.p_clientSupplier t = Some EmptyString)
  /\ Hook.p_amount t = None /\ Hook.p_description t = None
  /\ Hook.p_paymentMethod t = None.

Lemma no_columns_sends_nothing (t : Hook.PartialTransaction) :
  no_columns (Hook.build_updates t) = true <-> sends_nothing t.
Proof.
  destruct t as [d ty cs a ds pm]. unfold sends_nothing, no_columns. simpl.
  destruct d, ty, cs as [[|c s]|], a, ds, pm; simpl; split;
    try discriminate; try reflexivity;
    try (intros [H1 [H2 [[H3|H3] [H4 [H5 H6]]]]]; discriminate);
    intros _; repeat split; auto.
Qed.

Lemma client_update_unreached (db : Supabase.Database) (user : uuid)
    (now : timestamp) (id : uuid) (t : Hook.PartialTransaction) :
  canEdit (fetch_roles (Supabase.user_roles db) user) = false
  \/ sends_nothing t
  \/ ~ In id (stored_ids (Supabase.transactions db)) ->
  Hook.updateTransaction (Some user) now id t db = (db, true).
Proof.
  intro H. unfold Hook.updateTransaction, Supabase.update_transaction.
  destruct (no_columns (Hook.build_updates t)) eqn:Hcols; [reflexivity|].
  rewrite update_where_id_unreached.
  - now rewrite with_transactions_same.
  - rewrite existsb_reached, policy_update_canEdit.
    destruct H as [H|[H|H]].
    + now rewrite H.
    + apply no_columns_sends_nothing in H. congruence.
    + rewrite (@no_row_has_id _ _ H). apply andb_false_r.
Qed.

(** C10.  In the client's [updateTransaction], [date], [type],
    [clientSupplier] and [paymentMethod] are sent only when truthy, so an
    empty [clientSupplier] is dropped and can never be stored by an update;
    [amount] and [description] are sent whenever they are not [undefined], so
    an empty [description] is stored.  On the updated row every column that
    was not sent keeps its value ([id], [user_id] and [created_at] always
    do); only [updated_at] changes besides the sent columns; a sent amount
    is stored as the column takes it, rounded to two decimals.  For a user
    who may edit, an update that sends something changes exactly the rows
    with the given id, and every such row then carries the sent description
    and amount; rows with another id, and all rows when the user may not
    edit, nothing was sent or the column refuses the amount, are left as
    they were. *)
Theorem update_applies_supplied_fields (t : Hook.PartialTransaction) :
  let u := Hook.build_updates t in
  (u_date u = option_map toISODate (Hook.p_date t)
   /\ u_type u = Hook.p_type t
   /\ u_payment_method u = Hook.p_paymentMethod t
   /\ u_client_supplier u
      = match Hook.p_clientSupplier t with
        | Some EmptyString => None
        | other => other
        end
   /\ u_client_supplier u <> Some EmptyString
   /\ u_amount u = Hook.p_amount t
   /\ u_description u = Hook.p_description t) /\
  (forall amount : option numeric_12_2,
      assigned_amount u = Ok amount <->
      match Hook.p_amount t with
      | None => amount = None
      | Some a => exists c, to_numeric_12_2 a = Ok c /\ amount = Some c
      end) /\
  (forall (amount : option numeric_12_2) (now : timestamp)
          (row : DbTransaction),
      let row' := set_columns u amount now row in
      Row.id row' = Row.id row
      /\ Row.user_id row' = Row.user_id row
      /\ Row.created_at row' = Row.created_at row
      /\ Row.updated_at row' = now
      /\ Row.date row'
         = match Hook.p_date t with
           | Some d => toISODate d
           | None => Row.date row
           end
      /\ Row.type row' = or_else (Hook.p_type t) (Row.type row)
      /\ Row.client_supplier row'
         = match Hook.p_clientSupplier t with
           | Some (String c s) => String c s
           | Some EmptyString | None => Row.client_supplier row
           end
      /\ Row.amount row' = or_else amount (Row.amount row)
      /\ Row.description row'
         = match Hook.p_description t with
           | Some s => Some s
           | None => Row.description row
           end
      /\ Row.payment_method row'
         = or_else (Hook.p_paymentMethod t) (Row.payment_method row)) /\
  (forall (db : Supabase.Database) (user : uuid) (now : timestamp) (id : uuid),
      let R := fetch_roles (Supabase.user_roles db) user in
      let outcome := Hook.updateTransaction (Some user) now id t db in
      Supabase.profiles (fst outcome) = Supabase.profiles db
      /\ Supabase.user_roles (fst outcome) = Supabase.user_roles db
      /\ (canEdit R = false \/ sends_nothing t -> outcome = (db, true))
      /\ (forall amount,
             canEdit R = true -> ~ sends_nothing t ->
             assigned_amount u = Ok amount ->
             outcome
             = (Supabase.with_transactions db
                  (map (fun r => if Nat.eqb (Row.id r) id
                                 then set_columns u amount now r else r)
                       (Supabase.transactions db)),
                true))
      /\ (forall e,
             canEdit R = true ->
             In id (stored_ids (Supabase.transactions db)) ->
             assigned_amount u = Err e ->
             outcome = (db, false))
      /\ (forall r',
             canEdit R = true -> snd outcome = true ->
             In r' (Supabase.transactions (fst outcome)) -> Row.id r' = id ->
             (forall s, Hook.p_description t = Some s ->
                        Row.description r' = Some s)
             /\ (forall a, Hook.p_amount t = Some a ->
                           to_numeric_12_2 a = Ok (Row.amount r')))).
Proof.
  intro u. subst u. split; [|split; [|split]].
  - destruct t as [d ty cs a ds pm]. unfold Hook.build_updates. simpl.
    repeat split;
      solve [ now destruct d | now destruct ty | now destruct pm
            | now destruct cs as [[|c s]|] ].
  - intro amount. apply assigned_amount_spec.
  - intros amount now row. destruct t as [d ty cs a ds pm]. simpl.
    repeat split;
      solve [ now destruct d | now destruct ty | now destruct pm
            | now destruct cs as [[|c s]|] ].
  - intros db user now id R outcome.
    assert (Hunreached := @client_update_unreached db user now id t).
    fold R outcome in Hunreached.
    assert (Haccepted : forall amount,
               canEdit R = true -> ~ sends_nothing t ->
               assigned_amount (Hook.build_updates t) = Ok amount ->
               outcome
               = (Supabase.with_transactions db
                    (map (fun r => if Nat.eqb (Row.id r) id
                                   then set_columns (Hook.build_updates t)
                                          amount now r
                                   else r)
                         (Supabase.transactions db)),
                  true)).
    { intros amount Hedit Hsent Ha. subst outcome.
      rewrite (@client_update_accepted db user now id t amount Hedit);
        [reflexivity| |exact Ha].
      apply not_true_iff_false. intro Hcols. apply Hsent.
      now apply no_columns_sends_nothing. }
    assert (Hrefused : forall e,
               canEdit R = true ->
               In id (stored_ids (Supabase.transactions db)) ->
               assigned_amount (Hook.build_updates t) = Err e ->
               outcome = (db, false)).
    { intros e Hedit Hin He. subst outcome.
      now apply client_update_refused with (e := e). }
    assert (Hframe : Supabase.profiles (fst outcome) = Supabase.profiles db
                     /\ Supabase.user_roles (fst outcome)
                        = Supabase.user_roles db).
    { subst outcome. unfold Hook.updateTransaction,
        Supabase.update_transaction.
      destruct (no_columns _); [now split|].
      destruct (update_where_id _ _ _ _ _); now split. }
    destruct Hframe as [Hp Hr].
    split; [exact Hp|]. split; [exact Hr|]. split.
    { intros [H|H]; apply Hunreached; [now left | right; now left]. }
    split; [exact Haccepted|]. split; [exact Hrefused|].
    intros r' Hedit Hok Hin Hid.
    assert (Hsent_or : forall P : Prop,
               (~ sends_nothing t -> P) -> (sends_nothing t -> P) -> P).
    { intros P Hyes Hno.
      destruct (no_columns (Hook.build_updates t)) eqn:Hcols.
      - apply Hno. now apply no_columns_sends_nothing.
      - apply Hyes. intro Hs. apply no_columns_sends_nothing in Hs.
        congruence. }
    apply Hsent_or; intro Hsent.
    + destruct (assigned_amount (Hook.build_updates t)) as [amount|e] eqn:Ha.
      * rewrite (Haccepted amount Hedit Hsent eq_refl) in Hin.
        cbn [fst Supabase.transactions Supabase.with_transactions] in Hin.
        rewrite <- assign_where_id_by_id in Hin.
        destruct (@assign_where_id_hit _ _ _ _ _ _ Hin Hid)
          as [r [_ [_ ->]]].
        split.
        -- intros s Hs. simpl. now rewrite Hs.
        -- intros a Hamt. apply assigned_amount_spec in Ha.
           change (u_amount (Hook.build_updates t)) with (Hook.p_amount t)
             in Ha.
           rewrite Hamt in Ha. destruct Ha as [c [Hc ->]]. exact Hc.
      * assert (Hstored : In id (stored_ids (Supabase.transactions db))).
        { destruct (in_dec Nat.eq_dec id
                      (stored_ids (Supabase.transactions db)))
            as [Hyes|Hno]; [exact Hyes|].
          exfalso. rewrite (Hunreached (or_intror (or_intror Hno))) in Hin.
          apply Hno. unfold stored_ids. rewrite <- Hid. now apply in_map. }
        rewrite (Hrefused e Hedit Hstored eq_refl) in Hok. discriminate.
    + destruct Hsent as [_ [_ [_ [Hamt [Hdesc _]]]]].
      split; [intros s Hs | intros a Ha]; congruence.
Qed.

(** An editor sets the amount of transaction 100 to 12.345 and clears its
    description: the row then holds 12.35 (the decimal rounded half away
    from zero) and the empty description, and the other row is as it was. *)
Example update_reaches_the_row :
  let t := {| Hook.p_date := None; Hook.p_type := None;
              Hook.p_clientSupplier := Some EmptyString;
              Hook.p_amount := Some (12345 / 1000)%float;
              Hook.p_description := Some EmptyString;
              Hook.p_paymentMethod := None |} in
  exists db',
    Hook.updateTransaction (Some 3) 9%Z 100 t editor_db = (db', true)
    /\ map (fun r => (Row.id r, Row.client_supplier r, Row.amount r,
                      Row.description r, Row.updated_at r))
           (Supabase.transactions db')
       = [(100, "Acme"%string, 1235%Z, Some EmptyString, 9%Z);
          (101, "Bolt"%string, 4000%Z, None, 2%Z)].
Proof. vm_compute. eexists. split; reflexivity. Qed.

(** An empty description is stored; an empty client or supplier is not. *)
Example update_clears_description_only :
  let t := {| Hook.p_date := None; Hook.p_type := None;
              Hook.p_clientSupplier := Some EmptyString;
              Hook.p_amount := None;
              Hook.p_description := Some EmptyString;
              Hook.p_paymentMethod := None |} in
  let row := set_columns (Hook.build_updates t) None 9%Z
               (new_row 100 1%Z (sent_values 2 expense_of_50) 5000%Z) in
  Row.client_supplier row = "Acme"%string
  /\ Row.description row = Some EmptyString.
Proof. split; reflexivity. Qed.

(** ** Filtering *)

Local Open Scope string_scope.

(** [sub] occurs in [s] as a contiguous run of characters. *)
Definition is_substring (sub s : string) : Prop :=
  exists pre post, s = pre ++ sub ++ post.

Lemma prefix_spec (sub s : string) :
  String.prefix sub s = true <-> exists post, s = sub ++ post.
Proof.
  revert s. induction sub as [|c sub IH]; intro s.
  - split; [intros _; now exists s | intros _; now destruct s].
  - destruct s as [|d s]; simpl.
    + split; [discriminate | intros [post H]; discriminate].
    + destruct (Ascii.ascii_dec c d) as [->|Hcd].
      * rewrite IH. split; intros [post H]; exists post; congruence.
      * split; [discriminate|]. intros [post H]. congruence.
Qed.

Lemma str_includes_spec (s sub : string) :
  Hook.str_includes s sub = true <-> is_substring sub s.
Proof.
  unfold is_substring. induction s as [|c s IH]; cbn [Hook.str_includes].
  - rewrite orb_false_r, prefix_spec. split.
    + intros [post H]. now exists "", post.
    + intros [pre [post H]]. destruct pre; [now exists post | discriminate].
  - rewrite orb_true_iff, prefix_spec, IH. split.
    + intros [[post H] | [pre [post H]]].
      * now exists "", post.
      * exists (String c pre), post. simpl. now rewrite H.
    + intros [[|d pre] [post H]].
      * left. now exists post.
      * right. exists pre, post. simpl in H. congruence.
Qed.

Lemma empty_is_substring (s : string) : is_substring "" s.
Proof. now exists "", s. Qed.

(** What a present search text asks of a transaction. *)
Definition search_matches (s : string) (t : Transaction) : Prop :=
  is_substring (Hook.toLowerCase s) (Hook.toLowerCase (Tx.clientSupplier t))
  \/ is_substring (Hook.toLowerCase s) (Hook.toLowerCase (Tx.description t)).

Lemma search_matches_spec (s : string) (t : Transaction) :
  (if Hook.truthy_string s then
     Hook.str_includes (Hook.toLowerCase (Tx.clientSupplier t)) (Hook.toLowerCase s)
     || Hook.str_includes (Hook.toLowerCase (Tx.description t)) (Hook.toLowerCase s)
   else true) = true
  <-> search_matches s t.
Proof.
  unfold search_matches. destruct s as [|c s]; simpl Hook.truthy_string; cbv iota.
  - split; [|reflexivity]. intros _. left. apply empty_is_substring.
  - now rewrite orb_true_iff, !str_includes_spec.
Qed.

Lemma keeps_spec (filters : Hook.Filters) (t : Transaction) :
  Hook.keeps filters t = true <->
  (forall start, Hook.startDate filters = Some start -> (start <= Tx.date t)%Z)
  /\ (forall stop, Hook.endDate filters = Some stop -> (Tx.date t <= stop)%Z)
  /\ (forall type, Hook.f_type filters = Some (Hook.only type) ->
                   Tx.type t = type)
  /\ (forall s, Hook.search filters = Some s -> search_matches s t).
Proof.
  destruct filters as [start stop ty s]. unfold Hook.keeps. simpl.
  assert (Hstart : (match start with
                    | Some d => (Tx.date t <? d)%Z
                    | None => false
                    end = false)
                   <-> forall d, start = Some d -> (d <= Tx.date t)%Z).
  { destruct start as [d|].
    - rewrite Z.ltb_ge. split; [intros H d' [= <-]; exact H | auto].
    - split; [discriminate | reflexivity]. }
  assert (Hstop : (match stop with
                   | Some d => (Tx.date t >? d)%Z
                   | None => false
                   end = false)
                  <-> forall d, stop = Some d -> (Tx.date t <= d)%Z).
  { destruct stop as [d|].
    - rewrite Z.gtb_ltb, Z.ltb_ge.
      split; [intros H d' [= <-]; exact H | auto].
    - split; [discriminate | reflexivity]. }
  assert (Hty : (match ty with
                 | Some (Hook.only type) =>
                     negb (TransactionType_eqb (Tx.type t) type)
                 | _ => false
                 end = false)
                <-> forall type, ty = Some (Hook.only type) -> Tx.type t = type).
  { destruct ty as [[|type]|];
      try (split; [discriminate | reflexivity]).
    rewrite negb_false_iff. split.
    - intros H type' [= <-]. now destruct (Tx.type t), type.
    - intro H. rewrite (H type eq_refl). now destruct type. }
  assert (Hs : (match s with
                | Some x =>
                    if Hook.truthy_string x then
                      Hook.str_includes (Hook.toLowerCase (Tx.clientSupplier t))
                                        (Hook.toLowerCase x)
                      || Hook.str_includes (Hook.toLowerCase (Tx.description t))
                                           (Hook.toLowerCase x)
                    else true
                | None => true
                end = true)
               <-> forall x, s = Some x -> search_matches x t).
  { destruct s as [x|].
    - rewrite search_matches_spec. split; [intros H x' [= <-]; exact H | auto].
    - split; [discriminate | reflexivity]. }
  rewrite <- Hstart, <- Hstop, <- Hty, <- Hs.
  destruct (match start with Some d => _ | None => _ end);
    [split; [discriminate | intros [H _]; discriminate]|].
  destruct (match stop with Some d => _ | None => _ end);
    [split; [discriminate | intros [_ [H _]]; discriminate]|].
  destruct (match ty with Some (Hook.only type) => _ | _ => _ end);
    [split; [discriminate | intros [_ [_ [H _]]]; discriminate]|].
  tauto.
Qed.

(** Case-insensitivity, told without [toLowerCase]: two code units are the
    capital and the small form of one letter when the first is a capital
    letter and the second lies 32 further on. *)
Definition letter_pair (capital small : ascii) : Prop :=
  let n := nat_of_ascii capital in
  ((65 <= n <= 90) \/ (192 <= n <= 222 /\ n <> 215))
  /\ nat_of_ascii small = n + 32.

(** Two texts that differ at most in the case of their letters. *)
Inductive same_but_case : string -> string -> Prop :=
| same_empty : same_but_case EmptyString EmptyString
| same_unit (c : ascii) (s s' : string) :
    same_but_case s s' -> same_but_case (String c s) (String c s')
| capital_then_small (c d : ascii) (s s' : string) :
    letter_pair c d -> same_but_case s s' ->
    same_but_case (String c s) (String d s')
| small_then_capital (c d : ascii) (s s' : string) :
    letter_pair c d -> same_but_case s s' ->
    same_but_case (String d s) (String c s').

Lemma is_capital_spec (n : nat) :
  Hook.is_capital n = true <->
  (65 <= n <= 90) \/ (192 <= n <= 222 /\ n <> 215).
Proof.
  unfold Hook.is_capital.
  rewrite orb_true_iff, !andb_true_iff, negb_true_iff, !Nat.leb_le,
    Nat.eqb_neq.
  tauto.
Qed.

Lemma letter_pair_lower (c d : ascii) :
  letter_pair c d -> Hook.lower_unit c = d /\ Hook.lower_unit d = d.
Proof.
  intros [Hcap Hd]. unfold Hook.lower_unit. split.
  - rewrite (proj2 (is_capital_spec _) Hcap), <- Hd.
    apply ascii_nat_embedding.
  - replace (Hook.is_capital (nat_of_ascii d)) with false; [reflexivity|].
    symmetry. apply not_true_iff_false. rewrite is_capital_spec, Hd. lia.
Qed.

Lemma same_but_case_lower (s s' : string) :
  same_but_case s s' -> Hook.toLowerCase s = Hook.toLowerCase s'.
Proof.
  induction 1 as [|c s s' _ IH|c d s s' Hp _ IH|c d s s' Hp _ IH]; simpl.
  - reflexivity.
  - now rewrite IH.
  - destruct (letter_pair_lower Hp) as [-> ->]. now rewrite IH.
  - destruct (letter_pair_lower Hp) as [-> ->]. now rewrite IH.
Qed.

(** Conversely, code units with one lower case are equal or the two forms
    of one letter. *)
Lemma lower_unit_same (c d : ascii) :
  Hook.lower_unit c = Hook.lower_unit d ->
  c = d \/ letter_pair c d \/ letter_pair d c.
Proof.
  unfold Hook.lower_unit.
  destruct (Hook.is_capital (nat_of_ascii c)) eqn:Ec,
           (Hook.is_capital (nat_of_ascii d)) eqn:Ed; intro H.
  - left. apply is_capital_spec in Ec, Ed.
    apply (f_equal nat_of_ascii) in H.
    rewrite !nat_ascii_embedding in H by lia.
    rewrite <- (ascii_nat_embedding c), <- (ascii_nat_embedding d).
    f_equal. lia.
  - right. left. apply is_capital_spec in Ec. split; [exact Ec|].
    rewrite <- H. apply nat_ascii_embedding. lia.
  - right. right. apply is_capital_spec in Ed. split; [exact Ed|].
    rewrite H. apply nat_ascii_embedding. lia.
  - now left.
Qed.

Lemma toLowerCase_same (s s' : string) :
  Hook.toLowerCase s = Hook.toLowerCase s' -> same_but_case s s'.
Proof.
  revert s'. induction s as [|c s IH]; intros [|d s'] H;
    try discriminate H.
  - constructor.
  - simpl in H. injection H as Hc Hs.
    destruct (lower_unit_same _ _ Hc) as [->|[Hp|Hp]].
    + apply same_unit. now apply IH.
    + apply capital_then_small; [exact Hp | now apply IH].
    + apply small_then_capital; [exact Hp | now apply IH].
Qed.

Lemma same_but_case_truthy (s s' : string) :
  same_but_case s s' -> Hook.truthy_string s = Hook.truthy_string s'.
Proof. now destruct 1. Qed.

(** The filters with another search text. *)
Definition with_search (filters : Hook.Filters) (s : string) : Hook.Filters :=
  {| Hook.startDate := Hook.startDate filters;
     Hook.endDate := Hook.endDate filters;
     Hook.f_type := Hook.f_type filters;
     Hook.search := Some s |}.

(** C9.  A transaction is kept by [getFilteredTransactions] exactly when it
    is in the list and: its date is not before [startDate] and not after
    [endDate], for whichever bound is given; its type is the filter's type,
    when one is given other than ['all']; and, when a search text is given,
    the lowercased text occurs in the lowercased [clientSupplier] or in the
    lowercased [description].  The conditions combine with "and"; kept
    transactions stay in their order.  The search ignores the case of
    letters: writing the search text, the [clientSupplier] or the
    [description] with other capitals changes nothing in what is kept; and
    two texts have the same lower case exactly when they differ at most in
    the case of their letters. *)
Theorem filter_keeps_exactly (filters : Hook.Filters) :
  (forall (transactions : list Transaction) (t : Transaction),
      In t (Hook.getFilteredTransactions transactions filters) <->
      In t transactions
      /\ (forall start, Hook.startDate filters = Some start ->
                        (start <= Tx.date t)%Z)
      /\ (forall stop, Hook.endDate filters = Some stop ->
                       (Tx.date t <= stop)%Z)
      /\ (forall type, Hook.f_type filters = Some (Hook.only type) ->
                       Tx.type t = type)
      /\ (forall s, Hook.search filters = Some s ->
                    is_substring (Hook.toLowerCase s)
                                 (Hook.toLowerCase (Tx.clientSupplier t))
                    \/ is_substring (Hook.toLowerCase s)
                                    (Hook.toLowerCase (Tx.description t)))) /\
  (forall (before after : list Transaction) (t : Transaction),
      Hook.getFilteredTransactions (before ++ t :: after)%list filters
      = (Hook.getFilteredTransactions before filters
         ++ (if Hook.keeps filters t then [t] else [])
         ++ Hook.getFilteredTransactions after filters)%list) /\
  (forall (s s' : string) (t t' : Transaction),
      same_but_case s s' ->
      Tx.date t' = Tx.date t -> Tx.type t' = Tx.type t ->
      same_but_case (Tx.clientSupplier t) (Tx.clientSupplier t') ->
      same_but_case (Tx.description t) (Tx.description t') ->
      Hook.keeps (with_search filters s') t'
      = Hook.keeps (with_search filters s) t) /\
  (forall s s' : string,
      Hook.toLowerCase s = Hook.toLowerCase s' <-> same_but_case s s') /\
  (forall s : string,
      Hook.toLowerCase (Hook.toLowerCase s) = Hook.toLowerCase s
      /\ String.length (Hook.toLowerCase s) = String.length s).
Proof.
  split; [|split; [|split; [|split]]].
  - intros transactions t. unfold Hook.getFilteredTransactions.
    rewrite filter_In, keeps_spec. reflexivity.
  - intros before after t. unfold Hook.getFilteredTransactions.
    rewrite filter_app. simpl. now destruct (Hook.keeps filters t).
  - intros s s' t t' Hs Hdate Htype Hcs Hds.
    destruct filters as [start stop ty srch].
    unfold Hook.keeps, with_search.
    cbn [Hook.startDate Hook.endDate Hook.f_type Hook.search].
    rewrite Hdate, Htype, <- (same_but_case_truthy Hs),
      <- (same_but_case_lower Hs), <- (same_but_case_lower Hcs),
      <- (same_but_case_lower Hds).
    reflexivity.
  - intros s s'. split; [apply toLowerCase_same | apply same_but_case_lower].
  - intro s. induction s as [|c s [IH1 IH2]]; [now split|].
    simpl. rewrite IH1, IH2. split; [|reflexivity]. f_equal.
    unfold Hook.lower_unit at 1.
    destruct (Hook.is_capital (nat_of_ascii (Hook.lower_unit c))) eqn:E;
      [|reflexivity].
    exfalso. unfold Hook.lower_unit in E.
    destruct (Hook.is_capital (nat_of_ascii c)) eqn:Ec.
    + apply is_capital_spec in Ec.
      rewrite nat_ascii_embedding in E by lia.
      apply is_capital_spec in E. lia.
    + congruence.
Qed.

(** The scenario of the specification: searching ['acm'] among incomes finds
    the transaction entered for ['Acme']. *)
Example search_is_case_insensitive :
  Hook.getFilteredTransactions
    [mapDbToTransaction row_a; mapDbToTransaction row_b]
    {| Hook.startDate := None; Hook.endDate := None;
       Hook.f_type := Some (Hook.only income); Hook.search := Some "acm" |}
  = [mapDbToTransaction row_a]
  /\ Hook.getFilteredTransactions
       [mapDbToTransaction row_a; mapDbToTransaction row_b]
       {| Hook.startDate := None; Hook.endDate := None;
          Hook.f_type := Some Hook.all; Hook.search := Some "OLT" |}
     = [mapDbToTransaction row_b].
Proof. split; reflexivity. Qed.

(** Accented letters have a lower case too: ['ÁGUA'] (the first code unit
    is 193) and ['água'] (225) find each other, while the signs ['×'] (215)
    and ['÷'] (247) are no pair. *)
Example accented_search :
  let AGUA := String "193"%char "GUA" in
  let agua := String "225"%char "gua" in
  Hook.toLowerCase AGUA = agua
  /\ same_but_case AGUA agua
  /\ Hook.str_includes (Hook.toLowerCase (agua ++ " fria"))
                       (Hook.toLowerCase AGUA) = true
  /\ Hook.toLowerCase (String "215"%char EmptyString)
     = String "215"%char EmptyString.
Proof.
  split; [reflexivity|]. split; [|split; reflexivity].
  apply capital_then_small; [cbv; lia|].
  apply capital_then_small; [cbv; lia|].
  apply capital_then_small; [cbv; lia|].
  apply capital_then_small; [cbv; lia|].
  constructor.
Qed.

Local Close Scope string_scope.

(** ** Summary *)

Definition is_income (t : Transaction) : bool :=
  TransactionType_eqb (Tx.type t) income.
Definition is_expense (t : Transaction) : bool :=
  TransactionType_eqb (Tx.type t) expense.

(** The left-to-right binary64 sum of a list of amounts, from 0. *)
Definition float_sum (amounts : list number) : number :=
  fold_left PrimFloat.add amounts 0%float.

Lemma fold_left_map_amount (num : Type) (add : num -> num -> num)
    (amount : Transaction -> num) (xs : list Transaction) (z : num) :
  fold_left (fun sum t => add sum (amount t)) xs z
  = fold_left add (map amount xs) z.
Proof. revert z. induction xs as [|x xs IH]; intro z; simpl; auto. Qed.

(** With an exact addition (commutative and associative) a total does not
    depend on the order of the entries. *)
Lemma total_of_exact_permutation (num : Type) (zero : num)
    (add : num -> num -> num) (amount : Transaction -> num)
    (type : TransactionType) (ts ts' : list Transaction) :
  (forall a b, add a b = add b a) ->
  (forall a b c, add a (add b c) = add (add a b) c) ->
  Permutation ts ts' ->
  Hook.total_of zero add amount type ts = Hook.total_of zero add amount type ts'.
Proof.
  intros Hcomm Hassoc Hperm. unfold Hook.total_of.
  apply Permutation_filter_both
    with (f := fun t => TransactionType_eqb (Tx.type t) type) in Hperm.
  generalize zero.
  induction Hperm as [|x l l' _ IH|x y l|l l' l'' _ IH1 _ IH2]; intro z; simpl.
  - reflexivity.
  - apply IH.
  - f_equal. rewrite <- !Hassoc. f_equal. apply Hcomm.
  - now rewrite IH1.
Qed.

(** The amount in whole cents that a number stands for: its exact value
    times 100, rounded to the nearest integer (halves away from zero); 0 for
    infinities and NaN. *)
Definition cents_of_number (x : number) : Z :=
  match Prim2SF x with
  | S754_finite negative m e =>
      let magnitude :=
        if (0 <=? e)%Z then (100 * Z.pos m * 2 ^ e)%Z
        else ((200 * Z.pos m + 2 ^ (- e)) / 2 ^ (1 - e))%Z in
      if negative then (- magnitude)%Z else magnitude
  | _ => 0%Z
  end.

Definition cents (t : Transaction) : Z := cents_of_number (Tx.amount t).

(** The totals of [getSummary], computed exactly, in cents. *)
Definition exact_total (type : TransactionType) (ts : list Transaction) : Z :=
  Hook.total_of 0%Z Z.add cents type ts.

(** Three incomes of 0.10, 0.20 and 0.30. *)
Definition income_of (id : uuid) (amount : number) : Transaction :=
  {| Tx.id := id; Tx.user_id := 2; Tx.date := 0%Z; Tx.type := income;
     Tx.clientSupplier := "Acme"%string; Tx.amount := amount;
     Tx.description := EmptyString; Tx.paymentMethod := pix;
     Tx.createdAt := 0%Z |}.

Definition three_incomes : list Transaction :=
  [income_of 1 (1 / 10)%float; income_of 2 (2 / 10)%float;
   income_of 3 (3 / 10)%float].

Example cents_of_three_incomes : map cents three_incomes = [10%Z; 20%Z; 30%Z].
Proof. vm_compute. reflexivity. Qed.

Lemma getSummary_sums (ts : list Transaction) :
  Hook.getSummary ts
  = let income := float_sum (map Tx.amount (filter is_income ts)) in
    let expense := float_sum (map Tx.amount (filter is_expense ts)) in
    {| Hook.Sum.income := income; Hook.Sum.expense := expense;
       Hook.Sum.balance := PrimFloat.sub income expense |}.
Proof.
  unfold Hook.getSummary, Hook.total_of, float_sum, is_income, is_expense.
  now rewrite !fold_left_map_amount.
Qed.

(** C8 (as the code has it).  [getSummary] returns as [income] the
    left-to-right binary64 sum, starting from 0, of the amounts of the income
    entries in list order, as [expense] the same for the expense entries, and
    as [balance] their binary64 difference; on the empty list all three are
    0.  The summary depends only on the sequence of income entries and the
    sequence of expense entries, so moving incomes past expenses changes
    nothing.  Computed exactly, in whole cents, the totals are the same for
    every reordering of the list. *)
Theorem summary_totals :
  (forall ts : list Transaction,
      Hook.Sum.income (Hook.getSummary ts)
        = float_sum (map Tx.amount (filter is_income ts))
      /\ Hook.Sum.expense (Hook.getSummary ts)
         = float_sum (map Tx.amount (filter is_expense ts))
      /\ Hook.Sum.balance (Hook.getSummary ts)
         = PrimFloat.sub (Hook.Sum.income (Hook.getSummary ts))
                         (Hook.Sum.expense (Hook.getSummary ts))) /\
  Hook.getSummary []
    = {| Hook.Sum.income := 0%float; Hook.Sum.expense := 0%float;
         Hook.Sum.balance := 0%float |} /\
  (forall ts ts' : list Transaction,
      filter is_income ts = filter is_income ts' ->
      filter is_expense ts = filter is_expense ts' ->
      Hook.getSummary ts = Hook.getSummary ts') /\
  (forall (type : TransactionType) (ts ts' : list Transaction),
      Permutation ts ts' -> exact_total type ts = exact_total type ts').
Proof.
  repeat apply conj.
  - intro ts. rewrite getSummary_sums. repeat split.
  - reflexivity.
  - intros ts ts' Hin Hout. rewrite !getSummary_sums. now rewrite Hin, Hout.
  - intros type ts ts' Hperm. unfold exact_total.
    apply total_of_exact_permutation; [apply Z.add_comm | apply Z.add_assoc
                                       | exact Hperm].
Qed.

Lemma summary_totals_witness :
  exact_total income three_incomes = exact_total income (rev three_incomes).
Proof.
  refine (proj2 (proj2 (proj2 summary_totals)) income three_incomes
            (rev three_incomes) _).
  apply Permutation_rev.
Defined.

(** C8, as stated, fails: in JavaScript's arithmetic the incomes 0.1, 0.2,
    0.3 sum to 0.6000000000000001 in that order and to 0.6 in the reverse
    order, so a reordered list has another summary. *)
Lemma summary_order_counterexample :
  Permutation three_incomes (rev three_incomes)
  /\ Hook.Sum.income (Hook.getSummary three_incomes)
     = (1 / 10 + 2 / 10 + 3 / 10)%float
  /\ Hook.Sum.income (Hook.getSummary (rev three_incomes))
     = (3 / 10 + 2 / 10 + 1 / 10)%float
  /\ PrimFloat.ltb (Hook.Sum.income (Hook.getSummary (rev three_incomes)))
                   (Hook.Sum.income (Hook.getSummary three_incomes)) = true
  /\ Hook.getSummary three_incomes <> Hook.getSummary (rev three_incomes).
Proof.
  split; [apply Permutation_rev|].
  split; [vm_compute; reflexivity|].
  split; [vm_compute; reflexivity|].
  split; [vm_compute; reflexivity|].
  intro H.
  apply (f_equal (fun s => PrimFloat.ltb
                             (Hook.Sum.income (Hook.getSummary (rev three_incomes)))
                             (Hook.Sum.income s))) in H.
  vm_compute in H. discriminate H.
Qed.

(** * Further properties of the code *)

Unset Implicit Arguments.

(** ** Rights implied by other rights *)

Lemma includes_canView (R : list AppRole) (r : AppRole) :
  includes R r = true -> canView R = true.
Proof.
  intro H. apply includes_In in H. apply canView_nonempty.
  intro E. now rewrite E in H.
Qed.

Lemma canEdit_gives_all (R : list AppRole) :
  canEdit R = true ->
  canDelete R = true /\ canInsertExpense R = true
  /\ canInsertIncome R = true /\ canView R = true.
Proof.
  unfold canEdit, canDelete, canInsertExpense, canInsertIncome, isAdmin.
  intro H. rewrite H. repeat split.
  apply orb_true_iff in H. destruct H as [H|H];
    apply (includes_canView _ _ H).
Qed.

Lemma canInsertExpense_canView (R : list AppRole) :
  canInsertExpense R = true -> canView R = true.
Proof.
  unfold canInsertExpense, isAdmin. rewrite !orb_true_iff.
  intros [[H|H]|H]; apply (includes_canView _ _ H).
Qed.

Lemma canInsertIncome_canView (R : list AppRole) :
  canInsertIncome R = true -> canView R = true.
Proof.
  unfold canInsertIncome, isAdmin. rewrite !orb_true_iff.
  intros [[H|H]|H]; apply (includes_canView _ _ H).
Qed.

(** X1.  Holding [admin] gives the right to edit; the right to edit gives
    the rights to delete and to insert in both directions; any insert right
    gives the right to view.  The SQL functions agree: whoever passes
    [can_edit] passes [can_delete], both [can_insert_*] and [can_view]. *)
Theorem edit_grants_lesser_rights (R : list AppRole) :
  (isAdmin R = true -> canEdit R = true) /\
  (canEdit R = true ->
     canDelete R = true /\ canInsertExpense R = true
     /\ canInsertIncome R = true /\ canView R = true) /\
  (canInsertExpense R = true -> canView R = true) /\
  (canInsertIncome R = true -> canView R = true) /\
  (forall (user_roles : list user_role) (u : uuid),
      can_edit user_roles u = true ->
      can_delete user_roles u = true
      /\ can_insert_expense user_roles u = true
      /\ can_insert_income user_roles u = true
      /\ can_view user_roles u = true).
Proof.
  repeat apply conj.
  - unfold canEdit. now intros ->.
  - apply canEdit_gives_all.
  - apply canInsertExpense_canView.
  - apply canInsertIncome_canView.
  - intros user_roles u.
    rewrite can_edit_canEdit, can_delete_canDelete,
      can_insert_expense_canInsertExpense, can_insert_income_canInsertIncome,
      can_view_canView.
    apply canEdit_gives_all.
Qed.

(** ** What a user without the needed role experiences *)

Lemma update_where_id_untouched (u : Updates) (now : timestamp) (id : uuid)
    (rows : list DbTransaction) :
  update_where_id false u now id rows = Ok rows.
Proof.
  apply update_where_id_unreached. now rewrite existsb_reached.
Qed.

Lemma delete_where_id_untouched (id : uuid) (rows : list DbTransaction) :
  delete_where_id false id rows = rows.
Proof.
  unfold delete_where_id.
  rewrite (filter_ext _ (fun _ => true)) by reflexivity.
  induction rows as [|t rows IH]; simpl; [reflexivity | now rewrite IH].
Qed.

Lemma canEdit_without_roles (R : list AppRole) :
  ~ In admin R -> ~ In edit R -> canEdit R = false.
Proof.
  intros Ha He. unfold canEdit, isAdmin.
  apply orb_false_iff. split; apply not_true_iff_false;
    rewrite includes_In; assumption.
Qed.

(** X2.  For a signed-in user who holds neither [admin] nor [edit],
    [updateTransaction] and [deleteTransaction] change nothing in the store
    and still return [true]; [deleteTransaction] even drops the transaction
    from the client's list. *)
Theorem without_edit_role_store_is_untouched (db : Supabase.Database)
    (user : uuid) :
  ~ In admin (fetch_roles (Supabase.user_roles db) user) ->
  ~ In edit (fetch_roles (Supabase.user_roles db) user) ->
  (forall (now : timestamp) (id : uuid) (t : Hook.PartialTransaction),
      Hook.updateTransaction (Some user) now id t db = (db, true)) /\
  (forall (id : uuid) (state : list Transaction),
      Hook.deleteTransaction (Some user) id db state
      = (db, filter (fun t => negb (Nat.eqb (Tx.id t) id)) state, true)).
Proof.
  intros Ha He. pose proof (canEdit_without_roles _ Ha He) as Hno. split.
  - intros now id t. unfold Hook.updateTransaction,
      Supabase.update_transaction.
    destruct (no_columns (Hook.build_updates t)); [reflexivity|].
    rewrite policy_update_canEdit, Hno, update_where_id_untouched.
    now rewrite with_transactions_same.
  - intros id state. unfold Hook.deleteTransaction,
      Supabase.delete_transaction, Supabase.policy_delete, Supabase.as_user.
    rewrite can_delete_canDelete. unfold canDelete. fold (canEdit
      (fetch_roles (Supabase.user_roles db) user)).
    rewrite Hno, delete_where_id_untouched.
    now rewrite with_transactions_same.
Qed.

Lemma without_edit_role_store_is_untouched_witness :
  (forall (now : timestamp) (id : uuid) (t : Hook.PartialTransaction),
      Hook.updateTransaction (Some 1) now id t shared_db = (shared_db, true)) /\
  (forall (id : uuid) (state : list Transaction),
      Hook.deleteTransaction (Some 1) id shared_db state
      = (shared_db, filter (fun t => negb (Nat.eqb (Tx.id t) id)) state, true)).
Proof.
  refine (without_edit_role_store_is_untouched shared_db 1 _ _);
    simpl; intros [H|[]]; discriminate H.
Defined.

(** X3.  A signed-in user who holds no role gets an empty list from
    [fetchTransactions], not an error; without a signed-in user the list is
    left as it is. *)
Theorem without_role_list_is_empty (db : Supabase.Database) (user : uuid)
    (state state' : list Transaction) :
  fetch_roles (Supabase.user_roles db) user = [] ->
  Hook.fetchTransactions (Some user) db state state' ->
  state' = []
  /\ (forall s, Hook.fetchTransactions None db state s -> s = state).
Proof.
  intros Hnone [data [[Hperm _] ->]]. split; [|intros s Hs; exact Hs].
  unfold Supabase.visible_transactions, Supabase.policy_select,
    Supabase.as_user in Hperm.
  rewrite can_view_canView, Hnone in Hperm. simpl in Hperm.
  apply Permutation_nil in Hperm. now subst.
Qed.

Lemma without_role_list_is_empty_witness :
  map mapDbToTransaction [] = []
  /\ (forall s, Hook.fetchTransactions None shared_db [] s -> s = []).
Proof.
  refine (without_role_list_is_empty shared_db 7 []
            (map mapDbToTransaction []) eq_refl _).
  exists []. split; [|reflexivity]. split; constructor.
Defined.

(** ** Adding a transaction and reading it back *)

Lemma Date_of_sql_toISODate (d : timestamp) :
  Date_of_sql (toISODate d) = (d - d mod ms_per_day)%Z.
Proof.
  unfold Date_of_sql, toISODate.
  pose proof (Z.div_mod d ms_per_day) as H.
  assert (ms_per_day <> 0)%Z by (unfold ms_per_day; lia).
  specialize (H H0). lia.
Qed.

(** X4.  When [addTransaction] succeeds, the new transaction heads the
    client's list and every later [fetchTransactions] by that user contains
    it, with the id the database drew, the caller as owner, and the type,
    counterparty, description and payment method that were submitted; its
    amount is the submitted amount as the column stored it, rounded to two
    decimals; its date is the submitted instant cut back to midnight UTC. *)
Theorem added_transaction_is_listed (user : uuid) (gen_random_uuid : uuid)
    (now : timestamp) (t : Hook.NewTransaction) (db db1 : Supabase.Database)
    (state state1 : list Transaction) :
  Hook.addTransaction (Some user) gen_random_uuid now t db state
    = (db1, state1, Some true) ->
  exists (shown : Transaction) (stored : numeric_12_2),
    state1 = shown :: state
    /\ (forall old state', Hook.fetchTransactions (Some user) db1 old state' ->
                           In shown state')
    /\ Tx.id shown = gen_random_uuid
    /\ Tx.user_id shown = user
    /\ Tx.type shown = Hook.n_type t
    /\ Tx.clientSupplier shown = Hook.n_clientSupplier t
    /\ to_numeric_12_2 (Hook.n_amount t) = Ok stored
    /\ Tx.amount shown = Number_of_numeric stored
    /\ Tx.description shown = Hook.n_description t
    /\ Tx.paymentMethod shown = Hook.n_paymentMethod t
    /\ Tx.createdAt shown = now
    /\ Tx.date shown = (Hook.n_date t - Hook.n_date t mod ms_per_day)%Z.
Proof.
  unfold Hook.addTransaction. fold (sent_values user t).
  destruct (Supabase.insert_transaction db (Some user) gen_random_uuid now
              (sent_values user t)) as [[db2 row]|e] eqn:Hins; [|discriminate].
  destruct (@insert_transaction_done _ _ _ _ _ _ _ Hins)
    as [stored [Hstored [Hpol [-> ->]]]].
  change (i_amount (sent_values user t)) with (Hook.n_amount t) in Hstored.
  intro H. injection H as <- <-.
  exists (mapDbToTransaction
            (new_row gen_random_uuid now (sent_values user t) stored)), stored.
  split; [reflexivity|]. split.
  - intros old state' [data [[Hperm _] ->]].
    apply in_map. apply (Permutation_in _ Hperm).
    unfold Supabase.visible_transactions, Supabase.policy_select,
      Supabase.as_user. simpl.
    rewrite can_view_canView.
    rewrite policy_insert_by_direction in Hpol.
    replace (canView (fetch_roles (Supabase.user_roles db) user)) with true.
    + apply in_or_app. right. now left.
    + symmetry. destruct (i_type (sent_values user t));
        [apply canInsertIncome_canView | apply canInsertExpense_canView];
        exact Hpol.
  - repeat split; try exact Hstored. simpl. apply Date_of_sql_toISODate.
Qed.

(** An expense of 10.005, which the column stores as 10.01. *)
Definition expense_of_10_005 : Hook.NewTransaction :=
  {| Hook.n_date := 90000000%Z;
     Hook.n_type := expense;
     Hook.n_clientSupplier := "Acme"%string;
     Hook.n_amount := (10005 / 1000)%float;
     Hook.n_description := "paper"%string;
     Hook.n_paymentMethod := pix |}.

Lemma added_transaction_is_listed_witness :
  exists (shown : Transaction) (stored : numeric_12_2),
    [mapDbToTransaction (new_row 200 9%Z (sent_values 3 expense_of_10_005)
                           1001%Z)]
      = shown :: []
    /\ (forall old state',
           Hook.fetchTransactions (Some 3)
             (Supabase.with_transactions editor_db
                (Supabase.transactions editor_db
                 ++ [new_row 200 9%Z (sent_values 3 expense_of_10_005)
                       1001%Z]))
             old state' ->
           In shown state')
    /\ Tx.id shown = 200
    /\ Tx.user_id shown = 3
    /\ Tx.type shown = Hook.n_type expense_of_10_005
    /\ Tx.clientSupplier shown = Hook.n_clientSupplier expense_of_10_005
    /\ to_numeric_12_2 (Hook.n_amount expense_of_10_005) = Ok stored
    /\ Tx.amount shown = Number_of_numeric stored
    /\ Tx.description shown = Hook.n_description expense_of_10_005
    /\ Tx.paymentMethod shown = Hook.n_paymentMethod expense_of_10_005
    /\ Tx.createdAt shown = 9%Z
    /\ Tx.date shown
       = (Hook.n_date expense_of_10_005
          - Hook.n_date expense_of_10_005 mod ms_per_day)%Z.
Proof.
  refine (added_transaction_is_listed 3 200 9%Z expense_of_10_005 editor_db
            _ [] _ _).
  vm_compute. reflexivity.
Defined.

(** The amount shown for it is 10.01, not the 10.005 that was entered. *)
Example shown_amount_is_rounded :
  Tx.amount (mapDbToTransaction
               (new_row 200 9%Z (sent_values 3 expense_of_10_005) 1001%Z))
  = (1001 / 100)%float
  /\ PrimFloat.ltb (Hook.n_amount expense_of_10_005) (1001 / 100)%float = true.
Proof. vm_compute. split; reflexivity. Qed.

(** X5.  Dates survive the trip between client and database only as days:
    a stored day read by [mapDbToTransaction] and sent back gives the same
    day, while an instant sent by the client and read back is midnight UTC
    of its day, at most one day earlier, and the same instant exactly when
    it was a midnight UTC. *)
Theorem date_round_trip :
  (forall day : sql_date, toISODate (Date_of_sql day) = day) /\
  (forall d : timestamp,
      (Date_of_sql (toISODate d) <= d < Date_of_sql (toISODate d) + ms_per_day)%Z
      /\ (Date_of_sql (toISODate d) = d <-> (d mod ms_per_day = 0)%Z)
      /\ toISODate (Date_of_sql (toISODate d)) = toISODate d).
Proof.
  assert (Hpos : (0 < ms_per_day)%Z) by (unfold ms_per_day; lia).
  assert (Hback : forall day, toISODate (Date_of_sql day) = day).
  { intro day. unfold toISODate, Date_of_sql. apply Z.div_mul. lia. }
  split; [exact Hback|].
  intro d. rewrite Hback, Date_of_sql_toISODate.
  pose proof (Z.mod_pos_bound d ms_per_day Hpos).
  repeat split; lia.
Qed.

(** ** The entry form *)

(** X6.  Whenever the page renders the form ([canAddTransaction]), the type
    the form holds, by default or after any presses of the type buttons, is
    one the insert policy accepts for that user: the form never submits a
    direction the database will refuse. *)
Theorem form_type_is_permitted (db : Supabase.Database) (user : uuid)
    (pressed : list TransactionType) :
  let R := fetch_roles (Supabase.user_roles db) user in
  Page.canAddTransaction (canInsertExpense R) (canInsertIncome R) = true ->
  Supabase.policy_insert db (Some user)
    (Form.selectedType (canInsertExpense R) (canInsertIncome R) pressed)
  = true.
Proof.
  intros R Hshown. rewrite policy_insert_by_direction. fold R.
  unfold Page.canAddTransaction in Hshown.
  unfold Form.selectedType, Form.canSelectBoth, Form.defaultType.
  destruct (canInsertExpense R) eqn:He, (canInsertIncome R) eqn:Hi;
    simpl in *; try discriminate; try reflexivity.
  destruct (last pressed expense); assumption.
Qed.

Lemma form_type_is_permitted_witness :
  Supabase.policy_insert income_only_db (Some 1)
    (Form.selectedType
       (canInsertExpense (fetch_roles (Supabase.user_roles income_only_db) 1))
       (canInsertIncome (fetch_roles (Supabase.user_roles income_only_db) 1))
       [expense; expense])
  = true.
Proof.
  exact (form_type_is_permitted income_only_db 1 [expense; expense] eq_refl).
Defined.

Lemma trimStart_length (s : string) :
  String.length (Form.trimStart s) <= String.length s.
Proof.
  induction s as [|c s IH]; simpl; [lia|].
  destruct (Form.is_space c); simpl; lia.
Qed.

Lemma trimEnd_length (s : string) :
  String.length (Form.trimEnd s) <= String.length s.
Proof.
  induction s as [|c s IH]; simpl; [lia|].
  destruct (Form.trimEnd s) as [|d rest]; simpl in *.
  - destruct (Form.is_space c); simpl; lia.
  - lia.
Qed.

Lemma trim_length (s : string) :
  String.length (Form.trim s) <= String.length s.
Proof.
  unfold Form.trim.
  pose proof (trimEnd_length (Form.trimStart s)).
  pose proof (trimStart_length s). lia.
Qed.

(** A text of [n] copies of one character. *)
Fixpoint blanks_of (n : nat) (c : ascii) : string :=
  match n with
  | 0 => EmptyString
  | S k => String c (blanks_of k c)
  end.

(** What passing the form's schema means for the values. *)
Lemma submitted_inv (v : Form.FormValues) (t : Hook.NewTransaction) :
  Form.submitted v = Some t ->
  Form.string_between 1 100 (Form.v_clientSupplier v) = true
  /\ Form.positive (Form.v_amount v) = true
  /\ Form.string_between 1 500 (Form.v_description v) = true
  /\ Form.v_date v = Some (Hook.n_date t)
  /\ Form.v_paymentMethod v = Some (Hook.n_paymentMethod t)
  /\ Hook.n_type t = Form.v_type v
  /\ Hook.n_amount t = Form.v_amount v
  /\ Hook.n_clientSupplier t = Form.trim (Form.v_clientSupplier v)
  /\ Hook.n_description t = Form.trim (Form.v_description v).
Proof.
  unfold Form.submitted.
  destruct (Form.v_date v) as [date|]; [|discriminate].
  destruct (Form.v_paymentMethod v) as [pm|]; [|discriminate].
  destruct (_ && _ && _) eqn:E; [|discriminate].
  apply andb_true_iff in E. destruct E as [E E3].
  apply andb_true_iff in E. destruct E as [E1 E2].
  intro H. injection H as <-. simpl. repeat split; assumption.
Qed.

(** X7.  Every transaction the form submits has an amount greater than 0, a
    counterparty of at most 100 code units and a description of at most
    500; values with a missing date or payment method, a NaN, zero or
    negative amount, or an empty text are not submitted.  A transaction
    stored through the form carries the submitted amount rounded to two
    decimals, which is never negative (but is zero for an amount below half
    a hundredth). *)
Theorem form_submits_only_valid (v : Form.FormValues) :
  (forall t : Hook.NewTransaction,
      Form.submitted v = Some t ->
      PrimFloat.ltb 0 (Hook.n_amount t) = true
      /\ String.length (Hook.n_clientSupplier t) <= 100
      /\ String.length (Hook.n_description t) <= 500
      /\ (forall user gen_random_uuid now db state db1 state1,
             Hook.addTransaction (Some user) gen_random_uuid now t db state
               = (db1, state1, Some true) ->
             exists row, In row (Supabase.transactions db1)
                         /\ Row.id row = gen_random_uuid
                         /\ to_numeric_12_2 (Form.v_amount v)
                            = Ok (Row.amount row)
                         /\ (0 <= Row.amount row)%Z)) /\
  (Form.v_date v = None \/ Form.v_paymentMethod v = None
   \/ PrimFloat.ltb 0 (Form.v_amount v) = false
   \/ Form.v_clientSupplier v = EmptyString
   \/ Form.v_description v = EmptyString ->
   Form.submitted v = None).
Proof.
  split.
  - intros t Hsub. apply submitted_inv in Hsub.
    destruct Hsub as [Hc [Ha [Hd [_ [_ [_ [Eamt [Ecs Eds]]]]]]]].
    unfold Form.string_between in Hc, Hd.
    apply andb_true_iff in Hc, Hd. destruct Hc as [_ Hc], Hd as [_ Hd].
    apply Nat.leb_le in Hc, Hd.
    assert (Hpos : PrimFloat.ltb 0 (Hook.n_amount t) = true)
      by (rewrite Eamt; exact Ha).
    split; [exact Hpos|]. split.
    { rewrite Ecs. pose proof (trim_length (Form.v_clientSupplier v)). lia. }
    split.
    { rewrite Eds. pose proof (trim_length (Form.v_description v)). lia. }
    intros user g now db state db1 state1.
    unfold Hook.addTransaction. fold (sent_values user t).
    destruct (Supabase.insert_transaction db (Some user) g now
                (sent_values user t)) as [[db2 row]|e] eqn:Hins;
      [|discriminate].
    destruct (@insert_transaction_done _ _ _ _ _ _ _ Hins)
      as [stored [Hstored [_ [-> ->]]]].
    change (i_amount (sent_values user t)) with (Hook.n_amount t) in Hstored.
    intro H. injection H as <- _.
    exists (new_row g now (sent_values user t) stored). simpl. split.
    + apply in_or_app. right. now left.
    + split; [reflexivity|]. split; [now rewrite <- Eamt|].
      exact (@positive_is_stored_nonnegative (Hook.n_amount t) stored Hpos
               Hstored).
  - unfold Form.submitted, Form.positive.
    intros [H|[H|[H|[H|H]]]]; rewrite H; try reflexivity.
    + now destruct (Form.v_date v).
    + destruct (Form.v_date v), (Form.v_paymentMethod v); try reflexivity.
      now rewrite andb_false_r.
    + now destruct (Form.v_date v), (Form.v_paymentMethod v).
    + destruct (Form.v_date v), (Form.v_paymentMethod v); try reflexivity.
      simpl. now rewrite andb_false_r.
Qed.

(** Filled-in values of the form: an expense of 50 paid to 'Acme'. *)
Definition filled_form : Form.FormValues :=
  {| Form.v_date := Some 90000000%Z; Form.v_type := expense;
     Form.v_clientSupplier := " Acme "%string; Form.v_amount := 50%float;
     Form.v_description := "paper"%string;
     Form.v_paymentMethod := Some pix |}.

Lemma form_submits_only_valid_witness :
  PrimFloat.ltb 0 50 = true
  /\ String.length "Acme" <= 100
  /\ String.length "paper" <= 500
  /\ (forall user gen_random_uuid now db state db1 state1,
         Hook.addTransaction (Some user) gen_random_uuid now
           {| Hook.n_date := 90000000%Z; Hook.n_type := expense;
              Hook.n_clientSupplier := "Acme"%string; Hook.n_amount := 50%float;
              Hook.n_description := "paper"%string;
              Hook.n_paymentMethod := pix |} db state
           = (db1, state1, Some true) ->
         exists row, In row (Supabase.transactions db1)
                     /\ Row.id row = gen_random_uuid
                     /\ to_numeric_12_2 (Form.v_amount filled_form)
                        = Ok (Row.amount row)
                     /\ (0 <= Row.amount row)%Z).
Proof.
  exact (proj1 (form_submits_only_valid filled_form) _ eq_refl).
Defined.

(** An amount of 0.004 passes the form and is stored as 0.00; a name of 100
    code units with an accented letter passes, one of 101 does not. *)
Example form_accepts_amount_stored_as_zero :
  let v := {| Form.v_date := Some 0%Z; Form.v_type := expense;
              Form.v_clientSupplier := "Acme"%string;
              Form.v_amount := (4 / 1000)%float;
              Form.v_description := "paper"%string;
              Form.v_paymentMethod := Some pix |} in
  (exists t, Form.submitted v = Some t
             /\ to_numeric_12_2 (Hook.n_amount t) = Ok 0%Z)
  /\ Form.string_between 1 100
       (String "201"%char (blanks_of 99 "a"%char)) = true
  /\ Form.string_between 1 100
       (String "201"%char (blanks_of 100 "a"%char)) = false.
Proof.
  vm_compute. split; [|split; reflexivity]. eexists. split; reflexivity.
Qed.

(** A text of [n] blanks. *)
Fixpoint blanks (n : nat) : string :=
  match n with
  | 0 => EmptyString
  | S k => String " " (blanks k)
  end.

Lemma blanks_length (n : nat) : String.length (blanks n) = n.
Proof. induction n; simpl; congruence. Qed.

Lemma trim_blanks (n : nat) : Form.trim (blanks n) = EmptyString.
Proof.
  unfold Form.trim.
  replace (Form.trimStart (blanks n)) with EmptyString; [reflexivity|].
  induction n as [|k IH]; [reflexivity|]. simpl. exact IH.
Qed.

(** X8.  The form's "at least one character" check is made before the
    texts are trimmed: a counterparty made only of blanks (1 to 100 of
    them) passes, and the transaction is submitted with an empty
    counterparty. *)
Theorem blank_counterparty_is_submitted_empty (v : Form.FormValues)
    (n : nat) (date : timestamp) (paymentMethod : PaymentMethod) :
  1 <= n <= 100 ->
  Form.v_clientSupplier v = blanks n ->
  Form.v_date v = Some date ->
  Form.v_paymentMethod v = Some paymentMethod ->
  PrimFloat.ltb 0 (Form.v_amount v) = true ->
  Form.string_between 1 500 (Form.v_description v) = true ->
  exists t, Form.submitted v = Some t
            /\ Hook.n_clientSupplier t = EmptyString.
Proof.
  intros Hn Hcs Hdate Hpm Hamt Hdesc. unfold Form.submitted.
  rewrite Hdate, Hpm, Hcs, Hdesc. unfold Form.positive. rewrite Hamt.
  unfold Form.string_between. rewrite blanks_length.
  replace (Nat.leb 1 n) with true by (symmetry; apply Nat.leb_le; lia).
  replace (Nat.leb n 100) with true by (symmetry; apply Nat.leb_le; lia).
  simpl. eexists. split; [reflexivity|]. simpl. apply trim_blanks.
Qed.

Definition blank_form : Form.FormValues :=
  {| Form.v_date := Some 0%Z; Form.v_type := income;
     Form.v_clientSupplier := blanks 3; Form.v_amount := 10%float;
     Form.v_description := "x"%string; Form.v_paymentMethod := Some pix |}.

Lemma blank_counterparty_is_submitted_empty_witness :
  exists t, Form.submitted blank_form = Some t
            /\ Hook.n_clientSupplier t = EmptyString.
Proof.
  refine (blank_counterparty_is_submitted_empty blank_form 3 0%Z pix _
            eq_refl eq_refl eq_refl eq_refl eq_refl).
  lia.
Defined.

(** ** The users page *)

Lemma no_delete_policy_on_profiles (db : Supabase.Database)
    (auth_uid : option uuid) (p : Supabase.profile) :
  Rls.permits Rls.profiles_policies Rls.DELETE db auth_uid p = false.
Proof. reflexivity. Qed.

Lemma delete_reaches_no_profile (db : Supabase.Database)
    (auth_uid : option uuid) (userId : uuid) (rows : list Supabase.profile) :
  filter (fun p => negb (Rls.permits Rls.profiles_policies Rls.DELETE db
                           auth_uid p
                         && Nat.eqb (Supabase.p_id p) userId)) rows
  = rows.
Proof.
  induction rows as [|p rows IH]; [reflexivity|].
  cbn [filter]. rewrite no_delete_policy_on_profiles. cbn [andb negb].
  now rewrite IH.
Qed.

(** X9.  [handleDeleteUser] removes nothing from the database, whoever
    calls it: no policy on [profiles] covers [DELETE], so the statement
    reaches no row and raises no error; role rows and transactions are not
    touched either.  The page nevertheless drops the user from its list. *)
Theorem delete_user_leaves_database (auth_uid : option uuid) (userId : uuid)
    (db : Supabase.Database) (users : list UsersList.UserWithRole) :
  UsersList.handleDeleteUser auth_uid userId db users
  = (db, filter (fun u => negb (Nat.eqb (UsersList.id u) userId)) users)
  /\ ~ In userId
         (map UsersList.id (snd (UsersList.handleDeleteUser auth_uid userId
                                   db users))).
Proof.
  unfold UsersList.handleDeleteUser, Rls.delete_profile. cbn [snd]. split.
  - rewrite delete_reaches_no_profile. now destruct db.
  - intro Hin. apply in_map_iff in Hin. destruct Hin as [u [Hid Hin]].
    apply filter_In in Hin. destruct Hin as [_ Hne].
    rewrite Hid, Nat.eqb_refl in Hne. discriminate.
Qed.

Lemma find_nothing (A : Type) (f : A -> bool) (l : list A) :
  (forall x, In x l -> f x = false) -> find f l = None.
Proof.
  intro Hall. induction l as [|a l IH]; [reflexivity|]. cbn [find].
  rewrite (Hall a (or_introl eq_refl)).
  apply IH. intros x Hx. apply Hall. now right.
Qed.

(** X10.  A user who has a profile but no role row is listed by
    [fetchUsers] with the role [view_only] and an empty [role_id], although
    the database gives that user no right at all, not even to view; and
    [handleRoleChange] for that entry fails (the empty id is not a uuid) and
    leaves the database as it was. *)
Theorem roleless_user_shown_view_only (auth_uid : option uuid)
    (db : Supabase.Database) (users : list UsersList.UserWithRole)
    (entry : UsersList.UserWithRole) (newRole : AppRole) :
  UsersList.fetchUsers auth_uid db users ->
  In entry users ->
  fetch_roles (Supabase.user_roles db) (UsersList.id entry) = [] ->
  UsersList.role entry = view_only
  /\ UsersList.role_id entry = None
  /\ can_view (Supabase.user_roles db) (UsersList.id entry) = false
  /\ UsersPage.handleRoleChange auth_uid (UsersList.role_id entry) newRole db
     = Err invalid_uuid.
Proof.
  intros [ps [rs [_ [Hrs ->]]]] Hin Hnone.
  apply in_map_iff in Hin. destruct Hin as [p [<- _]].
  simpl in Hnone.
  assert (Hfind : find (fun r => Nat.eqb (ur_user_id r) (Supabase.p_id p)) rs
                  = None).
  { apply find_nothing. intros r Hr.
    apply (Permutation_in _ (Permutation_sym Hrs)) in Hr.
    apply filter_In in Hr. destruct Hr as [Hr _].
    destruct (Nat.eqb (ur_user_id r) (Supabase.p_id p)) eqn:E; [|reflexivity].
    exfalso. unfold fetch_roles in Hnone.
    assert (Hin : In r (filter (fun r0 => Nat.eqb (ur_user_id r0)
                                                  (Supabase.p_id p))
                               (Supabase.user_roles db)))
      by (apply filter_In; now split).
    apply (in_map ur_role) in Hin. rewrite Hnone in Hin. exact Hin. }
  unfold UsersList.with_role. simpl. rewrite Hfind.
  repeat split.
  rewrite can_view_canView. simpl. now rewrite Hnone.
Qed.

(** A profile without a role row, seen by the administrator (user 2). *)
Definition roleless_db : Supabase.Database :=
  {| Supabase.profiles :=
       [Supabase.mk_profile 5 "eve@x"%string None 0%Z 0%Z;
        Supabase.mk_profile 2 "adm@x"%string None 0%Z 0%Z];
     Supabase.user_roles := [mk_user_role 12 2 admin 0%Z];
     Supabase.transactions := [] |}.

Lemma roleless_user_shown_view_only_witness :
  UsersList.role (UsersList.mk_entry 5 "eve@x"%string None view_only None)
    = view_only
  /\ UsersList.role_id (UsersList.mk_entry 5 "eve@x"%string None view_only None)
     = None
  /\ can_view (Supabase.user_roles roleless_db) 5 = false
  /\ UsersPage.handleRoleChange (Some 2) None edit roleless_db
     = Err invalid_uuid.
Proof.
  refine (roleless_user_shown_view_only (Some 2) roleless_db
            [UsersList.mk_entry 5 "eve@x"%string None view_only None;
             UsersList.mk_entry 2 "adm@x"%string None admin (Some 12)]
            (UsersList.mk_entry 5 "eve@x"%string None view_only None)
            edit _ (or_introl eq_refl) eq_refl).
  exists (Supabase.profiles roleless_db), (Supabase.user_roles roleless_db).
  split; [apply Permutation_refl|]. split; [apply Permutation_refl|].
  reflexivity.
Defined.

Lemma find_hd_filter (A : Type) (f : A -> bool) (l : list A) :
  find f l = hd_error (filter f l).
Proof.
  induction l as [|a l IH]; [reflexivity|]. simpl. now destruct (f a).
Qed.

Lemma find_the_only_match (A : Type) (f : A -> bool) (l l' : list A) (x : A) :
  Permutation l l' -> filter f l = [x] -> find f l' = Some x.
Proof.
  intros Hperm Hone. rewrite find_hd_filter.
  apply (Permutation_filter_both f) in Hperm. rewrite Hone in Hperm.
  apply Permutation_length_1_inv in Hperm. now rewrite Hperm.
Qed.

(** An administrator sees every profile and every role row. *)
Lemma admin_selects_all_profiles (db : Supabase.Database) (actor : uuid)
    (rows : list Supabase.profile) :
  Rls.is_admin db (Some actor) = true ->
  filter (Rls.permits Rls.profiles_policies Rls.SELECT db (Some actor)) rows
  = rows.
Proof.
  intro Hadm. induction rows as [|p rows IH]; [reflexivity|].
  cbn [filter]. unfold Rls.permits at 1. cbn [existsb Rls.profiles_policies
    Rls.policy_for Rls.policy_using Rls.applies_to andb].
  rewrite Hadm. cbn [orb]. now rewrite IH.
Qed.

Lemma admin_selects_all_roles (db : Supabase.Database) (actor : uuid)
    (rows : list user_role) :
  Rls.is_admin db (Some actor) = true ->
  filter (Rls.permits Rls.user_roles_policies Rls.SELECT db (Some actor)) rows
  = rows.
Proof.
  intro Hadm. induction rows as [|r rows IH]; [reflexivity|].
  cbn [filter]. unfold Rls.permits at 1. cbn [existsb Rls.user_roles_policies
    Rls.policy_for Rls.policy_using Rls.applies_to andb].
  rewrite Hadm. cbn [orb]. now rewrite IH.
Qed.

(** Updating the role row of [u] leaves the rows of any other user alone. *)
Lemma retarget_rows_of_another (u id a : uuid) (newRole : AppRole)
    (rows : list user_role) :
  a <> u ->
  (forall x, In x rows -> (ur_id x = id <-> ur_user_id x = u)) ->
  filter (of_user a) (map (retarget id newRole) rows) = filter (of_user a) rows.
Proof.
  intros Hne. induction rows as [|x rows IH]; intro Hone; [reflexivity|].
  cbn [map filter].
  replace (of_user a (retarget id newRole x)) with (of_user a x)
    by (unfold of_user; now rewrite retarget_user).
  rewrite IH by (intros z Hz; apply Hone; now right).
  destruct (of_user a x) eqn:E; [|reflexivity].
  f_equal. unfold retarget.
  replace (Nat.eqb (ur_id x) id) with false; [reflexivity|].
  symmetry. apply Nat.eqb_neq. intro Ex.
  apply (Hone x (or_introl eq_refl)) in Ex.
  apply Nat.eqb_eq in E. congruence.
Qed.

Lemma only_row_condition (rows : list user_role) (u : uuid) (row : user_role) :
  NoDup (map ur_id rows) ->
  filter (of_user u) rows = [row] ->
  forall x, In x rows -> (ur_id x = ur_id row <-> ur_user_id x = u).
Proof.
  intros Hids Hrow.
  assert (Hin : In row rows /\ of_user u row = true).
  { apply filter_In. rewrite Hrow. now left. }
  destruct Hin as [Hin Hu]. intros x Hx. split; intro E.
  - rewrite (NoDup_map_eq ur_id _ x row Hids Hx Hin E). now apply Nat.eqb_eq.
  - assert (Hx' : In x (filter (of_user u) rows)).
    { apply filter_In. split; [assumption | now apply Nat.eqb_eq]. }
    rewrite Hrow in Hx'. destruct Hx' as [<-|[]]. reflexivity.
Qed.

(** X11.  For an administrator changing another user's role on the users
    page, when that user has exactly one role row: the entry [fetchUsers]
    shows for the user carries that row's role and id; [handleRoleChange]
    with the entry's [role_id] succeeds; and every later [fetchUsers] by the
    administrator shows the user with the new role and the same [role_id]. *)
Theorem role_change_is_listed (db : Supabase.Database) (actor u : uuid)
    (row : user_role) (newRole : AppRole)
    (users : list UsersList.UserWithRole) (entry : UsersList.UserWithRole) :
  Rls.is_admin db (Some actor) = true ->
  actor <> u ->
  Supabase.unique_user_id_role (Supabase.user_roles db) = true ->
  NoDup (map ur_id (Supabase.user_roles db)) ->
  filter (of_user u) (Supabase.user_roles db) = [row] ->
  UsersList.fetchUsers (Some actor) db users ->
  In entry users ->
  UsersList.id entry = u ->
  UsersList.role entry = ur_role row
  /\ UsersList.role_id entry = Some (ur_id row)
  /\ exists db',
       UsersPage.handleRoleChange (Some actor) (UsersList.role_id entry)
         newRole db = Ok db'
       /\ Supabase.profiles db' = Supabase.profiles db
       /\ Supabase.transactions db' = Supabase.transactions db
       /\ forall users' entry',
            UsersList.fetchUsers (Some actor) db' users' ->
            In entry' users' ->
            UsersList.id entry' = u ->
            UsersList.role entry' = newRole
            /\ UsersList.role_id entry' = Some (ur_id row).
Proof.
  intros Hadm Hne Huniq Hids Hrow [ps [rs [_ [Hrs ->]]]] Hin Hid.
  pose proof (only_row_condition _ _ _ Hids Hrow) as Hone.
  apply in_map_iff in Hin. destruct Hin as [p [<- _]]. simpl in Hid.
  unfold Rls.select_all in Hrs. rewrite admin_selects_all_roles in Hrs
    by assumption.
  assert (Hfind : find (fun r => Nat.eqb (ur_user_id r) (Supabase.p_id p)) rs
                  = Some row).
  { rewrite Hid. apply (find_the_only_match _ _ _ _ _ Hrs Hrow). }
  unfold UsersList.with_role. simpl. rewrite Hfind.
  split; [reflexivity|]. split; [reflexivity|].
  unfold UsersPage.handleRoleChange, Supabase.update_role_where_id.
  change (Supabase.policy_manage_roles db (Some actor))
    with (Rls.is_admin db (Some actor)).
  rewrite Hadm.
  change (fun r : user_role =>
            if Nat.eqb (ur_id r) (ur_id row) then Supabase.set_role newRole r
            else r) with (retarget (ur_id row) newRole).
  rewrite (@retarget_keeps_unique u (ur_id row) newRole _ Hone Hids Huniq).
  eexists. split; [reflexivity|]. split; [reflexivity|].
  split; [reflexivity|].
  intros users' entry' [ps' [rs' [_ [Hrs' ->]]]] Hin' Hid'.
  apply in_map_iff in Hin'. destruct Hin' as [p' [<- _]]. simpl in Hid'.
  unfold Rls.select_all in Hrs'. simpl Supabase.user_roles in Hrs'.
  assert (Hadm' : Rls.is_admin
                    (Supabase.with_user_roles db
                       (map (retarget (ur_id row) newRole)
                            (Supabase.user_roles db)))
                    (Some actor) = true).
  { unfold Rls.is_admin, Supabase.as_user in *. simpl.
    rewrite has_role_includes in *. rewrite fetch_roles_of_user in *.
    now rewrite (retarget_rows_of_another u (ur_id row) actor newRole _
                   Hne Hone). }
  rewrite admin_selects_all_roles in Hrs' by exact Hadm'.
  assert (Hfind' : find (fun r => Nat.eqb (ur_user_id r) (Supabase.p_id p')) rs'
                   = Some (Supabase.set_role newRole row)).
  { rewrite Hid'. apply (find_the_only_match _ _ _ _ _ Hrs').
    change (fun r : user_role => Nat.eqb (ur_user_id r) u) with (of_user u).
    rewrite (@retarget_own_rows u (ur_id row) newRole _ Hone), Hrow.
    reflexivity. }
  unfold UsersList.with_role. simpl. rewrite Hfind'. split; reflexivity.
Qed.

(** Users 1 and 2 with their profiles; user 2 is the administrator. *)
Definition page_db : Supabase.Database :=
  {| Supabase.profiles :=
       [Supabase.mk_profile 1 "ana@x"%string None 0%Z 0%Z;
        Supabase.mk_profile 2 "adm@x"%string None 0%Z 0%Z];
     Supabase.user_roles :=
       [mk_user_role 10 1 view_only 0%Z; mk_user_role 12 2 admin 0%Z];
     Supabase.transactions := [] |}.

Definition page_users : list UsersList.UserWithRole :=
  [UsersList.mk_entry 1 "ana@x"%string None view_only (Some 10);
   UsersList.mk_entry 2 "adm@x"%string None admin (Some 12)].

Lemma role_change_is_listed_witness :
  view_only = view_only
  /\ Some 10 = Some 10
  /\ exists db',
       UsersPage.handleRoleChange (Some 2) (Some 10) edit page_db = Ok db'
       /\ Supabase.profiles db' = Supabase.profiles page_db
       /\ Supabase.transactions db' = Supabase.transactions page_db
       /\ forall users' entry',
            UsersList.fetchUsers (Some 2) db' users' ->
            In entry' users' ->
            UsersList.id entry' = 1 ->
            UsersList.role entry' = edit
            /\ UsersList.role_id entry' = Some 10.
Proof.
  refine (role_change_is_listed page_db 2 1 (mk_user_role 10 1 view_only 0%Z)
            edit page_users
            (UsersList.mk_entry 1 "ana@x"%string None view_only (Some 10))
            eq_refl _ eq_refl _ eq_refl _ (or_introl eq_refl) eq_refl).
  - discriminate.
  - simpl. repeat constructor; simpl; intuition discriminate.
  - exists (Supabase.profiles page_db), (Supabase.user_roles page_db).
    split; [apply Permutation_refl|]. split; [apply Permutation_refl|].
    reflexivity.
Defined.

(** ** Deleting and the uniqueness of ids *)

Lemma canDelete_policy (db : Supabase.Database) (user : uuid) :
  Supabase.policy_delete db (Some user)
  = canDelete (fetch_roles (Supabase.user_roles db) user).
Proof. apply can_delete_canDelete. Qed.

(** X12.  [deleteTransaction] by a user who may delete removes exactly the
    stored transactions with the given id, keeps all others in their order,
    and returns [true]; afterwards no stored transaction has that id and no
    list fetched by that user shows it. *)
Theorem delete_removes_exactly_target (db : Supabase.Database) (user : uuid)
    (id : uuid) (state : list Transaction) :
  canDelete (fetch_roles (Supabase.user_roles db) user) = true ->
  exists db',
    Hook.deleteTransaction (Some user) id db state
    = (db', filter (fun t => negb (Nat.eqb (Tx.id t) id)) state, true)
    /\ Supabase.transactions db'
       = filter (fun t => negb (Nat.eqb (Row.id t) id))
                (Supabase.transactions db)
    /\ Supabase.user_roles db' = Supabase.user_roles db
    /\ ~ In id (stored_ids (Supabase.transactions db'))
    /\ (forall old state',
           Hook.fetchTransactions (Some user) db' old state' ->
           ~ In id (map Tx.id state')).
Proof.
  intro Hdel. eexists. split; [reflexivity|].
  assert (Hrows : Supabase.transactions (Supabase.delete_transaction db
                                           (Some user) id)
                  = filter (fun t => negb (Nat.eqb (Row.id t) id))
                           (Supabase.transactions db)).
  { unfold Supabase.delete_transaction.
    rewrite canDelete_policy, Hdel. reflexivity. }
  assert (Hgone : ~ In id (stored_ids (Supabase.transactions
                     (Supabase.delete_transaction db (Some user) id)))).
  { rewrite Hrows. unfold stored_ids. intro Hin. apply in_map_iff in Hin.
    destruct Hin as [r [Hid Hin]]. apply filter_In in Hin.
    destruct Hin as [_ Hne]. rewrite Hid, Nat.eqb_refl in Hne. discriminate. }
  split; [exact Hrows|]. split; [reflexivity|]. split; [exact Hgone|].
  intros old state' [data [[Hperm _] ->]] Hin.
  apply Hgone. rewrite map_map in Hin. apply in_map_iff in Hin.
  destruct Hin as [r [Hid Hin]]. apply (Permutation_in _ (Permutation_sym Hperm))
    in Hin.
  unfold Supabase.visible_transactions in Hin.
  destruct (Supabase.policy_select _ _); [|contradiction].
  unfold stored_ids. apply in_map_iff. exists r. now split.
Qed.

Lemma delete_removes_exactly_target_witness :
  exists db',
    Hook.deleteTransaction (Some 3) 100 editor_db []
    = (db', filter (fun t => negb (Nat.eqb (Tx.id t) 100)) [], true)
    /\ Supabase.transactions db'
       = filter (fun t => negb (Nat.eqb (Row.id t) 100))
                (Supabase.transactions editor_db)
    /\ Supabase.user_roles db' = Supabase.user_roles editor_db
    /\ ~ In 100 (stored_ids (Supabase.transactions db'))
    /\ (forall old state',
           Hook.fetchTransactions (Some 3) db' old state' ->
           ~ In 100 (map Tx.id state')).
Proof.
  exact (delete_removes_exactly_target editor_db 3 100 [] eq_refl).
Defined.

Lemma assign_where_id_ids (may_touch : bool) (u : Updates)
    (amount : option numeric_12_2) (now : timestamp) (id : uuid)
    (rows : list DbTransaction) :
  stored_ids (assign_where_id may_touch u amount now id rows)
  = stored_ids rows
  /\ map Row.user_id (assign_where_id may_touch u amount now id rows)
     = map Row.user_id rows.
Proof.
  unfold stored_ids, assign_where_id. rewrite !map_map.
  split; apply map_ext; intro t; now destruct (reached may_touch id t).
Qed.

(** Whatever the outcome of the statement, the ids and owners stay. *)
Lemma update_where_id_ids (may_touch : bool) (u : Updates) (now : timestamp)
    (id : uuid) (rows rows' : list DbTransaction) :
  update_where_id may_touch u now id rows = Ok rows' ->
  stored_ids rows' = stored_ids rows
  /\ map Row.user_id rows' = map Row.user_id rows.
Proof.
  unfold update_where_id. destruct (existsb _ rows).
  - destruct (assigned_amount u) as [amount|e]; [|discriminate].
    intros [= <-]. apply assign_where_id_ids.
  - intros [= <-]. now split.
Qed.

Lemma delete_where_id_ids_unique (may_touch : bool) (id : uuid)
    (rows : list DbTransaction) :
  NoDup (stored_ids rows) ->
  NoDup (stored_ids (delete_where_id may_touch id rows)).
Proof.
  unfold stored_ids, delete_where_id.
  induction rows as [|t rows IH]; intro Hnd; [constructor|].
  cbn [map filter] in *. apply NoDup_cons_iff in Hnd.
  destruct Hnd as [Hfirst Hrest].
  destruct (negb (may_touch && Nat.eqb (Row.id t) id)); [|now apply IH].
  cbn [map]. apply NoDup_cons_iff. split; [|now apply IH].
  intro Hin. apply Hfirst. apply in_map_iff in Hin.
  destruct Hin as [r [Er Hr]]. apply filter_In in Hr.
  apply in_map_iff. exists r. tauto.
Qed.

(** X13.  The client operations keep transaction ids unique: starting from
    a store without duplicate ids, [addTransaction] with an id not yet in
    use, [updateTransaction] and [deleteTransaction] each leave a store
    without duplicate ids; an update does not change which ids are stored,
    nor any row's owner. *)
Theorem ids_stay_unique (db : Supabase.Database) :
  NoDup (stored_ids (Supabase.transactions db)) ->
  (forall user gen_random_uuid now t state,
      ~ In gen_random_uuid (stored_ids (Supabase.transactions db)) ->
      NoDup (stored_ids (Supabase.transactions
               (fst (fst (Hook.addTransaction user gen_random_uuid now t
                            db state)))))) /\
  (forall user now id t,
      let db' := fst (Hook.updateTransaction user now id t db) in
      stored_ids (Supabase.transactions db')
        = stored_ids (Supabase.transactions db)
      /\ map Row.user_id (Supabase.transactions db')
         = map Row.user_id (Supabase.transactions db)
      /\ NoDup (stored_ids (Supabase.transactions db'))) /\
  (forall user id state,
      NoDup (stored_ids (Supabase.transactions
               (fst (fst (Hook.deleteTransaction user id db state)))))).
Proof.
  intro Hnd. repeat apply conj.
  - intros user g now t state Hfresh. unfold Hook.addTransaction.
    destruct user as [uid|]; [|exact Hnd].
    unfold Supabase.insert_transaction.
    destruct (read_numeric_12_2 _) as [read|e]; [|exact Hnd].
    destruct (Supabase.policy_insert _ _ _); [|exact Hnd].
    destruct (not_null read) as [stored|e]; [|exact Hnd].
    simpl. unfold stored_ids. rewrite map_app. simpl.
    apply NoDup_app; [exact Hnd | repeat constructor; intros [] |].
    intros x Hx [<-|[]]. now apply Hfresh.
  - intros user now id t db'. subst db'. unfold Hook.updateTransaction,
      Supabase.update_transaction.
    destruct (no_columns _); [now repeat split|].
    destruct (update_where_id _ _ _ _ _) as [rows'|e] eqn:Hupd;
      [|now repeat split].
    destruct (update_where_id_ids _ _ _ _ _ _ Hupd) as [Hids Howners].
    cbn [fst Supabase.transactions Supabase.with_transactions].
    rewrite Hids. repeat split; assumption.
  - intros user id state. simpl. now apply delete_where_id_ids_unique.
Qed.

Lemma ids_stay_unique_witness :
  let db' := fst (Hook.updateTransaction (Some 3) 9%Z 100
                    (change_amount 7%float) editor_db) in
  stored_ids (Supabase.transactions db')
    = stored_ids (Supabase.transactions editor_db)
  /\ map Row.user_id (Supabase.transactions db')
     = map Row.user_id (Supabase.transactions editor_db)
  /\ NoDup (stored_ids (Supabase.transactions db')).
Proof.
  refine (proj1 (proj2 (ids_stay_unique editor_db _)) (Some 3) 9%Z 100
            (change_amount 7%float)).
  simpl. repeat constructor; simpl; intuition discriminate.
Defined.

(** ** The edge function's update on an unknown id or without fields *)




(** ** Filters and the summary shown with them *)

(** X15.  While the filter panel reports no active filter, the page shows
    every transaction, in order; this is so for the page's initial filters
    and after "clear". *)
Theorem inactive_filters_show_all :
  (forall (filters : Page.Filters) (transactions : list Transaction),
      Page.hasActiveFilters filters = false ->
      Page.filteredTransactions transactions filters = transactions) /\
  Page.hasActiveFilters Page.initialFilters = false /\
  Page.hasActiveFilters Page.clearFilters = false.
Proof.
  split; [|split; reflexivity].
  intros [start stop ty s] ts Hinactive.
  unfold Page.hasActiveFilters in Hinactive. simpl in Hinactive.
  destruct start; [discriminate|]. destruct stop; [discriminate|].
  destruct ty; [|discriminate]. destruct s; [|discriminate].
  unfold Page.filteredTransactions, Hook.getFilteredTransactions.
  induction ts as [|t ts IH]; [reflexivity|].
  simpl. now rewrite IH.
Qed.

(** The page's filters with the type filter replaced. *)
Definition with_type (filters : Page.Filters) (type : Hook.TypeFilter)
  : Page.Filters :=
  {| Page.startDate := Page.startDate filters;
     Page.endDate := Page.endDate filters;
     Page.type := type;
     Page.search := Page.search filters |}.

Lemma filter_filter_agree (A : Type) (p q q' : A -> bool) (l : list A) :
  (forall x, p x = true -> q x = q' x) ->
  filter p (filter q l) = filter p (filter q' l).
Proof.
  intro H. induction l as [|a l IH]; [reflexivity|]. simpl.
  destruct (p a) eqn:Ep.
  - rewrite <- (H a Ep). destruct (q a); simpl; rewrite ?Ep; now rewrite IH.
  - destruct (q a), (q' a); simpl; rewrite ?Ep; exact IH.
Qed.

Lemma filter_filter_none (A : Type) (p q : A -> bool) (l : list A) :
  (forall x, q x = true -> p x = false) -> filter p (filter q l) = [].
Proof.
  intro H. induction l as [|a l IH]; [reflexivity|]. simpl.
  destruct (q a) eqn:Eq; simpl; [rewrite (H a Eq)|]; exact IH.
Qed.

Lemma keeps_type_only (filters : Page.Filters) (type : TransactionType)
    (t : Transaction) :
  Hook.keeps (Page.as_hook_filters (with_type filters (Hook.only type))) t
  = TransactionType_eqb (Tx.type t) type
    && Hook.keeps (Page.as_hook_filters (with_type filters Hook.all)) t.
Proof.
  unfold Hook.keeps. simpl.
  destruct (match Page.startDate filters with Some _ => _ | None => _ end);
    [now rewrite andb_false_r|].
  destruct (match Page.endDate filters with Some _ => _ | None => _ end);
    [now rewrite andb_false_r|].
  now destruct (TransactionType_eqb (Tx.type t) type).
Qed.

(** X16.  With the type filter set to income, the summary the page shows
    has expense 0, and its income is the income of the summary shown with
    type 'all' under the same dates and search; likewise with the type
    filter set to expense. *)
Theorem summary_under_type_filter (filters : Page.Filters)
    (transactions : list Transaction) :
  let everything := Page.summary transactions (with_type filters Hook.all) in
  let incomes :=
    Page.summary transactions (with_type filters (Hook.only income)) in
  let expenses :=
    Page.summary transactions (with_type filters (Hook.only expense)) in
  Hook.Sum.expense incomes = 0%float
  /\ Hook.Sum.income incomes = Hook.Sum.income everything
  /\ Hook.Sum.income expenses = 0%float
  /\ Hook.Sum.expense expenses = Hook.Sum.expense everything.
Proof.
  unfold Page.summary, Page.filteredTransactions, Hook.getFilteredTransactions.
  rewrite !getSummary_sums. cbn [Hook.Sum.income Hook.Sum.expense].
  assert (Hsame : forall type,
             filter (fun t : Transaction => TransactionType_eqb (Tx.type t) type)
               (filter (Hook.keeps (Page.as_hook_filters
                                      (with_type filters (Hook.only type))))
                       transactions)
             = filter (fun t : Transaction => TransactionType_eqb (Tx.type t) type)
                 (filter (Hook.keeps (Page.as_hook_filters
                                        (with_type filters Hook.all)))
                         transactions)).
  { intro type. apply filter_filter_agree. intros t Ht.
    now rewrite keeps_type_only, Ht. }
  assert (Hnone : forall type other,
             TransactionType_eqb other type = false ->
             filter (fun t : Transaction => TransactionType_eqb (Tx.type t) other)
               (filter (Hook.keeps (Page.as_hook_filters
                                      (with_type filters (Hook.only type))))
                       transactions)
             = []).
  { intros type other Hdiff. apply filter_filter_none. intros t Ht.
    rewrite keeps_type_only in Ht. apply andb_true_iff in Ht.
    destruct Ht as [Ht _].
    destruct (Tx.type t), type, other; simpl in *; congruence. }
  unfold is_income, is_expense.
  rewrite (Hsame income), (Hsame expense).
  rewrite (Hnone income expense eq_refl), (Hnone expense income eq_refl).
  repeat split.
Qed.

(** ** Signing up, signing in, and the stored session *)

Lemma filter_by_key_absent (A : Type) (key : A -> nat) (l : list A) (k : nat) :
  ~ In k (map key l) -> filter (fun y => Nat.eqb (key y) k) l = [].
Proof.
  induction l as [|a l IH]; intro Habsent; [reflexivity|]. simpl in *.
  destruct (Nat.eqb_spec (key a) k) as [E|E].
  - exfalso. apply Habsent. now left.
  - apply IH. tauto.
Qed.

Lemma filter_by_key_unique (A : Type) (key : A -> nat) (l : list A) (x : A) :
  NoDup (map key l) -> In x l ->
  filter (fun y => Nat.eqb (key y) (key x)) l = [x].
Proof.
  induction l as [|a l IH]; intros Hnd Hin; [contradiction|].
  simpl in Hnd. inversion Hnd as [|? ? Hnotin Hnd']; subst. simpl.
  destruct Hin as [->|Hin].
  - rewrite Nat.eqb_refl. f_equal. now apply filter_by_key_absent.
  - destruct (Nat.eqb_spec (key a) (key x)) as [E|E].
    + exfalso. apply Hnotin. rewrite E. now apply in_map.
    + now apply IH.
Qed.

Lemma filter_and_nil (A : Type) (p q : A -> bool) (l : list A) :
  filter p l = [] -> filter (fun x => p x && q x) l = [].
Proof.
  induction l as [|a l IH]; [reflexivity|]. simpl.
  destruct (p a); [discriminate|]. exact IH.
Qed.

Lemma fetch_roles_absent (rows : list user_role) (u : uuid) :
  (forall r, In r rows -> ur_user_id r <> u) -> fetch_roles rows u = [].
Proof.
  intro H. unfold fetch_roles.
  rewrite (filter_by_key_absent _ ur_user_id rows u); [reflexivity|].
  intro Hin. apply in_map_iff in Hin. destruct Hin as [r [E Hr]].
  exact (H r Hr E).
Qed.

(** X17.  Signing up and then signing in works: after a successful [signup]
    whose stored hash is [crypt] of the password, [login] with the same
    email and password returns the new user, whose only role is
    [view_only], also for the first user ever.  What is asked of [crypt] is
    what pgcrypto provides: hashing the password with the stored hash as
    salt gives the stored hash again. *)
Theorem signup_then_login (crypt : string -> string -> string)
    (db db' : Edge.Database) (email password salt : string)
    (fullName : option string) (env : Edge.SignupEnv) (u : Edge.user) :
  crypt password (crypt password salt) = crypt password salt ->
  Edge.password_hash env = crypt password salt ->
  (forall r, In r (Edge.user_roles db) -> ur_user_id r <> Edge.new_user_id env) ->
  Edge.signup db email fullName env = Ok (db', u) ->
  Session.login crypt db' email password
  = Some {| Session.id := Edge.new_user_id env;
            Session.email := email;
            Session.full_name := fullName;
            Session.created_at := Edge.now env;
            Session.roles := [view_only] |}.
Proof.
  intros Hcrypt Hhash Hfresh. unfold Edge.signup.
  destruct (filter (fun u0 => String.eqb (Edge.u_email u0) email) (Edge.users db))
    as [|x xs] eqn:Hnone; [|discriminate].
  cbn [List.length Nat.ltb Nat.leb]. rewrite count_is_never_the_number_1.
  intro H. injection H as <- <-.
  unfold Session.login. cbn [Edge.users]. rewrite filter_app.
  rewrite (filter_and_nil _ _ _ _ Hnone). cbn [app filter Edge.u_email
    Edge.u_password_hash].
  rewrite String.eqb_refl, Hhash, Hcrypt, String.eqb_refl. cbn [andb].
  unfold Session.with_roles. cbn [Edge.u_id Edge.u_email Edge.u_full_name
    Edge.u_created_at Edge.user_roles].
  unfold fetch_roles. rewrite filter_app, map_app.
  fold (fetch_roles (Edge.user_roles db) (Edge.new_user_id env)).
  rewrite (fetch_roles_absent _ _ Hfresh). cbn [filter ur_user_id].
  rewrite Nat.eqb_refl. reflexivity.
Qed.

(** A stand-in for [crypt] that keeps the salt's first two characters. *)
Definition toy_crypt (password salt : string) : string :=
  (String.substring 0 2 salt ++ password)%string.

Lemma signup_then_login_witness :
  Session.login toy_crypt
    {| Edge.users :=
         [Edge.mk_user 1 "ana@x"%string "s1pw"%string None 5%Z];
       Edge.user_roles := [mk_user_role 101 1 view_only 5%Z];
       Edge.transactions := [] |}
    "ana@x"%string "pw"%string
  = Some {| Session.id := 1; Session.email := "ana@x"%string;
            Session.full_name := None; Session.created_at := 5%Z;
            Session.roles := [view_only] |}.
Proof.
  refine (signup_then_login toy_crypt Edge.empty _ "ana@x"%string "pw"%string
            "s1"%string None (Edge.mk_env 1 "s1pw"%string 101 5%Z) _
            eq_refl eq_refl _ eq_refl).
  intros r [].
Defined.

(** X18.  The session is kept as the user's id alone.  After a successful
    [signIn], a reload of the page ([checkSession] on a freshly mounted
    provider over the same storage and an unchanged database with unique
    user ids) restores the same user, profile and roles, without any
    password; after [signOut] the storage is empty and a reload restores
    nobody, so no permission predicate holds. *)
Theorem session_survives_reload (crypt : string -> string -> string)
    (db : Edge.Database) (email password : string)
    (st st' : Session.AuthState) :
  NoDup (map Edge.u_id (Edge.users db)) ->
  Session.signIn crypt db email password st = (st', false) ->
  (let reloaded :=
     Session.checkSession db (Session.mounted (Session.localStorage st')) in
   Session.user reloaded = Session.user st'
   /\ Session.profile reloaded = Session.profile st'
   /\ Session.state_roles reloaded = Session.state_roles st'
   /\ Session.localStorage reloaded = Session.localStorage st'
   /\ Session.user reloaded <> None
   /\ Session.loading reloaded = false) /\
  (let reloaded :=
     Session.checkSession db
       (Session.mounted (Session.localStorage (Session.signOut st'))) in
   Session.user reloaded = None
   /\ Session.state_roles reloaded = []
   /\ canView (Session.state_roles reloaded) = false
   /\ Session.localStorage reloaded = None).
Proof.
  intros Hids. unfold Session.signIn, Session.login.
  destruct (filter _ (Edge.users db)) as [|u rest] eqn:Hsel; [discriminate|].
  intro H. injection H as <-.
  assert (Hin : In u (Edge.users db)).
  { assert (Hf : In u (u :: rest)) by now left.
    rewrite <- Hsel in Hf. now apply filter_In in Hf. }
  split; [|now repeat split].
  unfold Session.checkSession, Session.mounted, Session.setUserData.
  cbn [Session.localStorage Session.with_roles Session.id].
  unfold Session.getUser.
  rewrite (filter_by_key_unique _ Edge.u_id _ u Hids Hin).
  cbn. repeat split. discriminate.
Qed.

(** A directory with one user, 'ana@x' with password 'pw', who has been
    made administrator. *)
Definition one_user_edge_db : Edge.Database :=
  {| Edge.users := [Edge.mk_user 1 "ana@x"%string "s1pw"%string None 5%Z];
     Edge.user_roles := [mk_user_role 101 1 admin 5%Z];
     Edge.transactions := [] |}.

Definition signed_in : Session.AuthState :=
  fst (Session.signIn toy_crypt one_user_edge_db "ana@x"%string "pw"%string
         (Session.mounted None)).

Lemma session_survives_reload_witness :
  (let reloaded :=
     Session.checkSession one_user_edge_db
       (Session.mounted (Session.localStorage signed_in)) in
   Session.user reloaded = Session.user signed_in
   /\ Session.profile reloaded = Session.profile signed_in
   /\ Session.state_roles reloaded = Session.state_roles signed_in
   /\ Session.localStorage reloaded = Session.localStorage signed_in
   /\ Session.user reloaded <> None
   /\ Session.loading reloaded = false) /\
  (let reloaded :=
     Session.checkSession one_user_edge_db
       (Session.mounted (Session.localStorage (Session.signOut signed_in))) in
   Session.user reloaded = None
   /\ Session.state_roles reloaded = []
   /\ canView (Session.state_roles reloaded) = false
   /\ Session.localStorage reloaded = None).
Proof.
  refine (session_survives_reload toy_crypt one_user_edge_db "ana@x"%string
            "pw"%string (Session.mounted None) signed_in _ eq_refl).
  simpl. repeat constructor. intros [].
Defined.

(** ** One role row per user, in the edge function's directory *)

(** Every registered user has exactly one role row. *)
Definition one_role_each (db : Edge.Database) : Prop :=
  forall u, In u (Edge.users db) ->
            exists r, filter (of_user (Edge.u_id u)) (Edge.user_roles db) = [r].

Lemma filter_of_user_others (u a : uuid) (rows : list user_role) :
  a <> u ->
  filter (of_user a) (filter (not_of_user u) rows) = filter (of_user a) rows.
Proof.
  intro Hne. induction rows as [|x rows IH]; [reflexivity|]. simpl.
  unfold not_of_user at 1. destruct (of_user u x) eqn:Eu; simpl.
  - rewrite IH. destruct (of_user a x) eqn:Ea; [|reflexivity].
    unfold of_user in Eu, Ea. apply Nat.eqb_eq in Eu, Ea. congruence.
  - now rewrite IH.
Qed.

(** X19.  The edge function keeps "every registered user has exactly one
    role row": it holds in the empty directory, a successful [signup] with
    a user id not seen before keeps it, and [updateUserRole] keeps it
    whatever user and role it is given. *)
Theorem one_role_each_is_kept (db : Edge.Database) :
  one_role_each Edge.empty /\
  (one_role_each db ->
   (forall email fullName env db' u,
       ~ In (Edge.new_user_id env) (map Edge.u_id (Edge.users db)) ->
       (forall r, In r (Edge.user_roles db) ->
                  ur_user_id r <> Edge.new_user_id env) ->
       Edge.signup db email fullName env = Ok (db', u) ->
       one_role_each db') /\
   (forall userId role gen_random_uuid now,
       one_role_each
         (fst (Edge.updateUserRole db userId role gen_random_uuid now)))).
Proof.
  split; [intros u []|]. intro Hinv. split.
  - intros email fullName env db' u Hnew Hfresh. unfold Edge.signup.
    destruct (Nat.ltb 0 _); [discriminate|].
    rewrite count_is_never_the_number_1.
    intro H. injection H as <- <-. intros v Hv. cbn [Edge.users] in Hv.
    cbn [Edge.user_roles Edge.u_id]. rewrite filter_app.
    apply in_app_or in Hv. destruct Hv as [Hv|[<-|[]]].
    + destruct (Hinv v Hv) as [r Hr]. exists r. rewrite Hr.
      cbn [filter]. unfold of_user at 1. cbn [ur_user_id].
      replace (Nat.eqb (Edge.new_user_id env) (Edge.u_id v)) with false;
        [reflexivity|].
      symmetry. apply Nat.eqb_neq. intro E. apply Hnew. rewrite E.
      now apply in_map.
    + eexists. cbn [Edge.u_id].
      change (filter (of_user (Edge.new_user_id env)) (Edge.user_roles db))
        with (filter (fun r => Nat.eqb (ur_user_id r) (Edge.new_user_id env))
                     (Edge.user_roles db)).
      rewrite (filter_by_key_absent _ ur_user_id).
      * cbn [filter app]. unfold of_user. cbn [ur_user_id].
        rewrite Nat.eqb_refl. reflexivity.
      * intro Hin. apply in_map_iff in Hin. destruct Hin as [r [E Hr]].
        exact (Hfresh r Hr E).
  - intros userId role g now v Hv. cbn [fst Edge.updateUserRole Edge.users
      Edge.user_roles] in *.
    change (fun r : user_role => negb (Nat.eqb (ur_user_id r) userId))
      with (not_of_user userId).
    rewrite filter_app. cbn [filter]. unfold of_user at 2. cbn [ur_user_id].
    destruct (Nat.eqb_spec userId (Edge.u_id v)) as [E|E].
    + rewrite E, filter_of_not_of. eexists. reflexivity.
    + rewrite filter_of_user_others by congruence.
      destruct (Hinv v Hv) as [r Hr]. exists r. now rewrite Hr.
Qed.

Lemma one_role_each_is_kept_witness :
  one_role_each
    (fst (Edge.updateUserRole one_user_edge_db 1 view_only 102 6%Z)).
Proof.
  refine (proj2 (proj2 (one_role_each_is_kept one_user_edge_db) _)
            1 view_only 102 6%Z).
  intros u [<-|[]]. eexists. reflexivity.
Defined.

(** ** The edge function's insert and listing *)

(** X20.  The edge function's [insertTransaction] asks for no role: when
    the column takes the amount, it stores the row with the owner named in
    the request and the amount rounded to two decimals; the row then appears
    in every [getTransactions] for that owner and the listing of any other
    user is what it was.  When the column refuses the amount, the action
    fails with the column's error and nothing is stored. *)
Theorem edge_insert_then_list (db : Edge.Database) (data : InsertValues)
    (gen_random_uuid : uuid) (now : timestamp) :
  (forall amount : numeric_12_2,
      to_numeric_12_2 (i_amount data) = Ok amount ->
      exists db',
        Session.insertTransaction db data gen_random_uuid now
        = Ok (db', new_row gen_random_uuid now data amount)
        /\ Edge.users db' = Edge.users db
        /\ Edge.user_roles db' = Edge.user_roles db
        /\ Edge.transactions db'
           = Edge.transactions db ++ [new_row gen_random_uuid now data amount]
        /\ (forall result, Edge.getTransactions db' (i_user_id data) result ->
                           In (new_row gen_random_uuid now data amount) result)
        /\ (forall other result,
               other <> i_user_id data ->
               (Edge.getTransactions db' other result
                <-> Edge.getTransactions db other result))) /\
  (forall e : DbError,
      to_numeric_12_2 (i_amount data) = Err e ->
      Session.insertTransaction db data gen_random_uuid now = Err e).
Proof.
  unfold Session.insertTransaction. split.
  - intros amount ->. eexists. split; [reflexivity|].
    cbn [Edge.users Edge.user_roles Edge.transactions].
    split; [reflexivity|]. split; [reflexivity|]. split; [reflexivity|].
    split.
    + intros result [Hperm _]. apply (Permutation_in _ Hperm).
      apply filter_In. split.
      * apply in_or_app. right. now left.
      * apply Nat.eqb_refl.
    + intros other result Hne. unfold Edge.getTransactions.
      cbn [Edge.transactions]. rewrite filter_app. cbn [filter new_row
        Row.user_id].
      replace (Nat.eqb (i_user_id data) other) with false
        by (symmetry; apply Nat.eqb_neq; congruence).
      now rewrite app_nil_r.
  - now intros e ->.
Qed.

(** The values of a request to insert an income of 12.345 for user 1. *)
Definition income_request : InsertValues :=
  {| i_user_id := 1; i_date := 5%Z; i_type := income;
     i_client_supplier := "Acme"%string; i_amount := (12345 / 1000)%float;
     i_description := None; i_payment_method := pix |}.

Lemma edge_insert_then_list_witness :
  exists db',
    Session.insertTransaction shared_edge_db income_request 300 9%Z
    = Ok (db', new_row 300 9%Z income_request 1235%Z)
    /\ Edge.users db' = Edge.users shared_edge_db
    /\ Edge.user_roles db' = Edge.user_roles shared_edge_db
    /\ Edge.transactions db'
       = Edge.transactions shared_edge_db
         ++ [new_row 300 9%Z income_request 1235%Z]
    /\ (forall result, Edge.getTransactions db' (i_user_id income_request)
                         result ->
                       In (new_row 300 9%Z income_request 1235%Z) result)
    /\ (forall other result,
           other <> i_user_id income_request ->
           (Edge.getTransactions db' other result
            <-> Edge.getTransactions shared_edge_db other result)).
Proof.
  refine (proj1 (edge_insert_then_list shared_edge_db income_request 300 9%Z)
            1235%Z _).
  vm_compute. reflexivity.
Defined.

(** X21.  A role change made through [updateUserRole] reaches the user's
    client at the next reload: [checkSession] with the user's stored id then
    yields exactly the new role, whatever roles the client held before. *)
Theorem role_change_seen_on_reload (db : Edge.Database) (u : Edge.user)
    (role : AppRole) (gen_random_uuid : uuid) (now : timestamp) :
  NoDup (map Edge.u_id (Edge.users db)) ->
  In u (Edge.users db) ->
  let db' := fst (Edge.updateUserRole db (Edge.u_id u) role
                    gen_random_uuid now) in
  let reloaded :=
    Session.checkSession db' (Session.mounted (Some (Edge.u_id u))) in
  Session.state_roles reloaded = [role]
  /\ Session.user reloaded
     = Some (Session.mk_user_state (Edge.u_id u) (Edge.u_email u)
               (Edge.u_full_name u))
  /\ Session.localStorage reloaded = Some (Edge.u_id u).
Proof.
  intros Hids Hin db' reloaded. subst reloaded db'.
  unfold Session.checkSession, Session.mounted.
  cbn [Session.localStorage]. unfold Session.getUser.
  cbn [fst Edge.updateUserRole Edge.users].
  rewrite (filter_by_key_unique _ Edge.u_id _ u Hids Hin).
  unfold Session.setUserData, Session.with_roles.
  cbn [Session.state_roles Session.user Session.localStorage Session.roles
       Session.id Session.email Session.full_name Edge.user_roles].
  split; [|split; reflexivity].
  change (fun r : user_role => negb (Nat.eqb (ur_user_id r) (Edge.u_id u)))
    with (not_of_user (Edge.u_id u)).
  rewrite fetch_roles_of_user, filter_app, filter_of_not_of.
  cbn [filter app]. unfold of_user. cbn [ur_user_id].
  now rewrite Nat.eqb_refl.
Qed.

Lemma role_change_seen_on_reload_witness :
  let db' := fst (Edge.updateUserRole one_user_edge_db 1 edit 102 6%Z) in
  let reloaded := Session.checkSession db' (Session.mounted (Some 1)) in
  Session.state_roles reloaded = [edit]
  /\ Session.user reloaded
     = Some (Session.mk_user_state 1 "ana@x"%string None)
  /\ Session.localStorage reloaded = Some 1.
Proof.
  refine (role_change_seen_on_reload one_user_edge_db
            (Edge.mk_user 1 "ana@x"%string "s1pw"%string None 5%Z)
            edit 102 6%Z _ (or_introl eq_refl)).
  simpl. repeat constructor. intros [].
Defined.

(** ** An inverted date range *)

(** X22.  When the start date of the filter lies after its end date, no
    transaction is shown, whatever the type and search filters are. *)
Theorem inverted_range_shows_nothing (filters : Hook.Filters)
    (start stop : timestamp) (transactions : list Transaction) :
  Hook.startDate filters = Some start ->
  Hook.endDate filters = Some stop ->
  (stop < start)%Z ->
  Hook.getFilteredTransactions transactions filters = [].
Proof.
  intros Hs He Hlt. unfold Hook.getFilteredTransactions.
  induction transactions as [|t ts IH]; [reflexivity|]. simpl. rewrite IH.
  replace (Hook.keeps filters t) with false; [reflexivity|].
  symmetry. unfold Hook.keeps. rewrite Hs, He.
  destruct (Z.ltb_spec (Tx.date t) start) as [H|H]; [reflexivity|].
  replace (Tx.date t >? stop)%Z with true; [reflexivity|].
  symmetry. rewrite Z.gtb_ltb. apply Z.ltb_lt. lia.
Qed.

Definition inverted_range : Hook.Filters :=
  {| Hook.startDate := Some 9%Z; Hook.endDate := Some 3%Z;
     Hook.f_type := Some Hook.all; Hook.search := None |}.

Lemma inverted_range_shows_nothing_witness :
  Hook.getFilteredTransactions
    [mapDbToTransaction row_a; mapDbToTransaction row_b] inverted_range
  = [].
Proof.
  refine (inverted_range_shows_nothing inverted_range 9%Z 3%Z
            [mapDbToTransaction row_a; mapDbToTransaction row_b]
            eq_refl eq_refl _).
  lia.
Defined.

(** ** What a newly registered user may do *)

(** X23.  Through the [handle_new_user] trigger, a user registered into a
    directory that already has role rows (and none for the new id) can view
    the ledger and nothing more: the insert policy refuses both types, and
    the update and delete policies do not apply; a user registered into a
    directory without role rows passes every policy. *)
Theorem registered_user_rights (db : Supabase.Database)
    (NEW : Supabase.auth_user) (gen_random_uuid : uuid) (now : timestamp) :
  (forall r, In r (Supabase.user_roles db) ->
             ur_user_id r <> Supabase.au_id NEW) ->
  let db' := Supabase.handle_new_user db NEW gen_random_uuid now in
  let me := Some (Supabase.au_id NEW) in
  (Supabase.user_roles db <> [] ->
     Supabase.policy_select db' me = true
     /\ (forall type, Supabase.policy_insert db' me type = false)
     /\ Supabase.policy_update db' me = false
     /\ Supabase.policy_delete db' me = false
     /\ Supabase.policy_manage_roles db' me = false) /\
  (Supabase.user_roles db = [] ->
     Supabase.policy_select db' me = true
     /\ (forall type, Supabase.policy_insert db' me type = true)
     /\ Supabase.policy_update db' me = true
     /\ Supabase.policy_delete db' me = true
     /\ Supabase.policy_manage_roles db' me = true).
Proof.
  intros Hfresh db' me.
  assert (Hroles : fetch_roles (Supabase.user_roles db') (Supabase.au_id NEW)
                   = [if Nat.eqb (List.length (Supabase.user_roles db)) 0
                      then admin else view_only]).
  { subst db'. unfold Supabase.handle_new_user. cbn [Supabase.user_roles].
    unfold fetch_roles. rewrite filter_app, map_app.
    fold (fetch_roles (Supabase.user_roles db) (Supabase.au_id NEW)).
    rewrite (fetch_roles_absent _ _ Hfresh). cbn [filter ur_user_id].
    rewrite Nat.eqb_refl. reflexivity. }
  assert (Hpol : forall type,
             Supabase.policy_insert db' me type
             = match type with
               | income => canInsertIncome
                             (fetch_roles (Supabase.user_roles db')
                                          (Supabase.au_id NEW))
               | expense => canInsertExpense
                              (fetch_roles (Supabase.user_roles db')
                                           (Supabase.au_id NEW))
               end)
    by (intro type; apply policy_insert_by_direction).
  unfold Supabase.policy_select, Supabase.policy_update,
    Supabase.policy_delete, Supabase.policy_manage_roles, Supabase.as_user.
  subst me. cbv beta iota.
  rewrite can_view_canView, can_edit_canEdit, can_delete_canDelete,
    has_role_includes.
  split; intro Hcount.
  - destruct (Supabase.user_roles db) eqn:E; [contradiction|].
    cbn [List.length Nat.eqb] in Hroles.
    repeat split; try (rewrite Hroles; reflexivity).
    intro type. rewrite Hpol, Hroles. now destruct type.
  - rewrite Hcount in Hroles. cbn [List.length Nat.eqb] in Hroles.
    repeat split; try (rewrite Hroles; reflexivity).
    intro type. rewrite Hpol, Hroles. now destruct type.
Qed.

Lemma registered_user_rights_witness :
  let db' := Supabase.handle_new_user one_role_db
               (Supabase.mk_auth_user 7 "new@x"%string None) 70 3%Z in
  let me := Some 7 in
  (Supabase.user_roles one_role_db <> [] ->
     Supabase.policy_select db' me = true
     /\ (forall type, Supabase.policy_insert db' me type = false)
     /\ Supabase.policy_update db' me = false
     /\ Supabase.policy_delete db' me = false
     /\ Supabase.policy_manage_roles db' me = false) /\
  (Supabase.user_roles one_role_db = [] ->
     Supabase.policy_select db' me = true
     /\ (forall type, Supabase.policy_insert db' me type = true)
     /\ Supabase.policy_update db' me = true
     /\ Supabase.policy_delete db' me = true
     /\ Supabase.policy_manage_roles db' me = true).
Proof.
  refine (registered_user_rights one_role_db
            (Supabase.mk_auth_user 7 "new@x"%string None) 70 3%Z _).
  simpl. intros r [<-|[<-|[]]]; discriminate.
Defined.
